(** * For-shop: the cart widget of [script.js]

    A shallow embedding of the cart logic of [src/script.js] (the store
    operations, the render function, the QR update, the click listeners of
    the menu, the cart rows, the clear and checkout buttons and the
    navigation bar, and the start-up handler) and the properties of its
    specification.

    Modelling conventions.
    - The page state is a record [World]: the [cart] (a JavaScript [Map]),
      the part of the DOM the script reads and writes, and a [trace] of the
      calls that leave the script ([alert]) or that the specification counts
      (entries into [updateQRCode]).  Functions of the script that read or
      write this state are computations in the state monad over [World].
    - A JavaScript [Map] is an association list in insertion order; [get],
      [set] and [delete] act on the first entry with the key, as the
      language definition states them, and [wf_map] is the uniqueness of keys
      every real [Map] has.
    - Numbers (prices, quantities, totals) are IEEE 754 doubles, module
      [Num]: a finite number is an integer count of the smallest positive
      double, 2^-1074, and [+], [*] compute exactly and round to the nearest
      double, ties to even.  The sign of zero is not kept: no operation the
      script uses tells the two zeros apart.
    - Strings are sequences of bytes (UTF-8), as the source file stores
      them. *)

From Stdlib Require Import ZArith QArith Qround Qabs Lia List String Ascii Bool.
From Stdlib Require Import DecimalString DecimalN Lqa.
From ExtLib Require Import Structures.Monad Structures.MonadState.
From ExtLib Require Import Data.Monads.StateMonad.
Import ListNotations.
Import MonadNotation.

#[local] Open Scope string_scope.
#[local] Open Scope Z_scope.
#[local] Open Scope monad_scope.

(* ===================================================================== *)
(** ** JavaScript numbers *)
(* ===================================================================== *)

Module Num.

(** A number: [Fin n] is the finite number [n * 2^-1074].  The numbers of
    JavaScript are the [Fin n] whose [n] has at most 53 significant bits
    and is below 2^2098 in magnitude, the two infinities and NaN; the
    operations below return such numbers. *)
Inductive number : Type :=
| NaN
| Inf (negative : bool)
| Fin (n : Z).

(** The number 1 and 2^1024, counted in units of 2^-1074. *)
Definition unit : Z := 2 ^ 1074.

Definition huge : Z := 2 ^ 2098.

(** [a / 2^k] rounded to the nearest integer, to the even one of two
    nearest; [a] and [k] are not negative. *)
Definition round_half_even (a k : Z) : Z :=
  let q := a / 2 ^ k in
  let r := a mod 2 ^ k in
  match 2 * r ?= 2 ^ k with
  | Lt => q
  | Gt => q + 1
  | Eq => if Z.even q then q else q + 1
  end.

(** The double nearest to [a * 2^-(1074 + s)]: 53 significant bits are
    kept, none below 2^-1074, and a magnitude of 2^1024 or more is an
    infinity. *)
Definition round_at (s a : Z) : number :=
  let mag := Z.abs a in
  let k := Z.max (Z.log2 mag - 52) s in
  let n := round_half_even mag k * 2 ^ (k - s) in
  if huge <=? n then Inf (a <? 0) else Fin (Z.sgn a * n).

(** The number with the integer value [n] (a double when [n] has at most 53
    significant bits). *)
Definition int (n : Z) : number := Fin (n * unit).

Definition zero : number := int 0.

Definition one : number := int 1.

(** [x + y]. *)
Definition add (x y : number) : number :=
  match x, y with
  | NaN, _ | _, NaN => NaN
  | Inf a, Inf b => if Bool.eqb a b then Inf a else NaN
  | Inf a, Fin _ => Inf a
  | Fin _, Inf b => Inf b
  | Fin a, Fin b => round_at 0 (a + b)
  end.

(** [x * y]. *)
Definition mul (x y : number) : number :=
  match x, y with
  | NaN, _ | _, NaN => NaN
  | Inf a, Inf b => Inf (xorb a b)
  | Inf a, Fin b => if b =? 0 then NaN else Inf (xorb a (b <? 0))
  | Fin a, Inf b => if a =? 0 then NaN else Inf (xorb (a <? 0) b)
  | Fin a, Fin b => round_at 1074 (a * b)
  end.

(** [- x]. *)
Definition neg (x : number) : number :=
  match x with
  | NaN => NaN
  | Inf negative => Inf (negb negative)
  | Fin n => Fin (- n)
  end.

(** [x <= y]. *)
Definition leb (x y : number) : bool :=
  match x, y with
  | NaN, _ | _, NaN => false
  | Inf true, _ => true
  | _, Inf false => true
  | Inf false, _ => false
  | _, Inf true => false
  | Fin a, Fin b => a <=? b
  end.

(** [Number.isNaN(x)]. *)
Definition isNaN (x : number) : bool :=
  match x with
  | NaN => true
  | _ => false
  end.

(** The value of [Fin n] as a rational. *)
Definition to_Q (n : Z) : Q := Qmake n (Z.to_pos unit).

(** The value of a finite number (0 stands in for the others). *)
Definition real (x : number) : Q :=
  match x with
  | Fin n => to_Q n
  | _ => 0%Q
  end.

(** [num / den] rounded to the nearest integer, to the even one of two
    nearest. *)
Definition round_ratio_half_even (num den : Z) : Z :=
  let q := num / den in
  let r := num mod den in
  match 2 * r ?= den with
  | Lt => q
  | Gt => q + 1
  | Eq => if Z.even q then q else q + 1
  end.

(** The double nearest to a rational: what a decimal literal or
    [Number(text)] denotes. *)
Definition of_Q (x : Q) : number :=
  let n := Z.abs (Qnum x) in
  let d := Zpos (Qden x) in
  if n =? 0 then Fin 0
  else
    let e0 := Z.log2 n - Z.log2 d in
    let below :=
      if 0 <=? e0 then n <? d * 2 ^ e0 else n * 2 ^ (- e0) <? d in
    let e := if below then e0 - 1 else e0 in
    let k := Z.max (e - 52) (-1074) in
    let m :=
      if 0 <=? k then round_ratio_half_even n (d * 2 ^ k)
      else round_ratio_half_even (n * 2 ^ (- k)) d in
    let r := m * 2 ^ (k + 1074) in
    if huge <=? r then Inf (Qnum x <? 0) else Fin (Z.sgn (Qnum x) * r).

(** A finite number whose value is an integer. *)
Definition is_integer (x : number) : bool :=
  match x with
  | Fin n => n mod unit =? 0
  | _ => false
  end.

(** The integer value of such a number. *)
Definition whole (x : number) : option Z :=
  match x with
  | Fin n => if n mod unit =? 0 then Some (n / unit) else None
  | _ => None
  end.

(** A whole number of at least 1, or [Infinity]: what a quantity is. *)
Definition is_count (x : number) : bool :=
  match x with
  | NaN => false
  | Inf negative => negb negative
  | Fin n => (n mod unit =? 0) && (unit <=? n)
  end.

End Num.

Definition number : Type := Num.number.

(* ===================================================================== *)
(** ** JavaScript numbers rendered as text *)
(* ===================================================================== *)

Module JsNumber.

(** The decimal digits of a natural number, ["0"] for zero. *)
Definition digits (n : Z) : string :=
  NilZero.string_of_uint (N.to_uint (Z.to_N n)).

(** The integer [n] for which [n - y] is as close to zero as possible, the
    larger one when two are equally close. *)
Definition nearest (y : Q) : Z := Qfloor (y + (1 # 2)).

(** The bound from which [toFixed] and [ToString] leave fixed notation. *)
Definition fixed_limit : Z := 10 ^ 21.

Definition is_negative (x : Q) : bool := negb (Qle_bool 0 x).

(** [zeros k] is [k] characters ["0"]. *)
Fixpoint zeros (k : nat) : string :=
  match k with
  | O => ""
  | S k' => String "0"%char (zeros k')
  end.

(** [m] padded on the left with zeros to at least [f + 1] characters, with a
    point before its last [f] characters (nothing is done for [f = 0]). *)
Definition with_point (m : string) (f : nat) : string :=
  match f with
  | O => m
  | S _ =>
      let k := String.length m in
      let m' := if (k <=? f)%nat then zeros (f + 1 - k) ++ m else m in
      let k' := String.length m' in
      substring 0 (k' - f) m' ++ "." ++ substring (k' - f) f m'
  end.

Section Host.

(** [Number::toString] where it writes exponent notation, as for a
    magnitude of at least 10^21: it takes the shortest digits that denote
    the double, which are not modelled here, so the function is taken from
    the host. *)
Variable exponent_notation : Q -> string.

(** [x.toFixed(f)] for a finite [x]. *)
Definition toFixed (x : Q) (f : nat) : string :=
  let s := if is_negative x then "-" else "" in
  let x := if is_negative x then Qopp x else x in
  if Qle_bool (inject_Z fixed_limit) x then s ++ exponent_notation x
  else
    let n := nearest (x * inject_Z (10 ^ Z.of_nat f)) in
    s ++ with_point (digits n) f.

(** [String(q)] for an integer [q], as a template literal converts it. *)
Definition toString_int (q : Z) : string :=
  let s := if q <? 0 then "-" else "" in
  if fixed_limit <=? Z.abs q
  then s ++ exponent_notation (inject_Z (Z.abs q))
  else s ++ digits (Z.abs q).

End Host.

(** An instance of the host function: exponent notation from the decimal
    digits of the integer part, as the host prints a double whose value is
    that integer when no shorter digits denote it (10^21 gives [1e+21]). *)
Fixpoint drop_zeros (l : list ascii) : list ascii :=
  match l with
  | [] => []
  | c :: rest => if Ascii.eqb c "0"%char then drop_zeros rest else l
  end.

Definition exponent_of_integer_part (x : Q) : string :=
  let s := digits (Qfloor x) in
  let e := digits (Z.of_nat (String.length s) - 1) in
  match List.rev (drop_zeros (List.rev (list_ascii_of_string s))) with
  | [] => "0"
  | [d] => String d ("e+" ++ e)
  | d :: rest => String d ("." ++ string_of_list_ascii rest ++ "e+" ++ e)
  end.

End JsNumber.

(* ===================================================================== *)
(** ** JavaScript strings *)
(* ===================================================================== *)

Module JsString.

Definition of_bytes (codes : list nat) : string :=
  string_of_list_ascii (List.map ascii_of_nat codes).

Definition newline : string := of_bytes [10%nat].

(** [s] between two double quotes. *)
Definition quoted (s : string) : string :=
  of_bytes [34%nat] ++ s ++ of_bytes [34%nat].

(** [lines.join(sep)]. *)
Fixpoint join (sep : string) (lines : list string) : string :=
  match lines with
  | [] => ""
  | [l] => l
  | l :: rest => l ++ sep ++ join sep rest
  end.

(** The characters [encodeURIComponent] leaves as they are: letters, digits
    and [- _ . ! ~ * ' ( )]. *)
Definition unreserved (c : ascii) : bool :=
  let n := nat_of_ascii c in
  ((65 <=? n) && (n <=? 90) || (97 <=? n) && (n <=? 122)
   || (48 <=? n) && (n <=? 57)
   || List.existsb (Nat.eqb n) [45; 95; 46; 33; 126; 42; 39; 40; 41])%nat.

Definition hex_digit (n : nat) : ascii :=
  if (n <? 10)%nat then ascii_of_nat (48 + n) else ascii_of_nat (55 + n).

(** [encodeURIComponent(s)]: every other byte becomes [%XX]. *)
Fixpoint encodeURIComponent (s : string) : string :=
  match s with
  | EmptyString => EmptyString
  | String c rest =>
      if unreserved c then String c (encodeURIComponent rest)
      else
        let n := nat_of_ascii c in
        String "%"%char
          (String (hex_digit (n / 16))
             (String (hex_digit (n mod 16)) (encodeURIComponent rest)))
  end.

End JsString.

(* ===================================================================== *)
(** ** JavaScript [Map] with string keys *)
(* ===================================================================== *)

Module JsMap.

Section Ops.

Context {V : Type}.

Definition t := list (string * V).

Definition empty : t := [].

Definition size (m : t) : Z := Z.of_nat (List.length m).

Definition keys (m : t) : list string := List.map fst m.

(** [m.get(k)]: the value of the first entry with key [k]. *)
Fixpoint get (k : string) (m : t) : option V :=
  match m with
  | [] => None
  | (k', v) :: rest => if String.eqb k k' then Some v else get k rest
  end.

(** [m.set(k, v)]: the value of the entry with key [k] is replaced where it
    stands; a new key goes to the end. *)
Fixpoint set (k : string) (v : V) (m : t) : t :=
  match m with
  | [] => [(k, v)]
  | (k', v') :: rest =>
      if String.eqb k k' then (k', v) :: rest else (k', v') :: set k v rest
  end.

(** [m.delete(k)]: the entry with key [k] is dropped, the others keep their
    order. *)
Fixpoint delete (k : string) (m : t) : t :=
  match m with
  | [] => []
  | (k', v') :: rest =>
      if String.eqb k k' then rest else (k', v') :: delete k rest
  end.

(** Keys are unique in every [Map]. *)
Definition wf_map (m : t) : Prop := NoDup (keys m).

End Ops.

Arguments t : clear implicits.

End JsMap.

(* ===================================================================== *)
(** ** Data model *)
(* ===================================================================== *)

(** The argument of [addToCart]: [{ id, name, price }]. *)
Record Item : Type := mkItem {
  item_id : string;
  item_name : string;
  item_price : number
}.

(** A value of the cart: [{ id, name, price, quantity }]. *)
Record Line : Type := mkLine {
  line_id : string;
  line_name : string;
  line_price : number;
  line_quantity : number
}.

(** [{ ...item, quantity: q }]. *)
Definition spread (item : Item) (q : number) : Line :=
  mkLine (item_id item) (item_name item) (item_price item) q.

Definition with_quantity (l : Line) (q : number) : Line :=
  mkLine (line_id l) (line_name l) (line_price l) q.

Definition Cart := JsMap.t Line.

(** The result of [calculateTotals]. *)
Record Totals : Type := mkTotals {
  itemsTotal : number;
  grandTotal : number
}.

(** A row of [.cart-items], as the script makes it: [className],
    [dataset.id] and the markup assigned to [innerHTML]. *)
Record Row : Type := mkRow {
  row_className : string;
  row_dataset_id : string;
  row_innerHTML : string
}.

(** The listeners the script registers. *)
Inductive Listener : Type :=
| AddToCartClick (button : nat)
| CartItemsClick
| ClearCartClick
| CheckoutClick
| NavToggleClick
| NavLinksClick.

(** The part of the page the script reads and writes.  The elements cached
    without a test at the top of the script are taken to exist; the ones the
    script tests before use may be missing. *)
Record Dom : Type := mkDom {
  cartItems : list Row;              (* children of .cart-items *)
  cartEmptyDisplay : string;         (* .cart-empty style.display *)
  checkoutDisabled : bool;           (* #checkoutBtn disabled *)
  clearCartDisabled : bool;          (* #clearCartBtn disabled *)
  itemsTotalText : string;           (* #itemsTotal textContent *)
  grandTotalText : string;           (* #grandTotal textContent *)
  qrCodeImage : option string;       (* #qrCodeImage src, if the element exists *)
  qrAmountText : string;             (* #qrAmount textContent *)
  addButtons : nat;                  (* number of .add-to-cart buttons *)
  navToggleBtn : bool;               (* .nav-toggle exists *)
  navLinks : bool;                   (* .nav-links exists *)
  yearEl : option string;            (* #year textContent, if the element exists *)
  listeners : list Listener
}.

(** What the script does outside the page state: entering [updateQRCode]
    with an amount, and [alert] with a message. *)
Inductive Event : Type :=
| QRUpdate (amount : number)
| Alert (message : string).

Record World : Type := mkWorld {
  cart : Cart;
  dom : Dom;
  fullYear : Z;                      (* new Date().getFullYear() *)
  trace : list Event                 (* oldest first *)
}.

(** Assignments to the fields of the page state. *)

Definition set_cart (c : Cart) (w : World) : World :=
  mkWorld c (dom w) (fullYear w) (trace w).

Definition set_dom (d : Dom) (w : World) : World :=
  mkWorld (cart w) d (fullYear w) (trace w).

Definition add_event (e : Event) (w : World) : World :=
  mkWorld (cart w) (dom w) (fullYear w) (List.app (trace w) [e]).

Definition set_cartItems (rows : list Row) (d : Dom) : Dom :=
  mkDom rows (cartEmptyDisplay d) (checkoutDisabled d) (clearCartDisabled d)
    (itemsTotalText d) (grandTotalText d) (qrCodeImage d) (qrAmountText d)
    (addButtons d) (navToggleBtn d) (navLinks d) (yearEl d) (listeners d).

Definition set_cartEmptyDisplay (s : string) (d : Dom) : Dom :=
  mkDom (cartItems d) s (checkoutDisabled d) (clearCartDisabled d)
    (itemsTotalText d) (grandTotalText d) (qrCodeImage d) (qrAmountText d)
    (addButtons d) (navToggleBtn d) (navLinks d) (yearEl d) (listeners d).

Definition set_checkoutDisabled (b : bool) (d : Dom) : Dom :=
  mkDom (cartItems d) (cartEmptyDisplay d) b (clearCartDisabled d)
    (itemsTotalText d) (grandTotalText d) (qrCodeImage d) (qrAmountText d)
    (addButtons d) (navToggleBtn d) (navLinks d) (yearEl d) (listeners d).

Definition set_clearCartDisabled (b : bool) (d : Dom) : Dom :=
  mkDom (cartItems d) (cartEmptyDisplay d) (checkoutDisabled d) b
    (itemsTotalText d) (grandTotalText d) (qrCodeImage d) (qrAmountText d)
    (addButtons d) (navToggleBtn d) (navLinks d) (yearEl d) (listeners d).

Definition set_itemsTotalText (s : string) (d : Dom) : Dom :=
  mkDom (cartItems d) (cartEmptyDisplay d) (checkoutDisabled d)
    (clearCartDisabled d) s (grandTotalText d) (qrCodeImage d)
    (qrAmountText d) (addButtons d) (navToggleBtn d) (navLinks d) (yearEl d)
    (listeners d).

Definition set_grandTotalText (s : string) (d : Dom) : Dom :=
  mkDom (cartItems d) (cartEmptyDisplay d) (checkoutDisabled d)
    (clearCartDisabled d) (itemsTotalText d) s (qrCodeImage d)
    (qrAmountText d) (addButtons d) (navToggleBtn d) (navLinks d) (yearEl d)
    (listeners d).

Definition set_qrCodeImage (src : option string) (d : Dom) : Dom :=
  mkDom (cartItems d) (cartEmptyDisplay d) (checkoutDisabled d)
    (clearCartDisabled d) (itemsTotalText d) (grandTotalText d) src
    (qrAmountText d) (addButtons d) (navToggleBtn d) (navLinks d) (yearEl d)
    (listeners d).

Definition set_qrAmountText (s : string) (d : Dom) : Dom :=
  mkDom (cartItems d) (cartEmptyDisplay d) (checkoutDisabled d)
    (clearCartDisabled d) (itemsTotalText d) (grandTotalText d)
    (qrCodeImage d) s (addButtons d) (navToggleBtn d) (navLinks d) (yearEl d)
    (listeners d).

Definition set_yearEl (s : option string) (d : Dom) : Dom :=
  mkDom (cartItems d) (cartEmptyDisplay d) (checkoutDisabled d)
    (clearCartDisabled d) (itemsTotalText d) (grandTotalText d)
    (qrCodeImage d) (qrAmountText d) (addButtons d) (navToggleBtn d)
    (navLinks d) s (listeners d).

Definition add_listeners (ls : list Listener) (d : Dom) : Dom :=
  mkDom (cartItems d) (cartEmptyDisplay d) (checkoutDisabled d)
    (clearCartDisabled d) (itemsTotalText d) (grandTotalText d)
    (qrCodeImage d) (qrAmountText d) (addButtons d) (navToggleBtn d)
    (navLinks d) (yearEl d) (List.app (listeners d) ls).

(* ===================================================================== *)
(** ** The script *)
(* ===================================================================== *)

(** Computations of the script: functions from the page state to a result
    and the next page state. *)
Definition JS : Type -> Type := state World.

Definition modify_cart (f : Cart -> Cart) : JS unit :=
  w <- get ;; put (set_cart (f (cart w)) w).

Definition modify_dom (f : Dom -> Dom) : JS unit :=
  w <- get ;; put (set_dom (f (dom w)) w).

Definition emit (e : Event) : JS unit :=
  w <- get ;; put (add_event e w).

(** [entries.forEach(callback)] for a callback that updates the variables
    [acc] it closes over and the page state. *)
Fixpoint forEach {A : Type} (callback : A -> Line -> JS A)
    (entries : list (string * Line)) (acc : A) : JS A :=
  match entries with
  | [] => ret acc
  | (_, item) :: rest =>
      acc' <- callback acc item ;; forEach callback rest acc'
  end.

(** [cart.forEach(callback)]; no callback of the script adds to or deletes
    from the cart, so the entries are the ones present at the call. *)
Definition cart_forEach {A : Type} (callback : A -> Line -> JS A)
    (acc : A) : JS A :=
  entries <- gets cart ;; forEach callback entries acc.

(** The currency symbol as the source file has it: the seven bytes between
    the backquote and the dollar sign of line 11. *)
Definition currency_symbol : string :=
  JsString.of_bytes [195; 162; 226; 128; 154; 194; 185]%nat.

(** The bytes after ["South Spice! "] on line 245. *)
Definition order_emoji : string :=
  JsString.of_bytes [195; 176; 197; 184; 194; 165; 203; 156]%nat.

Section Script.

Variable exponent_notation : Q -> string.

(** [x.toFixed(f)] and the conversion of a quantity to text, on this host. *)
Definition toFixed : Q -> nat -> string := JsNumber.toFixed exponent_notation.

Definition toString_int : Z -> string := JsNumber.toString_int exponent_notation.

(** [x.toFixed(f)] for a number. *)
Definition number_toFixed (x : number) (f : nat) : string :=
  match x with
  | Num.NaN => "NaN"
  | Num.Inf negative => if negative then "-Infinity" else "Infinity"
  | Num.Fin n => toFixed (Num.to_Q n) f
  end.

(** [String(x)] for a number, as a template literal converts it.  A whole
    number below 10^21 is its digits; for the other finite numbers the text
    is the host's. *)
Definition number_toString (x : number) : string :=
  match x with
  | Num.NaN => "NaN"
  | Num.Inf negative => if negative then "-Infinity" else "Infinity"
  | Num.Fin n =>
      if n mod Num.unit =? 0 then toString_int (n / Num.unit)
      else (if n <? 0 then "-" else "")
           ++ exponent_notation (Num.to_Q (Z.abs n))
  end.

(** script.js, lines 10-12. *)
Definition formatINR (amount : number) : string :=
  currency_symbol ++ number_toFixed amount 0.

(** script.js, lines 96-105. *)
Definition calculateTotals : JS Totals :=
  itemsTotal <-
    cart_forEach
      (fun itemsTotal item =>
         ret (Num.add itemsTotal
                (Num.mul (line_price item) (line_quantity item))))
      Num.zero ;;
  let grandTotal := itemsTotal in
  ret (mkTotals itemsTotal grandTotal).

(** script.js, lines 167-180. *)
Definition updateQRCode (amount : number) : JS unit :=
  emit (QRUpdate amount) ;;
  qrCodeImage <- gets (fun w => qrCodeImage (dom w)) ;;
  match qrCodeImage with
  | None => ret tt
  | Some _ =>
      let upiUrl :=
        "upi://pay?pa=harishkannan1813-1@okicici&pn=South%20Spice%20Restaurant&am="
        ++ number_toFixed amount 2 ++ "&cu=INR&tn=Restaurant%20Bill" in
      modify_dom
        (set_qrCodeImage
           (Some ("https://api.qrserver.com/v1/create-qr-code/?size=200x200&data="
                  ++ JsString.encodeURIComponent upiUrl))) ;;
      modify_dom (set_qrAmountText ("Total Amount: " ++ formatINR amount))
  end.

(** The template literal of script.js, lines 130-144, around the four
    values it takes. *)
Definition cart_row_html (name quantity price lineTotal : string) : string :=
  JsString.join JsString.newline
    [ "";
      "        <span class=" ++ JsString.quoted "cart-item-name" ++ ">"
      ++ name ++ "</span>";
      "        <span class=" ++ JsString.quoted "cart-qty-cell" ++ ">";
      "          <div class=" ++ JsString.quoted "cart-qty-control" ++ ">";
      "            <button class=" ++ JsString.quoted "cart-qty-btn"
      ++ " data-action=" ++ JsString.quoted "decrease" ++ ">-</button>";
      "            <span class=" ++ JsString.quoted "cart-qty-value" ++ ">"
      ++ quantity ++ "</span>";
      "            <button class=" ++ JsString.quoted "cart-qty-btn"
      ++ " data-action=" ++ JsString.quoted "increase" ++ ">+</button>";
      "          </div>";
      "        </span>";
      "        <span class=" ++ JsString.quoted "cart-price" ++ ">"
      ++ price ++ "</span>";
      "        <span class=" ++ JsString.quoted "cart-line-total" ++ ">"
      ++ lineTotal ++ "</span>";
      "        <span class=" ++ JsString.quoted "cart-remove-cell" ++ ">";
      "          <button class=" ++ JsString.quoted "cart-remove-btn"
      ++ ">Remove</button>";
      "        </span>";
      "      " ].

(** script.js, lines 110-157. *)
Definition renderCart : JS unit :=
  modify_dom (set_cartItems []) ;;
  size <- gets (fun w => JsMap.size (cart w)) ;;
  (if size =? 0 then
     modify_dom (set_cartEmptyDisplay "block") ;;
     modify_dom (set_checkoutDisabled true) ;;
     modify_dom (set_clearCartDisabled true)
   else
     modify_dom (set_cartEmptyDisplay "none") ;;
     modify_dom (set_checkoutDisabled false) ;;
     modify_dom (set_clearCartDisabled false) ;;
     cart_forEach
       (fun _ item =>
          let lineTotal := Num.mul (line_price item) (line_quantity item) in
          let row :=
            mkRow "cart-item-row" (line_id item)
              (cart_row_html (line_name item)
                 (number_toString (line_quantity item))
                 (formatINR (line_price item)) (formatINR lineTotal)) in
          modify_dom (fun d => set_cartItems (List.app (cartItems d) [row]) d))
       tt) ;;
  totals <- calculateTotals ;;
  modify_dom (set_itemsTotalText (formatINR (itemsTotal totals))) ;;
  modify_dom (set_grandTotalText (formatINR (grandTotal totals))) ;;
  updateQRCode (grandTotal totals).

(** script.js, lines 47-55.  [existing.quantity += 1] changes the object the
    cart holds under the key, which stays where it is. *)
Definition addToCart (item : Item) : JS unit :=
  existing <- gets (fun w => JsMap.get (item_id item) (cart w)) ;;
  match existing with
  | Some existing =>
      modify_cart
        (JsMap.set (item_id item)
           (with_quantity existing (Num.add (line_quantity existing) Num.one)))
  | None =>
      modify_cart (JsMap.set (item_id item) (spread item Num.one))
  end ;;
  renderCart.

(** script.js, lines 62-73. *)
Definition updateQuantity (id : string) (delta : number) : JS unit :=
  item <- gets (fun w => JsMap.get id (cart w)) ;;
  match item with
  | None => ret tt
  | Some item =>
      let newQty := Num.add (line_quantity item) delta in
      (if Num.leb newQty Num.zero then modify_cart (JsMap.delete id)
       else modify_cart (JsMap.set id (with_quantity item newQty))) ;;
      renderCart
  end.

(** script.js, lines 79-82. *)
Definition removeFromCart (id : string) : JS unit :=
  modify_cart (JsMap.delete id) ;;
  renderCart.

(** script.js, lines 87-90. *)
Definition clearCart : JS unit :=
  modify_cart (fun _ => JsMap.empty) ;;
  renderCart.

(** The listener of [clearCartBtn], script.js, lines 229-232. *)
Definition onClearCartClick : JS unit :=
  size <- gets (fun w => JsMap.size (cart w)) ;;
  if size =? 0 then ret tt else clearCart.

(** The listener of [checkoutBtn], script.js, lines 235-261. *)
Definition onCheckoutClick : JS unit :=
  size <- gets (fun w => JsMap.size (cart w)) ;;
  if size =? 0 then ret tt
  else
    totals <- calculateTotals ;;
    itemLines <-
      cart_forEach
        (fun itemLines item =>
           ret (List.app itemLines
                  [line_name item ++ " x "
                   ++ number_toString (line_quantity item) ++ " = "
                   ++ formatINR
                        (Num.mul (line_price item) (line_quantity item))]))
        [] ;;
    let message :=
      JsString.join JsString.newline
        (List.app
           ["Thank you for your order at South Spice! " ++ order_emoji;
            "";
            "Order Summary:"]
           (List.app itemLines
              ["";
               "Items Total: " ++ formatINR (itemsTotal totals);
               "Grand Total: " ++ formatINR (grandTotal totals);
               "";
               "Your order has been received. Please proceed to the counter for payment."])) in
    emit (Alert message) ;;
    clearCart.

(** script.js, lines 186-202: one click listener for each [.add-to-cart]
    button. *)
Definition setupMenuButtons : JS unit :=
  n <- gets (fun w => addButtons (dom w)) ;;
  modify_dom (add_listeners (List.map AddToCartClick (List.seq 0 n))).

(** script.js, lines 204-262. *)
Definition setupCartEvents : JS unit :=
  modify_dom (add_listeners [CartItemsClick]) ;;
  modify_dom (add_listeners [ClearCartClick]) ;;
  modify_dom (add_listeners [CheckoutClick]).

(** script.js, lines 264-277. *)
Definition setupNavbar : JS unit :=
  d <- gets dom ;;
  if navToggleBtn d && navLinks d then
    modify_dom (add_listeners [NavToggleClick]) ;;
    modify_dom (add_listeners [NavLinksClick])
  else ret tt.

(** script.js, lines 279-283. *)
Definition setupYear : JS unit :=
  w <- get ;;
  match yearEl (dom w) with
  | Some _ => modify_dom (set_yearEl (Some (toString_int (fullYear w))))
  | None => ret tt
  end.

(** The listener of [DOMContentLoaded], script.js, lines 289-300. *)
Definition onDOMContentLoaded : JS unit :=
  setupMenuButtons ;;
  setupCartEvents ;;
  setupNavbar ;;
  setupYear ;;
  renderCart ;;
  updateQRCode Num.zero.

(* --------------------------------------------------------------------- *)
(** *** Sequences of calls *)

(** [addToCart] once for each item of a list, in order. *)
Fixpoint addAll (items : list Item) : JS unit :=
  match items with
  | [] => ret tt
  | item :: rest => addToCart item ;; addAll rest
  end.

(** The calls that change the cart: the four store operations and the two
    listeners that reach [clearCart]. *)
Inductive Call : Type :=
| CallAdd (item : Item)
| CallUpdateQuantity (id : string) (delta : number)
| CallRemove (id : string)
| CallClear
| CallClearClick
| CallCheckoutClick.

Definition call (c : Call) : JS unit :=
  match c with
  | CallAdd item => addToCart item
  | CallUpdateQuantity id delta => updateQuantity id delta
  | CallRemove id => removeFromCart id
  | CallClear => clearCart
  | CallClearClick => onClearCartClick
  | CallCheckoutClick => onCheckoutClick
  end.

(** The argument [delta] of [updateQuantity] is an integer. *)
Definition integer_delta (c : Call) : Prop :=
  match c with
  | CallUpdateQuantity _ delta => Num.is_integer delta = true
  | _ => True
  end.

(** The page states a session goes through: the cart is empty when the
    script is loaded, and every later state follows a call, with any item
    and any integer [delta]. *)
Inductive Reachable : World -> Prop :=
| Reachable_start (w : World) :
    cart w = JsMap.empty -> Reachable w
| Reachable_call (w : World) (c : Call) :
    Reachable w -> integer_delta c -> Reachable (execState (call c) w).

(* --------------------------------------------------------------------- *)
(** *** What the specification speaks of *)

(** [unitPrice x quantity] of an entry, as the script multiplies. *)
Definition line_total (l : Line) : number :=
  Num.mul (line_price l) (line_quantity l).

(** The terms added one after the other to a start value, each sum rounded
    as [+] rounds. *)
Fixpoint sum_from (start : number) (terms : list number) : number :=
  match terms with
  | [] => start
  | term :: rest => sum_from (Num.add start term) rest
  end.

(** The sum over all entries of [unitPrice x quantity], taken in the order
    of the cart in the arithmetic of the script. *)
Definition sum_of_lines (c : Cart) : number :=
  sum_from Num.zero (List.map (fun kl => line_total (snd kl)) c).

(** The sum over all entries of [unitPrice x quantity] in exact arithmetic
    (for finite prices and quantities). *)
Fixpoint exact_sum_of_lines (c : Cart) : Q :=
  match c with
  | [] => 0%Q
  | (_, l) :: rest =>
      (Num.real (line_price l) * Num.real (line_quantity l)
       + exact_sum_of_lines rest)%Q
  end.

(** The same sum as an integer, for a cart whose prices and quantities are
    whole numbers that are not negative. *)
Fixpoint whole_total (c : Cart) : option Z :=
  match c with
  | [] => Some 0
  | (_, l) :: rest =>
      match Num.whole (line_price l), Num.whole (line_quantity l),
            whole_total rest with
      | Some p, Some q, Some t =>
          if (0 <=? p) && (0 <=? q) then Some (p * q + t) else None
      | _, _, _ => None
      end
  end.

(** Every entry has a quantity that is a whole number of at least 1 (or
    [Infinity], which sums of integers can reach). *)
Definition quantities_positive (c : Cart) : Prop :=
  Forall (fun kl => Num.is_count (line_quantity (snd kl)) = true) c.

(** Every entry has a quantity that is a whole number from 1 to below
    2^53. *)
Definition quantities_small (c : Cart) : Prop :=
  Forall
    (fun kl =>
       exists q : Z, line_quantity (snd kl) = Num.int q /\ 1 <= q < 2 ^ 53)
    c.

(** [n] is [y] rounded to zero decimal places: no integer is nearer to [y],
    and of two nearest ones [n] is the larger. *)
Definition rounds_to (y : Q) (n : Z) : Prop :=
  (inject_Z n - (1 # 2) <= y /\ y < inject_Z n + (1 # 2))%Q.

(** The entries of [updateQRCode] in a trace. *)
Fixpoint qr_updates (t : list Event) : list number :=
  match t with
  | [] => []
  | QRUpdate amount :: rest => amount :: qr_updates rest
  | Alert _ :: rest => qr_updates rest
  end.

(** The messages of [alert] in a trace. *)
Fixpoint alerts (t : list Event) : list string :=
  match t with
  | [] => []
  | QRUpdate _ :: rest => alerts rest
  | Alert message :: rest => message :: alerts rest
  end.

(* --------------------------------------------------------------------- *)
(** *** The page state after [renderCart], in closed form *)

Definition row_of (item : Line) : Row :=
  mkRow "cart-item-row" (line_id item)
    (cart_row_html (line_name item) (number_toString (line_quantity item))
       (formatINR (line_price item)) (formatINR (line_total item))).

(** The value of [itemsTotal] when the loop of [calculateTotals] ends. *)
Definition loop_total (c : Cart) : number :=
  List.fold_left (fun acc kl => Num.add acc (line_total (snd kl))) c Num.zero.

Definition qr_dom (amount : number) (d : Dom) : Dom :=
  match qrCodeImage d with
  | None => d
  | Some _ =>
      set_qrAmountText ("Total Amount: " ++ formatINR amount)
        (set_qrCodeImage
           (Some ("https://api.qrserver.com/v1/create-qr-code/?size=200x200&data="
                  ++ JsString.encodeURIComponent
                       ("upi://pay?pa=harishkannan1813-1@okicici&pn=South%20Spice%20Restaurant&am="
                        ++ number_toFixed amount 2
                        ++ "&cu=INR&tn=Restaurant%20Bill")))
           d)
  end.

Definition list_dom (c : Cart) (d : Dom) : Dom :=
  if JsMap.size c =? 0 then
    set_clearCartDisabled true
      (set_checkoutDisabled true
         (set_cartEmptyDisplay "block" (set_cartItems [] d)))
  else
    set_cartItems (List.map (fun kl => row_of (snd kl)) c)
      (set_clearCartDisabled false
         (set_checkoutDisabled false
            (set_cartEmptyDisplay "none" (set_cartItems [] d)))).

Definition rendered_dom (c : Cart) (d : Dom) : Dom :=
  qr_dom (loop_total c)
    (set_grandTotalText (formatINR (loop_total c))
       (set_itemsTotalText (formatINR (loop_total c)) (list_dom c d))).

Definition rendered (w : World) : World :=
  mkWorld (cart w) (rendered_dom (cart w) (dom w)) (fullYear w)
    (List.app (trace w) [QRUpdate (loop_total (cart w))]).

(** The cart after [addToCart item], [updateQuantity id delta] and
    [removeFromCart id]. *)
Definition cart_after_add (item : Item) (c : Cart) : Cart :=
  match JsMap.get (item_id item) c with
  | Some existing =>
      JsMap.set (item_id item)
        (with_quantity existing (Num.add (line_quantity existing) Num.one)) c
  | None => JsMap.set (item_id item) (spread item Num.one) c
  end.

Definition cart_after_update (id : string) (delta : number) (c : Cart)
    : Cart :=
  match JsMap.get id c with
  | None => c
  | Some item =>
      if Num.leb (Num.add (line_quantity item) delta) Num.zero
      then JsMap.delete id c
      else JsMap.set id
             (with_quantity item (Num.add (line_quantity item) delta)) c
  end.

(* --------------------------------------------------------------------- *)
(** *** The click listeners of the menu and of the cart rows *)

(** [!s] for a value that is a string or [undefined]. *)
Definition falsy (s : option string) : bool :=
  match s with
  | None => true
  | Some EmptyString => true
  | Some (String _ _) => false
  end.

(** What the listener of an [.add-to-cart] button reads from the closest
    [.menu-card]: [dataset.id], [dataset.name] ([None] when the attribute is
    missing) and the number [Number(dataset.price)]. *)
Record MenuCard : Type := mkMenuCard {
  card_id : option string;
  card_name : option string;
  card_price : number
}.

(** The listener of an [.add-to-cart] button, script.js, lines 189-200;
    [card] is [btn.closest(".menu-card")].  After the guard of line 197 the
    id and the name are strings, which the [match] states. *)
Definition onAddToCartClick (card : option MenuCard) : JS unit :=
  match card with
  | None => ret tt
  | Some card =>
      let price := card_price card in
      match card_id card, card_name card with
      | Some id, Some name =>
          if falsy (Some id) || falsy (Some name) || Num.isNaN price
          then ret tt
          else addToCart (mkItem id name price)
      | _, _ => ret tt
      end
  end.

(** What the listener of [.cart-items] reads from [event.target]. *)
Record Target : Type := mkTarget {
  target_row : option (option string);  (* closest .cart-item-row: its dataset.id *)
  target_qty_btn : bool;                (* matches(".cart-qty-btn") *)
  target_action : option string;        (* dataset.action *)
  target_remove_btn : bool              (* matches(".cart-remove-btn") *)
}.

(** [a === b] for a value that is a string or [undefined] and a string. *)
Definition is_string (a : option string) (b : string) : bool :=
  match a with
  | Some a => String.eqb a b
  | None => false
  end.

(** The listener of [.cart-items], script.js, lines 206-226. *)
Definition onCartItemsClick (target : Target) : JS unit :=
  match target_row target with
  | None => ret tt
  | Some None => ret tt
  | Some (Some id) =>
      if falsy (Some id) then ret tt
      else
        (if target_qty_btn target then
           let action := target_action target in
           if is_string action "increase" then updateQuantity id (Num.int 1)
           else if is_string action "decrease"
           then updateQuantity id (Num.int (-1))
           else ret tt
         else ret tt) ;;
        (if target_remove_btn target then removeFromCart id else ret tt)
  end.

(** The clicks the listeners answer. *)
Inductive Click : Type :=
| ClickAddToCart (card : option MenuCard)
| ClickCartItems (target : Target)
| ClickClearCart
| ClickCheckout.

Definition click (c : Click) : JS unit :=
  match c with
  | ClickAddToCart card => onAddToCartClick card
  | ClickCartItems target => onCartItemsClick target
  | ClickClearCart => onClearCartClick
  | ClickCheckout => onCheckoutClick
  end.

(** The page states of a visit: the start-up handler runs on the empty
    cart, and clicks follow. *)
Inductive Visited : World -> Prop :=
| Visited_loaded (w : World) :
    cart w = JsMap.empty -> Visited (execState onDOMContentLoaded w)
| Visited_click (w : World) (c : Click) :
    Visited w -> Visited (execState (click c) w).

(* --------------------------------------------------------------------- *)
(** *** What the page shows *)

(** An entry under its own id, with id and name not empty and quantity at
    least 1. *)
Definition entry_ok (kl : string * Line) : Prop :=
  line_id (snd kl) = fst kl
  /\ fst kl <> ""
  /\ line_name (snd kl) <> ""
  /\ Num.leb Num.one (line_quantity (snd kl)) = true.

(** The same with a quantity that is a whole number (or [Infinity]). *)
Definition entry_counted (kl : string * Line) : Prop :=
  line_id (snd kl) = fst kl
  /\ fst kl <> ""
  /\ line_name (snd kl) <> ""
  /\ Num.is_count (line_quantity (snd kl)) = true.

(** The [src] the script gives the QR image for an amount. *)
Definition qr_src (amount : number) : string :=
  "https://api.qrserver.com/v1/create-qr-code/?size=200x200&data="
  ++ JsString.encodeURIComponent
       ("upi://pay?pa=harishkannan1813-1@okicici&pn=South%20Spice%20Restaurant&am="
        ++ number_toFixed amount 2 ++ "&cu=INR&tn=Restaurant%20Bill").

(** The page shows the cart: one row for each entry, in order, with the
    markup of the script around the name, the quantity, the price and the
    line total of the entry; the empty message and the disabled buttons
    exactly on the empty cart; the totals and the QR amount of
    [calculateTotals]. *)
Definition shows_cart (w : World) : Prop :=
  let d := dom w in
  let total := grandTotal (evalState calculateTotals w) in
  let is_empty := JsMap.size (cart w) =? 0 in
  cartItems d = List.map (fun kl => row_of (snd kl)) (cart w)
  /\ cartEmptyDisplay d = (if is_empty then "block" else "none")
  /\ checkoutDisabled d = is_empty
  /\ clearCartDisabled d = is_empty
  /\ itemsTotalText d = formatINR total
  /\ grandTotalText d = formatINR total
  /\ (qrCodeImage d = None
      \/ (qrCodeImage d = Some (qr_src total)
          /\ qrAmountText d = "Total Amount: " ++ formatINR total)).

(** The line of the order summary for an entry. *)
Definition summary_line (item : Line) : string :=
  line_name item ++ " x " ++ number_toString (line_quantity item) ++ " = "
  ++ formatINR (line_total item).

(** The text the checkout listener hands to [alert] for a cart. *)
Definition checkout_message (c : Cart) : string :=
  JsString.join JsString.newline
    (List.app
       ["Thank you for your order at South Spice! " ++ order_emoji;
        "";
        "Order Summary:"]
       (List.app (List.map (fun kl => summary_line (snd kl)) c)
          ["";
           "Items Total: " ++ formatINR (loop_total c);
           "Grand Total: " ++ formatINR (loop_total c);
           "";
           "Your order has been received. Please proceed to the counter for payment."])).

(* --------------------------------------------------------------------- *)
(** *** Reading digits back *)

(** The number a string of decimal digits denotes; leading zeros count for
    nothing. *)
Definition read_digits (s : string) : option Z :=
  option_map (fun u => Z.of_N (N.of_uint u)) (NilZero.uint_of_string s).

(** Every character of [s] is one that [encodeURIComponent] keeps. *)
Fixpoint all_unreserved (s : string) : bool :=
  match s with
  | EmptyString => true
  | String c rest => JsString.unreserved c && all_unreserved rest
  end.

(* --------------------------------------------------------------------- *)
(** *** The navigation bar *)

(** [s.toLowerCase()] on the letters A to Z. *)
Definition lower (c : ascii) : ascii :=
  let n := nat_of_ascii c in
  if ((65 <=? n) && (n <=? 90))%nat then ascii_of_nat (n + 32) else c.

Fixpoint toLowerCase (s : string) : string :=
  match s with
  | EmptyString => EmptyString
  | String c rest => String (lower c) (toLowerCase rest)
  end.

(** [classList.remove(token)] and [classList.toggle(token)] on the class
    list of [.nav-links], a list of tokens without repetition. *)
Definition classList_remove (token : string) (classes : list string)
    : list string :=
  List.filter (fun c => negb (String.eqb c token)) classes.

Definition classList_toggle (token : string) (classes : list string)
    : list string :=
  if List.existsb (String.eqb token) classes
  then classList_remove token classes
  else List.app classes [token].

(** The listener of [.nav-toggle], script.js, lines 266-268. *)
Definition onNavToggleClick (classes : list string) : list string :=
  classList_toggle "show" classes.

(** The listener of [.nav-links], script.js, lines 271-275; [tagName] is
    [e.target.tagName]. *)
Definition onNavLinksClick (tagName : string) (classes : list string)
    : list string :=
  if String.eqb (toLowerCase tagName) "a"
  then classList_remove "show" classes
  else classes.

(* --------------------------------------------------------------------- *)
(** *** A page and a menu, to run the script on *)

Definition page : Dom :=
  mkDom [] "" true true "" "" (Some "") "" 3 true true (Some "") [].

Definition start : World := mkWorld JsMap.empty page 2025 [].

Definition dosa : Item := mkItem "A" "Dosa" (Num.int 80).

Definition dosa_renamed : Item := mkItem "A" "Masala Dosa" (Num.int 95).

Definition idli : Item := mkItem "B" "Idli" (Num.of_Q (101 # 2)).

Definition vada : Item := mkItem "B" "Vada" (Num.int 120).

Definition one_dosa : World :=
  mkWorld [("A", mkLine "A" "Dosa" (Num.int 80) (Num.int 1))] page 2025 [].

Definition dosas_and_idli : World :=
  mkWorld
    [("A", mkLine "A" "Dosa" (Num.int 80) (Num.int 2));
     ("B", mkLine "B" "Idli" (Num.of_Q (101 # 2)) (Num.int 1))]
    page 2025 [].

Definition dosas_and_vada : World :=
  mkWorld
    [("A", mkLine "A" "Dosa" (Num.int 80) (Num.int 2));
     ("B", mkLine "B" "Vada" (Num.int 120) (Num.int 1))]
    page 2025 [].

(** A cart whose quantity is 2^53, where [+ 1] is lost in rounding. *)
Definition dosas_at_2_53 : World :=
  mkWorld [("A", mkLine "A" "Dosa" (Num.int 80) (Num.int (2 ^ 53)))]
    page 2025 [].

(** A cart with prices 0.1 and 0.2. *)
Definition tenths : World :=
  mkWorld
    [("A", mkLine "A" "Chutney" (Num.of_Q (1 # 10)) (Num.int 1));
     ("B", mkLine "B" "Pickle" (Num.of_Q (2 # 10)) (Num.int 1))]
    page 2025 [].

(** The host the script is run on below. *)
Definition host : Q -> string := JsNumber.exponent_of_integer_part.

Definition start_without_qr : World :=
  mkWorld JsMap.empty
    (mkDom [] "" true true "" "" None "" 3 true true (Some "") [])
    2025 [].

Definition dosa_card : MenuCard :=
  mkMenuCard (Some "A") (Some "Dosa") (Num.int 80).

Definition decrease_dosa : Target :=
  mkTarget (Some (Some "A")) true (Some "decrease") false.

(* ===================================================================== *)
(** ** Facts about numbers *)
(* ===================================================================== *)

Lemma unit_pos : 0 < Num.unit.
Proof. reflexivity. Qed.

Lemma round_half_even_exact (a k : Z) :
  0 <= k -> a mod 2 ^ k = 0 -> Num.round_half_even a k = a / 2 ^ k.
Proof.
  intros Hk Hmod. unfold Num.round_half_even. rewrite Hmod.
  assert (0 < 2 ^ k) by (apply Z.pow_pos_nonneg; lia).
  destruct (Z.compare_spec (2 * 0) (2 ^ k)); lia.
Qed.

Lemma round_half_even_bounds (a k : Z) :
  0 <= k ->
  a / 2 ^ k <= Num.round_half_even a k <= a / 2 ^ k + 1.
Proof.
  intros Hk. unfold Num.round_half_even.
  destruct (2 * (a mod 2 ^ k) ?= 2 ^ k); [ destruct (Z.even _) | | ]; lia.
Qed.

Lemma round_at_exact (s c m j : Z) :
  0 <= s -> 0 <= j -> 0 <= m < 2 ^ 53 ->
  Z.abs c = m * 2 ^ j -> Z.abs c < Num.huge ->
  Num.round_at s (c * 2 ^ s) = Num.Fin c.
Proof.
  intros Hs Hj Hm Habs Hhuge. unfold Num.round_at.
  assert (Hps : 0 < 2 ^ s) by (apply Z.pow_pos_nonneg; lia).
  assert (Hmag : Z.abs (c * 2 ^ s) = m * 2 ^ (j + s)).
  { rewrite Z.abs_mul, (Z.abs_eq (2 ^ s)), Habs by lia.
    rewrite Z.pow_add_r by lia. ring. }
  rewrite Hmag.
  set (k := Z.max (Z.log2 (m * 2 ^ (j + s)) - 52) s).
  assert (Hk : s <= k <= j + s).
  { unfold k. split; [ lia | ].
    apply Z.max_lub; [ | lia ].
    destruct (Z.eq_dec m 0) as [-> | Hm0].
    - rewrite Z.mul_0_l. cbn. lia.
    - rewrite Z.log2_mul_pow2 by lia.
      assert (Z.log2 m < 53) by (apply Z.log2_lt_pow2; lia). lia. }
  assert (Hsplit : m * 2 ^ (j + s) = m * 2 ^ (j + s - k) * 2 ^ k).
  { rewrite <- Z.mul_assoc, <- Z.pow_add_r by lia. do 2 f_equal. lia. }
  assert (Hpk : 0 < 2 ^ k) by (apply Z.pow_pos_nonneg; lia).
  assert (Hn : Num.round_half_even (m * 2 ^ (j + s)) k * 2 ^ (k - s) = Z.abs c).
  { rewrite round_half_even_exact;
      [ | lia | rewrite Hsplit; apply Z.mod_mul; lia ].
    rewrite Hsplit, Z.div_mul by lia.
    rewrite <- Z.mul_assoc, <- Z.pow_add_r by lia.
    rewrite Habs. do 2 f_equal. lia. }
  rewrite Hn.
  destruct (Z.leb_spec Num.huge (Z.abs c)); [ lia | ].
  f_equal. rewrite Z.sgn_mul, (Z.sgn_pos (2 ^ s)) by lia.
  rewrite Z.mul_1_r.
  destruct (Z.abs_spec c) as [[? ->] | [? ->]];
    destruct (Z.sgn_spec c) as [[? ->] | [[? ->] | [? ->]]]; lia.
Qed.

Lemma abs_decompose (z : Z) :
  Z.abs z <= 2 ^ 53 ->
  exists m j, 0 <= j /\ 0 <= m < 2 ^ 53 /\ Z.abs z = m * 2 ^ j.
Proof.
  intros Hz. destruct (Z.eq_dec (Z.abs z) (2 ^ 53)) as [E | E].
  - exists 1, 53. rewrite E. split; [ lia | split; [ lia | reflexivity ] ].
  - exists (Z.abs z), 0. rewrite Z.pow_0_r, Z.mul_1_r. lia.
Qed.

Lemma round_at_int (s z : Z) :
  0 <= s -> Z.abs z <= 2 ^ 53 ->
  Num.round_at s (z * Num.unit * 2 ^ s) = Num.int z.
Proof.
  intros Hs Hz. destruct (abs_decompose z Hz) as (m & j & Hj & Hm & Habs).
  unfold Num.int. apply (round_at_exact s (z * Num.unit) m (j + 1074)); try lia.
  - rewrite Z.abs_mul, Habs, (Z.abs_eq Num.unit) by (pose proof unit_pos; lia).
    unfold Num.unit. rewrite Z.pow_add_r by lia. lia.
  - rewrite Z.abs_mul, (Z.abs_eq Num.unit) by (pose proof unit_pos; lia).
    apply Z.le_lt_trans with (2 ^ 53 * Num.unit).
    + apply Z.mul_le_mono_nonneg_r; [ pose proof unit_pos; lia | exact Hz ].
    + reflexivity.
Qed.

Lemma add_int (a b : Z) :
  Z.abs (a + b) <= 2 ^ 53 -> Num.add (Num.int a) (Num.int b) = Num.int (a + b).
Proof.
  intros H.
  pose proof (round_at_int 0 (a + b) ltac:(lia) H) as R.
  rewrite Z.pow_0_r, Z.mul_1_r in R.
  cbn [Num.add Num.int]. rewrite <- Z.mul_add_distr_r. exact R.
Qed.

Lemma mul_int (a b : Z) :
  Z.abs (a * b) <= 2 ^ 53 -> Num.mul (Num.int a) (Num.int b) = Num.int (a * b).
Proof.
  intros H.
  pose proof (round_at_int 1074 (a * b) ltac:(lia) H) as R.
  cbn [Num.mul Num.int]. rewrite <- R. f_equal. change (2 ^ 1074) with Num.unit. ring.
Qed.

Lemma round_at_zero (s : Z) : 0 <= s -> Num.round_at s 0 = Num.Fin 0.
Proof.
  intros Hs.
  replace 0 with (0 * 2 ^ s) at 2 by lia.
  apply (round_at_exact s 0 0 0); cbn; lia.
Qed.

(** The magnitude the rounding of a sum arrives at. *)
Lemma round_at_0_cases (a : Z) :
  a <> 0 ->
  exists n : Z,
    1 <= n
    /\ (Z.abs a mod Num.unit = 0 -> n mod Num.unit = 0)
    /\ Num.round_at 0 a = (if Num.huge <=? n then Num.Inf (a <? 0) else Num.Fin (Z.sgn a * n)).
Proof.
  intros Ha. unfold Num.round_at.
  set (k := Z.max (Z.log2 (Z.abs a) - 52) 0).
  assert (Hk : 0 <= k) by (unfold k; lia).
  assert (Hpk : 0 < 2 ^ k) by (apply Z.pow_pos_nonneg; lia).
  rewrite Z.sub_0_r.
  exists (Num.round_half_even (Z.abs a) k * 2 ^ k).
  split; [ | split; [ | reflexivity ] ].
  - pose proof (round_half_even_bounds (Z.abs a) k Hk) as [Hlo _].
    assert (Hk2 : k <= Z.log2 (Z.abs a)).
    { unfold k. apply Z.max_lub; [ lia | apply Z.log2_nonneg ]. }
    assert (H2k : 2 ^ k <= Z.abs a).
    { apply Z.le_trans with (2 ^ Z.log2 (Z.abs a)).
      - apply Z.pow_le_mono_r; lia.
      - apply Z.log2_spec. lia. }
    assert (1 <= Z.abs a / 2 ^ k) by (apply Z.div_le_lower_bound; lia).
    nia.
  - intros Hmod.
    destruct (Z.le_gt_cases k 1074) as [Hle | Hgt].
    + assert (Hdiv : Z.abs a mod 2 ^ k = 0).
      { apply Z.mod_divide; [ lia | ].
        apply Z.divide_trans with Num.unit.
        - exists (2 ^ (1074 - k)). unfold Num.unit.
          rewrite <- Z.pow_add_r by lia. f_equal. lia.
        - apply Z.mod_divide; [ pose proof unit_pos; lia | exact Hmod ]. }
      rewrite round_half_even_exact by assumption.
      rewrite <- Z.div_exact in Hdiv by lia.
      rewrite Z.mul_comm, <- Hdiv. exact Hmod.
    + apply Z.mod_divide; [ pose proof unit_pos; lia | ].
      apply Z.divide_mul_r.
      exists (2 ^ (k - 1074)). unfold Num.unit.
      rewrite <- Z.pow_add_r by lia. f_equal. lia.
Qed.

Lemma round_at_0_sign (a : Z) :
  Num.leb (Num.round_at 0 a) Num.zero = (a <=? 0).
Proof.
  destruct (Z.eq_dec a 0) as [-> | Ha].
  - rewrite round_at_zero by lia. reflexivity.
  - destruct (round_at_0_cases a Ha) as (n & Hn & _ & ->).
    unfold Num.zero, Num.int. rewrite Z.mul_0_l.
    destruct (Num.huge <=? n).
    + cbn [Num.leb]. destruct (Z.ltb_spec a 0), (Z.leb_spec a 0); try lia;
        reflexivity.
    + cbn [Num.leb].
      destruct (Z.leb_spec a 0); [ apply Z.leb_le | apply Z.leb_gt ];
        destruct (Z.sgn_spec a) as [[? ->] | [[? ->] | [? ->]]]; nia.
Qed.

Lemma positive_multiple (u m : Z) :
  0 < u -> 1 <= m -> m mod u = 0 -> u <= m.
Proof.
  intros Hu Hm Hmod. apply Z.mod_divide in Hmod; [ | lia ].
  destruct Hmod as [c ->].
  destruct (Z.le_gt_cases c 0) as [Hc | Hc].
  - pose proof (Z.mul_nonpos_nonneg c u Hc ltac:(lia)). lia.
  - rewrite <- (Z.mul_1_l u) at 1. apply Z.mul_le_mono_nonneg_r; lia.
Qed.

Lemma is_count_add_one (q : number) :
  Num.is_count q = true -> Num.is_count (Num.add q Num.one) = true.
Proof.
  destruct q as [| [|] | n]; cbn [Num.is_count Num.add Num.one Num.int negb];
    try discriminate; try reflexivity.
  intros H. apply andb_true_iff in H as [Hmod Hle].
  apply Z.eqb_eq in Hmod. apply Z.leb_le in Hle.
  pose proof unit_pos as HU.
  assert (Ha : n + 1 * Num.unit <> 0) by lia.
  destruct (round_at_0_cases _ Ha) as (m & Hm & Hwhole & ->).
  assert (Hmm : m mod Num.unit = 0).
  { apply Hwhole. rewrite Z.abs_eq by lia.
    rewrite Z.mod_add by lia. exact Hmod. }
  destruct (Num.huge <=? m).
  - destruct (Z.ltb_spec (n + 1 * Num.unit) 0); [ lia | reflexivity ].
  - cbn [Num.is_count]. rewrite Z.sgn_pos, Z.mul_1_l by lia.
    rewrite Hmm, Z.eqb_refl. cbn [andb]. apply Z.leb_le.
    now apply positive_multiple.
Qed.

Lemma is_count_add_integer (q d : number) :
  Num.is_count q = true -> Num.is_integer d = true ->
  Num.leb (Num.add q d) Num.zero = false ->
  Num.is_count (Num.add q d) = true.
Proof.
  destruct q as [| [|] | n]; destruct d as [| b | e];
    cbn [Num.is_count Num.is_integer Num.add negb]; try discriminate; try reflexivity.
  intros H He Hpos. apply andb_true_iff in H as [Hmod Hle].
  apply Z.eqb_eq in Hmod, He. apply Z.leb_le in Hle.
  pose proof unit_pos as HU.
  rewrite round_at_0_sign in Hpos. apply Z.leb_gt in Hpos.
  assert (Ha : n + e <> 0) by lia.
  destruct (round_at_0_cases _ Ha) as (m & Hm & Hwhole & ->).
  assert (Hmm : m mod Num.unit = 0).
  { apply Hwhole. rewrite Z.abs_eq by lia.
    rewrite Z.add_mod, Hmod, He by lia. reflexivity. }
  destruct (Num.huge <=? m).
  - destruct (Z.ltb_spec (n + e) 0); [ lia | reflexivity ].
  - cbn [Num.is_count]. rewrite Z.sgn_pos, Z.mul_1_l by lia.
    rewrite Hmm, Z.eqb_refl. cbn [andb]. apply Z.leb_le.
    now apply positive_multiple.
Qed.

Lemma is_count_at_least_one (q : number) :
  Num.is_count q = true -> Num.leb Num.one q = true.
Proof.
  destruct q as [| [|] | n]; cbn [Num.is_count Num.leb Num.one Num.int negb];
    try discriminate; try reflexivity.
  intros H. apply andb_true_iff in H as [_ Hle].
  rewrite Z.mul_1_l. exact Hle.
Qed.

Lemma leb_add_int (a b : Z) :
  Num.leb (Num.add (Num.int a) (Num.int b)) Num.zero = (a + b <=? 0).
Proof.
  cbn [Num.add Num.int]. rewrite round_at_0_sign.
  rewrite <- Z.mul_add_distr_r.
  pose proof unit_pos as HU.
  destruct (Z.leb_spec (a + b) 0), (Z.leb_spec ((a + b) * Num.unit) 0);
    try reflexivity; nia.
Qed.

Lemma leb_int_zero (a : Z) : Num.leb (Num.int a) Num.zero = (a <=? 0).
Proof.
  cbn [Num.leb Num.int Num.zero]. rewrite Z.mul_0_l.
  pose proof unit_pos as HU.
  destruct (Z.leb_spec a 0), (Z.leb_spec (a * Num.unit) 0);
    try reflexivity; nia.
Qed.

Lemma whole_int (a : Z) : Num.whole (Num.int a) = Some a.
Proof.
  pose proof unit_pos as HU. cbn [Num.whole Num.int].
  rewrite Z.mod_mul, Z.eqb_refl, Z.div_mul by lia. reflexivity.
Qed.

Lemma whole_is_int (x : number) (a : Z) :
  Num.whole x = Some a -> x = Num.int a.
Proof.
  pose proof unit_pos as HU.
  destruct x as [| negative | n]; cbn [Num.whole]; try discriminate.
  destruct (Z.eqb_spec (n mod Num.unit) 0) as [Hmod | ]; [ | discriminate ].
  intros [= <-]. unfold Num.int. f_equal.
  rewrite Z.mul_comm. now apply Z.div_exact.
Qed.

Lemma real_int (a : Z) : (Num.real (Num.int a) == inject_Z a)%Q.
Proof.
  pose proof unit_pos as HU.
  unfold Num.real, Num.int, Num.to_Q, Qeq, inject_Z. cbn [Qnum Qden].
  rewrite Z2Pos.id by lia. ring.
Qed.

Lemma is_integer_int (a : Z) : Num.is_integer (Num.int a) = true.
Proof.
  pose proof unit_pos as HU. cbn [Num.is_integer Num.int].
  rewrite Z.mod_mul by lia. reflexivity.
Qed.

Lemma int_injective (a b : Z) : Num.int a = Num.int b -> a = b.
Proof.
  pose proof unit_pos as HU. unfold Num.int. intros [= H].
  apply Z.mul_cancel_r in H; lia.
Qed.

(* ===================================================================== *)
(** ** Running computations *)
(* ===================================================================== *)

Lemma run_bind {A B : Type} (c : JS A) (f : A -> JS B) (w w' : World)
    (v : A) (r : B * World) :
  runState c w = (v, w') ->
  runState (f v) w' = r ->
  runState (bind c f) w = r.
Proof.
  intros Hc Hf. change (runState (bind c f) w)
    with (let (x, s) := runState c w in runState (f x) s).
  rewrite Hc. exact Hf.
Qed.

Lemma run_ret {A : Type} (a : A) (w : World) :
  runState (ret a : JS A) w = (a, w).
Proof. reflexivity. Qed.

Lemma run_get (w : World) : runState (get : JS World) w = (w, w).
Proof. reflexivity. Qed.

Lemma run_gets {A : Type} (f : World -> A) (w : World) :
  runState (gets f : JS A) w = (f w, w).
Proof. reflexivity. Qed.

Lemma run_modify_cart (f : Cart -> Cart) (w : World) :
  runState (modify_cart f) w = (tt, set_cart (f (cart w)) w).
Proof. reflexivity. Qed.

Lemma run_modify_dom (f : Dom -> Dom) (w : World) :
  runState (modify_dom f) w = (tt, set_dom (f (dom w)) w).
Proof. reflexivity. Qed.

Lemma run_emit (e : Event) (w : World) :
  runState (emit e) w = (tt, add_event e w).
Proof. reflexivity. Qed.

Lemma exec_run {A : Type} (c : JS A) (w w' : World) (v : A) :
  runState c w = (v, w') -> execState c w = w'.
Proof. unfold execState. intros ->. reflexivity. Qed.

Lemma eval_run {A : Type} (c : JS A) (w w' : World) (v : A) :
  runState c w = (v, w') -> evalState c w = v.
Proof. unfold evalState. intros ->. reflexivity. Qed.

Create HintDb js_run discriminated.

#[local] Hint Resolve run_ret run_get run_gets run_modify_cart run_modify_dom
  run_emit : js_run.

(** One statement of a computation: its closed form is looked up among the
    hints, and the goal moves to the rest. *)
Ltac js_step := eapply run_bind; [ solve [ eauto with js_run ] | cbv beta ].

(** A loop whose callback leaves the page state alone folds the callback
    over the entries. *)
Lemma run_forEach_pure {A : Type} (f : A -> Line -> A)
    (entries : list (string * Line)) :
  forall (acc : A) (w : World),
    runState (forEach (fun a item => ret (f a item)) entries acc) w
    = (List.fold_left (fun a kl => f a (snd kl)) entries acc, w).
Proof.
  induction entries as [| [k item] rest IH]; intros acc w.
  - reflexivity.
  - cbn [forEach List.fold_left snd].
    eapply run_bind; [ apply run_ret | apply IH ].
Qed.

Lemma run_calculateTotals (w : World) :
  runState calculateTotals w
  = (mkTotals (loop_total (cart w)) (loop_total (cart w)), w).
Proof.
  unfold calculateTotals, cart_forEach.
  eapply run_bind.
  - eapply run_bind; [ apply run_gets | apply run_forEach_pure ].
  - reflexivity.
Qed.

Lemma run_updateQRCode (amount : number) (w : World) :
  runState (updateQRCode amount) w
  = (tt, set_dom (qr_dom amount (dom w)) (add_event (QRUpdate amount) w)).
Proof.
  unfold updateQRCode, qr_dom.
  js_step. js_step.
  cbn [dom add_event].
  destruct (qrCodeImage (dom w)) as [src |].
  - js_step. destruct w as [c d y t]. reflexivity.
  - destruct w as [c d y t]. reflexivity.
Qed.

#[local] Hint Resolve run_calculateTotals run_updateQRCode : js_run.

(** The loop of [renderCart] appends one row for each entry, in the order
    of the cart. *)
Lemma run_forEach_rows (entries : list (string * Line)) :
  forall (w : World),
    runState
      (forEach
         (fun (_ : unit) item =>
            modify_dom
              (fun d =>
                 set_cartItems
                   (List.app (cartItems d)
                      [mkRow "cart-item-row" (line_id item)
                         (cart_row_html (line_name item)
                            (number_toString (line_quantity item))
                            (formatINR (line_price item))
                            (formatINR
                               (Num.mul (line_price item)
                                  (line_quantity item))))])
                   d))
         entries tt) w
    = (tt,
       set_dom
         (set_cartItems
            (List.app (cartItems (dom w))
               (List.map (fun kl => row_of (snd kl)) entries))
            (dom w))
         w).
Proof.
  induction entries as [| [k item] rest IH]; intros w.
  - cbn [forEach List.map]. rewrite List.app_nil_r.
    destruct w as [c [] y t]. reflexivity.
  - cbn [forEach].
    eapply run_bind; [ apply run_modify_dom | ].
    rewrite IH. cbn [List.map snd].
    destruct w as [c [] y t].
    cbn [dom set_dom set_cartItems cartItems].
    rewrite <- List.app_assoc. reflexivity.
Qed.

Lemma run_renderCart (w : World) :
  runState renderCart w = (tt, rendered w).
Proof.
  unfold renderCart, rendered, rendered_dom, list_dom.
  js_step. js_step.
  cbn [cart set_dom].
  eapply run_bind with
    (v := tt)
    (w' := set_dom (list_dom (cart w) (dom w)) w).
  - unfold list_dom. destruct (JsMap.size (cart w) =? 0).
    + js_step. js_step.
      rewrite run_modify_dom. destruct w as [c [] y t]. reflexivity.
    + js_step. js_step. js_step.
      unfold cart_forEach.
      eapply run_bind; [ apply run_gets | ].
      rewrite run_forEach_rows.
      destruct w as [c [] y t]. reflexivity.
  - js_step. js_step. js_step.
    rewrite run_updateQRCode.
    unfold list_dom.
    destruct w as [c [] y t]. reflexivity.
Qed.

#[local] Hint Resolve run_renderCart : js_run.

Lemma cart_rendered (w : World) : cart (rendered w) = cart w.
Proof. reflexivity. Qed.

Lemma rendered_set_cart_idem (c : Cart) (w : World) :
  dom (rendered (set_cart c (rendered (set_cart c w))))
  = dom (rendered (set_cart c w)).
Proof.
  destruct w as [c0 d y t].
  unfold rendered, set_cart, rendered_dom, list_dom, qr_dom.
  cbn [cart dom fullYear trace].
  destruct d as [rows disp co cl it gt [src |] qa ab nt nl ye ls];
    destruct (JsMap.size c =? 0); reflexivity.
Qed.

(* ===================================================================== *)
(** ** Facts about [Map] *)
(* ===================================================================== *)

Section MapFacts.

Context {V : Type}.

Implicit Types (m : JsMap.t V) (k : string) (v : V).

Lemma get_set_same k v m : JsMap.get k (JsMap.set k v m) = Some v.
Proof.
  induction m as [| [k' v'] rest IH]; cbn.
  - now rewrite String.eqb_refl.
  - destruct (String.eqb k k') eqn:E; cbn; rewrite E; auto.
Qed.

Lemma get_set_other k k' v m :
  k <> k' -> JsMap.get k' (JsMap.set k v m) = JsMap.get k' m.
Proof.
  intros Hne. induction m as [| [k0 v0] rest IH]; cbn.
  - destruct (String.eqb_spec k' k); congruence.
  - destruct (String.eqb_spec k k0) as [-> | Hk]; cbn.
    + destruct (String.eqb_spec k' k0); congruence.
    + now rewrite IH.
Qed.

Lemma get_None_keys k m : JsMap.get k m = None <-> ~ In k (JsMap.keys m).
Proof.
  induction m as [| [k' v'] rest IH]; cbn.
  - tauto.
  - destruct (String.eqb_spec k k') as [-> | Hk].
    + split; [ discriminate | intros H; exfalso; apply H; now left ].
    + rewrite IH. split.
      * intros H [He | Hin]; [ congruence | auto ].
      * intros H Hin. apply H. now right.
Qed.

Lemma get_Some_In k v m : JsMap.get k m = Some v -> In (k, v) m.
Proof.
  induction m as [| [k' v'] rest IH]; cbn.
  - discriminate.
  - destruct (String.eqb_spec k k') as [-> | Hk].
    + intros [= ->]. now left.
    + intros H. right. auto.
Qed.

Lemma delete_absent k m : JsMap.get k m = None -> JsMap.delete k m = m.
Proof.
  induction m as [| [k' v'] rest IH]; cbn.
  - reflexivity.
  - destruct (String.eqb k k'); [ discriminate | ].
    intros H. now rewrite IH.
Qed.

Lemma keys_delete_incl k m x :
  In x (JsMap.keys (JsMap.delete k m)) -> In x (JsMap.keys m).
Proof.
  induction m as [| [k' v'] rest IH]; cbn.
  - tauto.
  - destruct (String.eqb k k'); cbn; tauto.
Qed.

Lemma get_delete_same k m :
  JsMap.wf_map m -> JsMap.get k (JsMap.delete k m) = None.
Proof.
  unfold JsMap.wf_map.
  induction m as [| [k' v'] rest IH]; cbn; intros Hnd.
  - reflexivity.
  - inversion Hnd as [| ? ? Hnotin Hrest]; subst.
    destruct (String.eqb_spec k k') as [-> | Hk].
    + now apply get_None_keys.
    + cbn. destruct (String.eqb_spec k k'); [ contradiction | auto ].
Qed.

Lemma get_delete_other k k' m :
  k <> k' -> JsMap.get k' (JsMap.delete k m) = JsMap.get k' m.
Proof.
  intros Hne. induction m as [| [k0 v0] rest IH]; cbn.
  - reflexivity.
  - destruct (String.eqb_spec k k0) as [-> | Hk]; cbn.
    + destruct (String.eqb_spec k' k0); congruence.
    + now rewrite IH.
Qed.

Lemma wf_delete k m : JsMap.wf_map m -> JsMap.wf_map (JsMap.delete k m).
Proof.
  unfold JsMap.wf_map.
  induction m as [| [k' v'] rest IH]; cbn; intros Hnd.
  - constructor.
  - inversion Hnd as [| ? ? Hnotin Hrest]; subst.
    destruct (String.eqb k k'); cbn.
    + assumption.
    + constructor; [ | auto ].
      intros Hin. apply Hnotin. eapply keys_delete_incl, Hin.
Qed.

Lemma keys_set_incl k v m x :
  In x (JsMap.keys (JsMap.set k v m)) -> x = k \/ In x (JsMap.keys m).
Proof.
  induction m as [| [k' v'] rest IH]; cbn.
  - intros [-> | []]. now left.
  - destruct (String.eqb k k'); cbn; intuition.
Qed.

Lemma wf_set k v m : JsMap.wf_map m -> JsMap.wf_map (JsMap.set k v m).
Proof.
  unfold JsMap.wf_map.
  induction m as [| [k' v'] rest IH]; cbn; intros Hnd.
  - constructor; [ intros [] | constructor ].
  - inversion Hnd as [| ? ? Hnotin Hrest]; subst.
    destruct (String.eqb_spec k k') as [-> | Hk]; cbn.
    + assumption.
    + constructor; [ | auto ].
      intros Hin. apply keys_set_incl in Hin as [-> | Hin]; auto.
Qed.

Lemma keys_set_present k v m :
  JsMap.get k m <> None -> JsMap.keys (JsMap.set k v m) = JsMap.keys m.
Proof.
  induction m as [| [k' v'] rest IH]; cbn.
  - congruence.
  - destruct (String.eqb k k'); cbn; [ reflexivity | ].
    intros H. f_equal. now apply IH.
Qed.

Lemma Forall_set (P : string * V -> Prop) k v m :
  (forall k', P (k', v)) -> Forall P m -> Forall P (JsMap.set k v m).
Proof.
  intros Hv. induction m as [| [k' v'] rest IH]; cbn; intros Hall.
  - auto.
  - inversion Hall; subst. destruct (String.eqb k k'); auto.
Qed.

Lemma Forall_delete (P : string * V -> Prop) k m :
  Forall P m -> Forall P (JsMap.delete k m).
Proof.
  induction m as [| [k' v'] rest IH]; cbn; intros Hall.
  - constructor.
  - inversion Hall; subst. destruct (String.eqb k k'); auto.
Qed.

End MapFacts.

(* ===================================================================== *)
(** ** The store operations in closed form *)
(* ===================================================================== *)

Lemma exec_seq {A B : Type} (c1 : JS A) (c2 : JS B) (w : World) :
  execState (c1 ;; c2) w = execState c2 (execState c1 w).
Proof.
  unfold execState.
  destruct (runState c1 w) as [v w'] eqn:E1.
  erewrite run_bind; [ | exact E1 | reflexivity ]. reflexivity.
Qed.

Lemma run_addToCart (item : Item) (w : World) :
  runState (addToCart item) w
  = (tt, rendered (set_cart (cart_after_add item (cart w)) w)).
Proof.
  unfold addToCart, cart_after_add.
  js_step.
  destruct (JsMap.get (item_id item) (cart w)) as [existing |];
    js_step; apply run_renderCart.
Qed.

Lemma run_updateQuantity (id : string) (delta : number) (w : World) :
  runState (updateQuantity id delta) w
  = (tt,
     match JsMap.get id (cart w) with
     | None => w
     | Some _ => rendered (set_cart (cart_after_update id delta (cart w)) w)
     end).
Proof.
  unfold updateQuantity, cart_after_update.
  js_step.
  destruct (JsMap.get id (cart w)) as [item |]; [ | reflexivity ].
  destruct (Num.leb (Num.add (line_quantity item) delta) Num.zero);
    js_step; apply run_renderCart.
Qed.

Lemma run_removeFromCart (id : string) (w : World) :
  runState (removeFromCart id) w
  = (tt, rendered (set_cart (JsMap.delete id (cart w)) w)).
Proof. unfold removeFromCart. js_step. apply run_renderCart. Qed.

Lemma run_clearCart (w : World) :
  runState clearCart w = (tt, rendered (set_cart JsMap.empty w)).
Proof. unfold clearCart. js_step. apply run_renderCart. Qed.

#[local] Hint Resolve run_addToCart run_updateQuantity run_removeFromCart
  run_clearCart : js_run.

Lemma run_onClearCartClick (w : World) :
  runState onClearCartClick w
  = (tt, if JsMap.size (cart w) =? 0 then w
         else rendered (set_cart JsMap.empty w)).
Proof.
  unfold onClearCartClick. js_step.
  destruct (JsMap.size (cart w) =? 0); [ reflexivity | apply run_clearCart ].
Qed.

Lemma cart_onCheckoutClick (w : World) :
  cart (execState onCheckoutClick w) = JsMap.empty.
Proof.
  unfold execState, onCheckoutClick.
  erewrite run_bind; [ | apply run_gets | reflexivity ].
  destruct (JsMap.size (cart w) =? 0) eqn:Hsize.
  - cbn [runState ret Monad_state snd].
    unfold JsMap.size in Hsize. apply Z.eqb_eq in Hsize.
    destruct (cart w); [ reflexivity | discriminate ].
  - erewrite run_bind; [ | apply run_calculateTotals | reflexivity ].
    unfold cart_forEach.
    erewrite run_bind;
      [ | eapply run_bind; [ apply run_gets | apply run_forEach_pure ]
        | reflexivity ].
    erewrite run_bind; [ | apply run_emit | apply run_clearCart ].
    reflexivity.
Qed.

Lemma cart_exec_addToCart (item : Item) (w : World) :
  cart (execState (addToCart item) w) = cart_after_add item (cart w).
Proof. erewrite exec_run by apply run_addToCart. reflexivity. Qed.

Lemma cart_exec_updateQuantity (id : string) (delta : number) (w : World) :
  cart (execState (updateQuantity id delta) w)
  = cart_after_update id delta (cart w).
Proof.
  erewrite exec_run by apply run_updateQuantity.
  unfold cart_after_update.
  destruct (JsMap.get id (cart w)); reflexivity.
Qed.

Lemma cart_exec_removeFromCart (id : string) (w : World) :
  cart (execState (removeFromCart id) w) = JsMap.delete id (cart w).
Proof. erewrite exec_run by apply run_removeFromCart. reflexivity. Qed.

Lemma cart_exec_clearCart (w : World) :
  cart (execState clearCart w) = JsMap.empty.
Proof. erewrite exec_run by apply run_clearCart. reflexivity. Qed.

(* ===================================================================== *)
(** ** The cart store *)
(* ===================================================================== *)

(** Repeated [addToCart] with the id of an entry only counts. *)
Lemma addAll_same_id (rest : list Item) :
  forall (w : World) (id : string) (existing : Line) (q : Z),
    JsMap.get id (cart w) = Some existing ->
    line_quantity existing = Num.int q ->
    0 <= q -> q + Z.of_nat (List.length rest) <= 2 ^ 53 ->
    Forall (fun item => item_id item = id) rest ->
    JsMap.get id (cart (execState (addAll rest) w))
    = Some (with_quantity existing
              (Num.int (q + Z.of_nat (List.length rest)))).
Proof.
  induction rest as [| item rest IH];
    intros w id existing q Hget Hq Hpos Hbound Hall.
  - cbn [addAll List.length Z.of_nat]. rewrite Z.add_0_r, <- Hq.
    destruct existing. exact Hget.
  - inversion Hall as [| ? ? Hid Hrest]; subst.
    cbn [List.length] in Hbound. rewrite Nat2Z.inj_succ in Hbound.
    cbn [addAll]. rewrite exec_seq.
    rewrite (IH (execState (addToCart item) w) (item_id item)
               (with_quantity existing (Num.int (q + 1))) (q + 1)).
    + cbn [List.length]. rewrite Nat2Z.inj_succ.
      unfold with_quantity. cbn [line_id line_name line_price line_quantity].
      apply f_equal, f_equal, f_equal. lia.
    + rewrite cart_exec_addToCart. unfold cart_after_add.
      rewrite Hget, Hq. unfold Num.one. rewrite add_int by lia.
      apply get_set_same.
    + reflexivity.
    + lia.
    + lia.
    + exact Hrest.
Qed.

(** C1, as the script has it.  [addToCart] on an id the cart holds replaces
    the quantity of that entry by the double sum [quantity + 1] and keeps
    its name and price, whatever name and price the argument carries; the
    sum is exactly one more for a whole quantity below 2^53.  On an id the
    cart does not hold it stores the argument with quantity 1.  Hence [n]
    calls with one id, from a cart without that id, leave an entry with
    quantity [n] and the name and price of the first call, for [n] up to
    2^53. *)
Theorem addToCart_spec (w : World) (item : Item) :
  (forall existing : Line,
      JsMap.get (item_id item) (cart w) = Some existing ->
      JsMap.get (item_id item) (cart (execState (addToCart item) w))
      = Some (mkLine (line_id existing) (line_name existing)
                (line_price existing)
                (Num.add (line_quantity existing) Num.one)))
  /\ (forall (existing : Line) (q : Z),
      JsMap.get (item_id item) (cart w) = Some existing ->
      line_quantity existing = Num.int q -> 0 <= q < 2 ^ 53 ->
      JsMap.get (item_id item) (cart (execState (addToCart item) w))
      = Some (mkLine (line_id existing) (line_name existing)
                (line_price existing) (Num.int (q + 1))))
  /\ (JsMap.get (item_id item) (cart w) = None ->
      JsMap.get (item_id item) (cart (execState (addToCart item) w))
      = Some (mkLine (item_id item) (item_name item) (item_price item)
                (Num.int 1)))
  /\ (forall rest : list Item,
      JsMap.get (item_id item) (cart w) = None ->
      Forall (fun next => item_id next = item_id item) rest ->
      Z.of_nat (List.length (item :: rest)) <= 2 ^ 53 ->
      JsMap.get (item_id item) (cart (execState (addAll (item :: rest)) w))
      = Some (mkLine (item_id item) (item_name item) (item_price item)
                (Num.int (Z.of_nat (List.length (item :: rest)))))).
Proof.
  split; [ | split; [ | split ] ].
  - intros existing Hget.
    rewrite cart_exec_addToCart. unfold cart_after_add. rewrite Hget.
    apply get_set_same.
  - intros existing q Hget Hq Hrange.
    rewrite cart_exec_addToCart. unfold cart_after_add. rewrite Hget.
    rewrite get_set_same, Hq. unfold Num.one. rewrite add_int by lia.
    reflexivity.
  - intros Hget.
    rewrite cart_exec_addToCart. unfold cart_after_add. rewrite Hget.
    apply get_set_same.
  - intros rest Hget Hall Hbound.
    cbn [List.length] in Hbound. rewrite Nat2Z.inj_succ in Hbound.
    cbn [addAll]. rewrite exec_seq.
    rewrite (addAll_same_id rest (execState (addToCart item) w)
               (item_id item) (spread item Num.one) 1).
    + unfold with_quantity, spread.
      cbn [line_id line_name line_price line_quantity List.length].
      rewrite Nat2Z.inj_succ. apply f_equal, f_equal, f_equal. lia.
    + rewrite cart_exec_addToCart. unfold cart_after_add. rewrite Hget.
      apply get_set_same.
    + reflexivity.
    + lia.
    + lia.
    + exact Hall.
Qed.

(** [addToCart], [updateQuantity] and [removeFromCart] leave the entries of
    the other ids as they are. *)
Lemma addToCart_other_ids (w : World) (item : Item) (k : string) :
  item_id item <> k ->
  JsMap.get k (cart (execState (addToCart item) w)) = JsMap.get k (cart w).
Proof.
  intros Hne. rewrite cart_exec_addToCart. unfold cart_after_add.
  destruct (JsMap.get (item_id item) (cart w)); now apply get_set_other.
Qed.

Lemma updateQuantity_other_ids (w : World) (id : string) (delta : number)
    (k : string) :
  id <> k ->
  JsMap.get k (cart (execState (updateQuantity id delta) w))
  = JsMap.get k (cart w).
Proof.
  intros Hne. rewrite cart_exec_updateQuantity. unfold cart_after_update.
  destruct (JsMap.get id (cart w)) as [item |]; [ | reflexivity ].
  destruct (Num.leb (Num.add (line_quantity item) delta) Num.zero);
    [ now apply get_delete_other | now apply get_set_other ].
Qed.

Lemma removeFromCart_other_ids (w : World) (id k : string) :
  id <> k ->
  JsMap.get k (cart (execState (removeFromCart id) w)) = JsMap.get k (cart w).
Proof.
  intros Hne. rewrite cart_exec_removeFromCart. now apply get_delete_other.
Qed.

(** C3, as the script has it.  [updateQuantity id delta] changes nothing
    when the cart has no entry for [id]; otherwise, with [newQty] the double
    sum [quantity + delta], the entry is deleted when [newQty <= 0] and gets
    quantity [newQty] otherwise.  For whole numbers the test is that of the
    exact sum, and the stored quantity is the exact sum up to 2^53.  In
    particular [updateQuantity id (- quantity)] on a finite quantity leaves
    no entry for [id]. *)
Theorem updateQuantity_spec (w : World) (id : string) (delta : number) :
  JsMap.wf_map (cart w) ->
  (JsMap.get id (cart w) = None ->
   execState (updateQuantity id delta) w = w)
  /\ (forall item : Line,
      JsMap.get id (cart w) = Some item ->
      Num.leb (Num.add (line_quantity item) delta) Num.zero = true ->
      cart (execState (updateQuantity id delta) w) = JsMap.delete id (cart w)
      /\ JsMap.get id (cart (execState (updateQuantity id delta) w)) = None)
  /\ (forall item : Line,
      JsMap.get id (cart w) = Some item ->
      Num.leb (Num.add (line_quantity item) delta) Num.zero = false ->
      JsMap.get id (cart (execState (updateQuantity id delta) w))
      = Some (mkLine (line_id item) (line_name item) (line_price item)
                (Num.add (line_quantity item) delta))
      /\ JsMap.keys (cart (execState (updateQuantity id delta) w))
         = JsMap.keys (cart w))
  /\ (forall (item : Line) (q d : Z),
      JsMap.get id (cart w) = Some item ->
      line_quantity item = Num.int q -> delta = Num.int d ->
      (q + d <= 0 ->
       JsMap.get id (cart (execState (updateQuantity id delta) w)) = None)
      /\ (0 < q + d <= 2 ^ 53 ->
          JsMap.get id (cart (execState (updateQuantity id delta) w))
          = Some (mkLine (line_id item) (line_name item) (line_price item)
                    (Num.int (q + d)))))
  /\ (forall (item : Line) (n : Z),
      JsMap.get id (cart w) = Some item ->
      line_quantity item = Num.Fin n ->
      JsMap.get id
        (cart (execState (updateQuantity id (Num.neg (line_quantity item))) w))
      = None).
Proof.
  intros Hwf. split; [ | split; [ | split; [ | split ] ] ].
  - intros Hget. erewrite exec_run by apply run_updateQuantity.
    now rewrite Hget.
  - intros item Hget Hle.
    rewrite cart_exec_updateQuantity. unfold cart_after_update.
    rewrite Hget, Hle.
    split; [ reflexivity | now apply get_delete_same ].
  - intros item Hget Hgt.
    rewrite cart_exec_updateQuantity. unfold cart_after_update.
    rewrite Hget, Hgt.
    split; [ apply get_set_same | apply keys_set_present; congruence ].
  - intros item q d Hget Hq ->.
    rewrite cart_exec_updateQuantity. unfold cart_after_update.
    rewrite Hget, Hq, leb_add_int. split.
    + intros Hle. apply Z.leb_le in Hle. rewrite Hle.
      now apply get_delete_same.
    + intros [Hpos Hbound]. apply Z.leb_gt in Hpos. rewrite Hpos.
      rewrite get_set_same, add_int by lia. reflexivity.
  - intros item n Hget Hq.
    rewrite cart_exec_updateQuantity. unfold cart_after_update.
    rewrite Hget, Hq. cbn [Num.neg Num.add].
    rewrite Z.add_opp_diag_r, round_at_zero by lia.
    change (Num.leb (Num.Fin 0) Num.zero) with true. cbn iota.
    now apply get_delete_same.
Qed.

Lemma quantities_positive_add (item : Item) (c : Cart) :
  quantities_positive c -> quantities_positive (cart_after_add item c).
Proof.
  unfold quantities_positive, cart_after_add. intros Hall.
  destruct (JsMap.get (item_id item) c) as [existing |] eqn:Hget.
  - apply Forall_set; [ | assumption ].
    intros k'. cbn [snd with_quantity line_quantity].
    apply get_Some_In in Hget.
    rewrite Forall_forall in Hall. specialize (Hall _ Hget).
    cbn [snd] in Hall. now apply is_count_add_one.
  - apply Forall_set; [ | assumption ].
    intros k'. reflexivity.
Qed.

Lemma quantities_positive_update (id : string) (delta : number) (c : Cart) :
  Num.is_integer delta = true ->
  quantities_positive c -> quantities_positive (cart_after_update id delta c).
Proof.
  unfold quantities_positive, cart_after_update. intros Hdelta Hall.
  destruct (JsMap.get id c) as [item |] eqn:Hget; [ | assumption ].
  destruct (Num.leb (Num.add (line_quantity item) delta) Num.zero) eqn:Hle.
  - now apply Forall_delete.
  - apply Forall_set; [ | assumption ].
    intros k'. cbn [snd with_quantity line_quantity].
    apply get_Some_In in Hget.
    rewrite Forall_forall in Hall. specialize (Hall _ Hget).
    cbn [snd] in Hall. now apply is_count_add_integer.
Qed.

(** The keys of the cart are unique in every page state of a session. *)
Lemma reachable_wf (w : World) : Reachable w -> JsMap.wf_map (cart w).
Proof.
  induction 1 as [w Hempty | w c Hreach IH Hdelta].
  - rewrite Hempty. constructor.
  - destruct c as [item | id delta | id | | |]; cbn [call].
    + rewrite cart_exec_addToCart. unfold cart_after_add.
      destruct (JsMap.get (item_id item) (cart w)); now apply wf_set.
    + rewrite cart_exec_updateQuantity. unfold cart_after_update.
      destruct (JsMap.get id (cart w)) as [item |]; [ | assumption ].
      destruct (Num.leb (Num.add (line_quantity item) delta) Num.zero);
        [ now apply wf_delete | now apply wf_set ].
    + rewrite cart_exec_removeFromCart. now apply wf_delete.
    + rewrite cart_exec_clearCart. constructor.
    + erewrite exec_run by apply run_onClearCartClick.
      destruct (JsMap.size (cart w) =? 0); [ assumption | constructor ].
    + rewrite cart_onCheckoutClick. constructor.
Qed.

(** C4. In every page state reached from the empty cart by [addToCart],
    [updateQuantity] with any integer [delta], [removeFromCart], [clearCart]
    and the clear and checkout listeners, every entry of the cart has
    quantity at least 1. *)
Theorem quantity_at_least_one (w : World) :
  Reachable w ->
  forall (k : string) (item : Line),
    In (k, item) (cart w) -> Num.leb Num.one (line_quantity item) = true.
Proof.
  intros Hreach.
  assert (Hall : quantities_positive (cart w)).
  { induction Hreach as [w Hempty | w c Hreach IH Hdelta].
    - rewrite Hempty. constructor.
    - destruct c as [item | id delta | id | | |]; cbn [call].
      + rewrite cart_exec_addToCart. now apply quantities_positive_add.
      + rewrite cart_exec_updateQuantity.
        now apply quantities_positive_update.
      + rewrite cart_exec_removeFromCart. now apply Forall_delete.
      + rewrite cart_exec_clearCart. constructor.
      + erewrite exec_run by apply run_onClearCartClick.
        destruct (JsMap.size (cart w) =? 0); [ assumption | constructor ].
      + rewrite cart_onCheckoutClick. constructor. }
  intros k item Hin.
  unfold quantities_positive in Hall. rewrite Forall_forall in Hall.
  apply is_count_at_least_one. exact (Hall _ Hin).
Qed.

(** C6. [removeFromCart id] twice in a row leaves the cart, and the page
    drawn from it, as [removeFromCart id] once does. *)
Theorem removeFromCart_idempotent (w : World) (id : string) :
  JsMap.wf_map (cart w) ->
  cart (execState (removeFromCart id) (execState (removeFromCart id) w))
  = cart (execState (removeFromCart id) w)
  /\ dom (execState (removeFromCart id) (execState (removeFromCart id) w))
     = dom (execState (removeFromCart id) w).
Proof.
  intros Hwf.
  assert (Hdel : JsMap.delete id (JsMap.delete id (cart w))
                 = JsMap.delete id (cart w))
    by now apply delete_absent, get_delete_same.
  split.
  - rewrite !cart_exec_removeFromCart. exact Hdel.
  - rewrite !(exec_run _ _ _ _ (run_removeFromCart _ _)).
    rewrite cart_rendered. cbn [cart set_cart]. rewrite Hdel.
    apply rendered_set_cart_idem.
Qed.

(** C10. Once the entry of an id is gone, by [removeFromCart] or by an
    [updateQuantity] that brings its quantity to zero or below, [addToCart]
    with that id stores the name and price of its argument with quantity 1,
    whatever the entry held before. *)
Theorem add_after_removal_is_fresh (w : World) (item : Item) :
  JsMap.wf_map (cart w) ->
  JsMap.get (item_id item)
    (cart (execState (removeFromCart (item_id item) ;; addToCart item) w))
  = Some (mkLine (item_id item) (item_name item) (item_price item)
            (Num.int 1))
  /\ (forall (old : Line) (delta : number),
      JsMap.get (item_id item) (cart w) = Some old ->
      Num.leb (Num.add (line_quantity old) delta) Num.zero = true ->
      JsMap.get (item_id item)
        (cart (execState
                 (updateQuantity (item_id item) delta ;; addToCart item) w))
      = Some (mkLine (item_id item) (item_name item) (item_price item)
                (Num.int 1)))
  /\ (forall (old : Line) (q delta : Z),
      JsMap.get (item_id item) (cart w) = Some old ->
      line_quantity old = Num.int q ->
      q + delta <= 0 ->
      JsMap.get (item_id item)
        (cart (execState
                 (updateQuantity (item_id item) (Num.int delta) ;;
                  addToCart item) w))
      = Some (mkLine (item_id item) (item_name item) (item_price item)
                (Num.int 1))).
Proof.
  intros Hwf.
  assert (Hcode :
            forall (old : Line) (delta : number),
              JsMap.get (item_id item) (cart w) = Some old ->
              Num.leb (Num.add (line_quantity old) delta) Num.zero = true ->
              JsMap.get (item_id item)
                (cart (execState
                         (updateQuantity (item_id item) delta ;;
                          addToCart item) w))
              = Some (mkLine (item_id item) (item_name item)
                        (item_price item) (Num.int 1))).
  { intros old delta Hget Hle.
    rewrite exec_seq, cart_exec_addToCart, cart_exec_updateQuantity.
    unfold cart_after_update. rewrite Hget, Hle.
    unfold cart_after_add. rewrite (get_delete_same _ _ Hwf).
    apply get_set_same. }
  split; [ | split ].
  - rewrite exec_seq, cart_exec_addToCart, cart_exec_removeFromCart.
    unfold cart_after_add. rewrite (get_delete_same _ _ Hwf).
    apply get_set_same.
  - exact Hcode.
  - intros old q delta Hget Hq Hle. apply (Hcode old); [ exact Hget | ].
    rewrite Hq, leb_add_int. now apply Z.leb_le.
Qed.

(* ===================================================================== *)
(** ** Totals and their display *)
(* ===================================================================== *)

Lemma fold_left_sum_from (c : Cart) :
  forall acc : number,
    List.fold_left (fun a kl => Num.add a (line_total (snd kl))) c acc
    = sum_from acc (List.map (fun kl => line_total (snd kl)) c).
Proof.
  induction c as [| [k item] rest IH]; intros acc;
    cbn [List.fold_left List.map snd sum_from].
  - reflexivity.
  - apply IH.
Qed.

Lemma loop_total_sum (c : Cart) : loop_total c = sum_of_lines c.
Proof. apply fold_left_sum_from. Qed.

Lemma itemsTotal_sum (w : World) :
  itemsTotal (evalState calculateTotals w) = sum_of_lines (cart w).
Proof.
  rewrite (eval_run _ _ _ _ (run_calculateTotals w)).
  apply loop_total_sum.
Qed.

(** On whole prices and quantities that are not negative the sums of the
    script are exact as long as they stay within 2^53. *)
Lemma sum_from_whole (c : Cart) :
  forall (acc t : Z),
    whole_total c = Some t -> 0 <= acc -> acc + t <= 2 ^ 53 ->
    sum_from (Num.int acc) (List.map (fun kl => line_total (snd kl)) c)
    = Num.int (acc + t)
    /\ 0 <= t.
Proof.
  induction c as [| [k item] rest IH]; intros acc t Hwhole Hacc Hbound;
    cbn [whole_total List.map snd sum_from] in *.
  - injection Hwhole as <-. rewrite Z.add_0_r. split; [ reflexivity | lia ].
  - destruct (Num.whole (line_price item)) as [p |] eqn:Hp;
      [ | discriminate ].
    destruct (Num.whole (line_quantity item)) as [q |] eqn:Hq;
      [ | discriminate ].
    destruct (whole_total rest) as [t' |] eqn:Hrest; [ | discriminate ].
    destruct (Z.leb_spec 0 p) as [Hp0 | ]; [ | discriminate ].
    destruct (Z.leb_spec 0 q) as [Hq0 | ]; [ | discriminate ].
    cbn [andb] in Hwhole. injection Hwhole as <-.
    assert (Hpq : 0 <= p * q) by nia.
    destruct (IH 0 t' eq_refl ltac:(lia)) as [_ Ht'].
    { lia. }
    assert (Hline : line_total item = Num.int (p * q)).
    { unfold line_total.
      rewrite (whole_is_int _ _ Hp), (whole_is_int _ _ Hq).
      apply mul_int. lia. }
    rewrite Hline, add_int by lia.
    destruct (IH (acc + p * q) t' eq_refl ltac:(lia) ltac:(lia)) as [-> _].
    split; [ f_equal; lia | lia ].
Qed.

Lemma exact_sum_whole (c : Cart) :
  forall t : Z,
    whole_total c = Some t -> (exact_sum_of_lines c == inject_Z t)%Q.
Proof.
  induction c as [| [k item] rest IH]; intros t Hwhole;
    cbn [whole_total exact_sum_of_lines] in *.
  - injection Hwhole as <-. reflexivity.
  - destruct (Num.whole (line_price item)) as [p |] eqn:Hp;
      [ | discriminate ].
    destruct (Num.whole (line_quantity item)) as [q |] eqn:Hq;
      [ | discriminate ].
    destruct (whole_total rest) as [t' |] eqn:Hrest; [ | discriminate ].
    destruct ((0 <=? p) && (0 <=? q)); [ | discriminate ].
    injection Hwhole as <-.
    rewrite (whole_is_int _ _ Hp), (whole_is_int _ _ Hq), !real_int.
    rewrite (IH t' eq_refl), inject_Z_plus, inject_Z_mult. reflexivity.
Qed.

(** C2, as the script has it.  [calculateTotals] returns as [itemsTotal]
    the sum over the entries of price times quantity taken in the order of
    the cart in double arithmetic, each product and each sum rounded to the
    nearest double, and as [grandTotal] the same number.  For whole prices
    and quantities that are not negative and an exact sum of at most 2^53
    it is the exact sum.  On the empty cart both are 0. *)
Theorem calculateTotals_spec (w : World) :
  itemsTotal (evalState calculateTotals w) = sum_of_lines (cart w)
  /\ grandTotal (evalState calculateTotals w)
     = itemsTotal (evalState calculateTotals w)
  /\ (forall t : Z,
      whole_total (cart w) = Some t -> t <= 2 ^ 53 ->
      itemsTotal (evalState calculateTotals w) = Num.int t
      /\ (Num.real (itemsTotal (evalState calculateTotals w))
          == exact_sum_of_lines (cart w))%Q)
  /\ evalState calculateTotals (set_cart JsMap.empty w)
     = mkTotals Num.zero Num.zero.
Proof.
  split; [ apply itemsTotal_sum | ].
  split; [ now rewrite (eval_run _ _ _ _ (run_calculateTotals _)) | ].
  split; [ | now rewrite (eval_run _ _ _ _ (run_calculateTotals _)) ].
  intros t Hwhole Hbound.
  assert (Htotal : itemsTotal (evalState calculateTotals w) = Num.int t).
  { rewrite itemsTotal_sum. unfold sum_of_lines.
    apply (sum_from_whole (cart w) 0 t Hwhole); lia. }
  split; [ exact Htotal | ].
  rewrite Htotal, real_int. symmetry. now apply exact_sum_whole.
Qed.

(** C7. [calculateTotals] leaves the page state as it is: the entries of
    the cart, their fields and their order, and everything else. *)
Theorem calculateTotals_pure (w : World) :
  execState calculateTotals w = w.
Proof. exact (exec_run _ _ _ _ (run_calculateTotals w)). Qed.

Lemma is_negative_true (x : Q) :
  JsNumber.is_negative x = true <-> (x < 0)%Q.
Proof.
  unfold JsNumber.is_negative. rewrite negb_true_iff.
  rewrite <- not_true_iff_false, Qle_bool_iff. split.
  - apply Qnot_le_lt.
  - apply Qlt_not_le.
Qed.

Lemma nearest_rounds (y : Q) : rounds_to y (JsNumber.nearest y).
Proof.
  unfold rounds_to, JsNumber.nearest.
  pose proof (Qfloor_le (y + (1 # 2))) as Hlo.
  pose proof (Qlt_floor (y + (1 # 2))) as Hhi.
  rewrite inject_Z_plus in Hhi.
  change (inject_Z 1) with 1%Q in Hhi.
  split; lra.
Qed.

Lemma nearest_nonneg (y : Q) : (0 <= y)%Q -> 0 <= JsNumber.nearest y.
Proof.
  intros Hy. unfold JsNumber.nearest.
  change 0 with (Qfloor 0). apply Qfloor_resp_le. lra.
Qed.

(** C8, as the script has it.  For every finite amount below 10^21 in
    magnitude [formatINR] returns the currency symbol followed by the amount
    rounded to zero decimal places (the nearest integer, the one away from
    zero of two nearest); the totals of [calculateTotals] are sums of the
    products as they are, rounded to no decimal place. *)
Theorem formatINR_spec (amount : number) (w : World) :
  (forall n : Z,
      amount = Num.Fin n ->
      (Qabs (Num.to_Q n) < inject_Z (10 ^ 21))%Q ->
      exists k : Z,
        0 <= k
        /\ rounds_to (Qabs (Num.to_Q n)) k
        /\ formatINR amount
           = currency_symbol
             ++ (if Qlt_le_dec (Num.to_Q n) 0 then "-" else "")
             ++ JsNumber.digits k)
  /\ itemsTotal (evalState calculateTotals w) = sum_of_lines (cart w).
Proof.
  split; [ | apply itemsTotal_sum ].
  intros n -> Hlim.
  set (x := Num.to_Q n) in *.
  exists (JsNumber.nearest (Qabs x)).
  split; [ apply nearest_nonneg, Qabs_nonneg | ].
  split; [ apply nearest_rounds | ].
  unfold formatINR, number_toFixed, toFixed, JsNumber.toFixed.
  fold x. f_equal.
  assert (Habs : ((if JsNumber.is_negative x then - x else x)
                  == Qabs x)%Q).
  { destruct (JsNumber.is_negative x) eqn:Hneg.
    - apply is_negative_true in Hneg.
      symmetry. apply Qabs_neg. lra.
    - symmetry. apply Qabs_pos.
      destruct (Qlt_le_dec x 0) as [Hlt | Hge]; [ | exact Hge ].
      apply is_negative_true in Hlt. congruence. }
  assert (Hfix : Qle_bool (inject_Z JsNumber.fixed_limit)
                   (if JsNumber.is_negative x then - x else x)
                 = false).
  { apply not_true_iff_false. rewrite Qle_bool_iff, Habs.
    apply Qlt_not_le. exact Hlim. }
  rewrite Hfix. cbn [JsNumber.with_point Z.of_nat].
  assert (Hn : JsNumber.nearest
                 ((if JsNumber.is_negative x then - x else x)
                  * inject_Z (10 ^ 0))
               = JsNumber.nearest (Qabs x)).
  { unfold JsNumber.nearest. apply Qfloor_comp.
    rewrite Habs. change (inject_Z (10 ^ 0)) with 1%Q. ring. }
  rewrite Hn. f_equal.
  destruct (Qlt_le_dec x 0) as [Hlt | Hge].
  - apply is_negative_true in Hlt. now rewrite Hlt.
  - destruct (JsNumber.is_negative x) eqn:Hneg; [ | reflexivity ].
    apply is_negative_true in Hneg. lra.
Qed.

(** From 10^21 on the display is the exponent notation of the host. *)
Lemma formatINR_large (n : Z) :
  (inject_Z (10 ^ 21) <= Num.to_Q n)%Q ->
  formatINR (Num.Fin n) = currency_symbol ++ exponent_notation (Num.to_Q n).
Proof.
  intros Hge. unfold formatINR, number_toFixed, toFixed, JsNumber.toFixed.
  assert (Hneg : JsNumber.is_negative (Num.to_Q n) = false).
  { apply not_true_iff_false. rewrite is_negative_true.
    apply Qle_not_lt. apply Qle_trans with (inject_Z (10 ^ 21)); [ | exact Hge ].
    discriminate. }
  rewrite Hneg.
  assert (Hfix : Qle_bool (inject_Z JsNumber.fixed_limit) (Num.to_Q n) = true)
    by now apply Qle_bool_iff.
  now rewrite Hfix.
Qed.

(* ===================================================================== *)
(** ** Checkout and start-up *)
(* ===================================================================== *)

(** C5. The checkout listener on the empty cart does nothing: the page
    state, the cart in it, is as before, and no [alert] is made. *)
Theorem checkout_empty_noop (w : World) :
  cart w = JsMap.empty ->
  execState onCheckoutClick w = w
  /\ alerts (trace (execState onCheckoutClick w)) = alerts (trace w).
Proof.
  intros Hempty.
  assert (Hrun : runState onCheckoutClick w = (tt, w)).
  { unfold onCheckoutClick. js_step. rewrite Hempty. reflexivity. }
  rewrite (exec_run _ _ _ _ Hrun). split; reflexivity.
Qed.

Lemma alerts_app (t1 t2 : list Event) :
  alerts (List.app t1 t2) = List.app (alerts t1) (alerts t2).
Proof.
  induction t1 as [| [amount | message] t1 IH]; cbn [List.app alerts].
  - reflexivity.
  - exact IH.
  - now rewrite IH.
Qed.

(** On a cart with entries the checkout listener makes one [alert] and
    empties the cart. *)
Lemma checkout_nonempty_alerts (w : World) :
  cart w <> JsMap.empty ->
  exists message : string,
    alerts (trace (execState onCheckoutClick w))
    = List.app (alerts (trace w)) [message]
    /\ cart (execState onCheckoutClick w) = JsMap.empty.
Proof.
  intros Hne.
  assert (Hsize : (JsMap.size (cart w) =? 0) = false).
  { apply Z.eqb_neq. unfold JsMap.size.
    destruct (cart w); [ contradiction | discriminate ]. }
  eexists. split; [ | apply cart_onCheckoutClick ].
  unfold execState, onCheckoutClick.
  erewrite run_bind; [ | apply run_gets | reflexivity ].
  rewrite Hsize.
  erewrite run_bind; [ | apply run_calculateTotals | reflexivity ].
  unfold cart_forEach.
  erewrite run_bind;
    [ | eapply run_bind; [ apply run_gets | apply run_forEach_pure ]
      | reflexivity ].
  erewrite run_bind; [ | apply run_emit | apply run_clearCart ].
  cbn [snd rendered trace set_cart add_event].
  rewrite !alerts_app. cbn [alerts]. rewrite List.app_nil_r.
  reflexivity.
Qed.

(** Registering the listeners and stamping the year write to the page
    only. *)
Lemma run_setupMenuButtons (w : World) :
  exists d : Dom, runState setupMenuButtons w = (tt, set_dom d w).
Proof.
  eexists. unfold setupMenuButtons.
  eapply run_bind; [ apply run_gets | apply run_modify_dom ].
Qed.

Lemma run_setupCartEvents (w : World) :
  exists d : Dom, runState setupCartEvents w = (tt, set_dom d w).
Proof.
  eexists. unfold setupCartEvents.
  js_step. js_step. rewrite run_modify_dom.
  destruct w as [c d y t]. reflexivity.
Qed.

Lemma run_setupNavbar (w : World) :
  exists d : Dom, runState setupNavbar w = (tt, set_dom d w).
Proof.
  unfold setupNavbar.
  destruct (navToggleBtn (dom w) && navLinks (dom w)) eqn:Hnav.
  - eexists. js_step. rewrite Hnav. js_step. rewrite run_modify_dom.
    destruct w as [c d y t]. reflexivity.
  - exists (dom w). js_step. rewrite Hnav.
    destruct w as [c d y t]. reflexivity.
Qed.

Lemma run_setupYear (w : World) :
  exists d : Dom, runState setupYear w = (tt, set_dom d w).
Proof.
  unfold setupYear.
  destruct (yearEl (dom w)) as [year |] eqn:Hyear.
  - eexists. js_step. rewrite Hyear. apply run_modify_dom.
  - exists (dom w). js_step. rewrite Hyear.
    destruct w as [c d y t]. reflexivity.
Qed.

(** C9, as the script has it.  The start-up handler, run on the empty cart,
    enters [updateQRCode] twice, each time with amount 0: once at the end of
    the first [renderCart] and once by its own call. *)
Theorem startup_qr_updates (w : World) :
  cart w = JsMap.empty ->
  trace (execState onDOMContentLoaded w)
  = List.app (trace w) [QRUpdate Num.zero; QRUpdate Num.zero].
Proof.
  intros Hempty.
  unfold execState, onDOMContentLoaded.
  destruct (run_setupMenuButtons w) as [d1 H1].
  erewrite run_bind; [ | exact H1 | reflexivity ].
  destruct (run_setupCartEvents (set_dom d1 w)) as [d2 H2].
  erewrite run_bind; [ | exact H2 | reflexivity ].
  destruct (run_setupNavbar (set_dom d2 (set_dom d1 w))) as [d3 H3].
  erewrite run_bind; [ | exact H3 | reflexivity ].
  destruct (run_setupYear (set_dom d3 (set_dom d2 (set_dom d1 w))))
    as [d4 H4].
  erewrite run_bind; [ | exact H4 | reflexivity ].
  erewrite run_bind; [ | apply run_renderCart | apply run_updateQRCode ].
  cbn [snd trace set_dom add_event rendered cart]. rewrite Hempty.
  rewrite <- List.app_assoc. reflexivity.
Qed.

(* ===================================================================== *)
(** ** The render function *)
(* ===================================================================== *)

Lemma set_cart_same (w : World) : set_cart (cart w) w = w.
Proof. destruct w as [c d y t]. reflexivity. Qed.

Lemma eval_calculateTotals (w : World) :
  evalState calculateTotals w
  = mkTotals (loop_total (cart w)) (loop_total (cart w)).
Proof. exact (eval_run _ _ _ _ (run_calculateTotals w)). Qed.

(** [renderCart] leaves the cart and the registered listeners alone, makes
    no [alert] and enters [updateQRCode] exactly once, with the grand total
    of [calculateTotals]. *)
Theorem renderCart_effect (w : World) :
  cart (execState renderCart w) = cart w
  /\ trace (execState renderCart w)
     = List.app (trace w)
         [QRUpdate (grandTotal (evalState calculateTotals w))]
  /\ alerts (trace (execState renderCart w)) = alerts (trace w)
  /\ listeners (dom (execState renderCart w)) = listeners (dom w).
Proof.
  rewrite (exec_run _ _ _ _ (run_renderCart w)), eval_calculateTotals.
  cbn [cart trace rendered grandTotal].
  split; [ reflexivity | split; [ reflexivity | split ] ].
  - rewrite alerts_app. cbn [alerts]. apply List.app_nil_r.
  - unfold rendered, rendered_dom, list_dom, qr_dom.
    destruct w as [c [rows disp co cl it gt [src |] qa ab nt nl ye ls] y t];
      cbn [cart dom]; destruct (JsMap.size c =? 0); reflexivity.
Qed.

(** [renderCart] draws the page from the cart alone: a second [renderCart]
    leaves the page as the first one made it. *)
Theorem renderCart_idempotent (w : World) :
  dom (execState renderCart (execState renderCart w))
  = dom (execState renderCart w).
Proof.
  rewrite !(exec_run _ _ _ _ (run_renderCart _)).
  rewrite <- (set_cart_same w) at 1 2.
  rewrite <- (set_cart_same (rendered (set_cart (cart w) w))).
  cbn [cart rendered set_cart].
  apply (rendered_set_cart_idem (cart w) w).
Qed.

Lemma shows_cart_rendered (w : World) : shows_cart (rendered w).
Proof.
  unfold shows_cart. rewrite eval_calculateTotals.
  cbn [cart dom rendered grandTotal].
  unfold rendered_dom, list_dom, qr_dom, qr_src.
  destruct w as [[| kl c] [rows disp co cl it gt [src |] qa ab nt nl ye ls] y t];
    cbn [cart dom];
    (repeat (split; [ reflexivity | ]));
    first [ left; reflexivity | right; split; reflexivity ].
Qed.


(* ===================================================================== *)
(** ** Order of the entries and change of the totals *)
(* ===================================================================== *)

Lemma set_absent (k : string) (v : Line) (c : Cart) :
  JsMap.get k c = None -> JsMap.set k v c = List.app c [(k, v)].
Proof.
  induction c as [| [k' v'] rest IH]; cbn [JsMap.get JsMap.set List.app].
  - reflexivity.
  - destruct (String.eqb k k'); [ discriminate | ].
    intros Hget. now rewrite IH.
Qed.

Lemma delete_filter (k : string) (c : Cart) :
  JsMap.wf_map c ->
  JsMap.delete k c = List.filter (fun kl => negb (String.eqb (fst kl) k)) c.
Proof.
  unfold JsMap.wf_map.
  induction c as [| [k' v'] rest IH];
    cbn [JsMap.delete List.filter fst JsMap.keys List.map]; intros Hnd.
  - reflexivity.
  - inversion Hnd as [| ? ? Hnotin Hrest]; subst.
    rewrite (String.eqb_sym k' k).
    destruct (String.eqb_spec k k') as [-> | Hne]; cbn [negb].
    + symmetry. apply List.forallb_filter_id.
      apply List.forallb_forall. intros [k0 v0] Hin. cbn [fst].
      apply negb_true_iff, String.eqb_neq. intros ->.
      apply Hnotin. change k' with (fst (k', v0)). now apply List.in_map.
    + now rewrite IH.
Qed.

(** [addToCart] with a new id puts the entry after the ones the cart holds;
    with an id the cart holds it keeps the order of the entries. *)
Theorem addToCart_order (w : World) (item : Item) :
  (JsMap.get (item_id item) (cart w) = None ->
   cart (execState (addToCart item) w)
   = List.app (cart w)
       [(item_id item,
         mkLine (item_id item) (item_name item) (item_price item)
           (Num.int 1))])
  /\ (JsMap.get (item_id item) (cart w) <> None ->
      JsMap.keys (cart (execState (addToCart item) w)) = JsMap.keys (cart w)).
Proof.
  rewrite cart_exec_addToCart. unfold cart_after_add. split.
  - intros Hget. rewrite Hget. now apply set_absent.
  - intros Hget. destruct (JsMap.get (item_id item) (cart w)) eqn:E;
      [ | congruence ].
    apply keys_set_present. congruence.
Qed.

(** [removeFromCart id] drops the entry of [id] and keeps the other entries
    as they are, in their order; so does an [updateQuantity] that brings the
    quantity to zero or below. *)
Theorem removal_keeps_others (w : World) (id : string) :
  JsMap.wf_map (cart w) ->
  cart (execState (removeFromCart id) w)
  = List.filter (fun kl => negb (String.eqb (fst kl) id)) (cart w)
  /\ (forall (item : Line) (delta : number),
      JsMap.get id (cart w) = Some item ->
      Num.leb (Num.add (line_quantity item) delta) Num.zero = true ->
      cart (execState (updateQuantity id delta) w)
      = List.filter (fun kl => negb (String.eqb (fst kl) id)) (cart w))
  /\ (forall (item : Line) (q delta : Z),
      JsMap.get id (cart w) = Some item ->
      line_quantity item = Num.int q ->
      q + delta <= 0 ->
      cart (execState (updateQuantity id (Num.int delta)) w)
      = List.filter (fun kl => negb (String.eqb (fst kl) id)) (cart w)).
Proof.
  intros Hwf.
  assert (Hcode :
            forall (item : Line) (delta : number),
              JsMap.get id (cart w) = Some item ->
              Num.leb (Num.add (line_quantity item) delta) Num.zero = true ->
              cart (execState (updateQuantity id delta) w)
              = List.filter (fun kl => negb (String.eqb (fst kl) id))
                  (cart w)).
  { intros item delta Hget Hle.
    rewrite cart_exec_updateQuantity. unfold cart_after_update.
    rewrite Hget, Hle. now apply delete_filter. }
  split; [ | split ].
  - rewrite cart_exec_removeFromCart. now apply delete_filter.
  - exact Hcode.
  - intros item q delta Hget Hq Hle. apply (Hcode item); [ exact Hget | ].
    rewrite Hq, leb_add_int. now apply Z.leb_le.
Qed.

Lemma whole_total_get (k : string) (e : Line) (c : Cart) (p q : Z) :
  forall t : Z,
    JsMap.get k c = Some e ->
    whole_total c = Some t ->
    line_price e = Num.int p -> line_quantity e = Num.int q ->
    0 <= p /\ 0 <= q.
Proof.
  induction c as [| [k' v'] rest IH]; intros t;
    cbn [JsMap.get whole_total].
  - discriminate.
  - destruct (Num.whole (line_price v')) as [p0 |] eqn:Hp0;
      [ | discriminate ].
    destruct (Num.whole (line_quantity v')) as [q0 |] eqn:Hq0;
      [ | discriminate ].
    destruct (whole_total rest) as [t' |]; [ | discriminate ].
    destruct (String.eqb k k').
    + intros [= ->] Hwhole Hp Hq.
      rewrite Hp, whole_int in Hp0. rewrite Hq, whole_int in Hq0.
      injection Hp0 as <-. injection Hq0 as <-.
      destruct (Z.leb_spec 0 p); [ | discriminate ].
      destruct (Z.leb_spec 0 q); [ | discriminate ].
      split; assumption.
    + intros Hget _. now apply (IH t').
Qed.

Lemma whole_total_set_present (k : string) (v e : Line) (c : Cart)
    (p q p' q' : Z) :
  forall t : Z,
    JsMap.get k c = Some e ->
    whole_total c = Some t ->
    line_price e = Num.int p -> line_quantity e = Num.int q ->
    line_price v = Num.int p' -> line_quantity v = Num.int q' ->
    0 <= p' -> 0 <= q' ->
    whole_total (JsMap.set k v c) = Some (t - p * q + p' * q').
Proof.
  intros t Hget Hwhole Hp Hq Hp' Hq' Hp0 Hq0. revert t Hget Hwhole.
  induction c as [| [k' v'] rest IH]; intros t;
    cbn [JsMap.get JsMap.set whole_total].
  - discriminate.
  - destruct (Num.whole (line_price v')) as [p0 |] eqn:Hv'p;
      [ | discriminate ].
    destruct (Num.whole (line_quantity v')) as [q0 |] eqn:Hv'q;
      [ | discriminate ].
    destruct (whole_total rest) as [t' |] eqn:Hrest; [ | discriminate ].
    destruct ((0 <=? p0) && (0 <=? q0)) eqn:Hsigns; [ | discriminate ].
    destruct (String.eqb k k'); cbn [whole_total].
    + intros [= ->] [= <-].
      rewrite Hp, whole_int in Hv'p. rewrite Hq, whole_int in Hv'q.
      injection Hv'p as <-. injection Hv'q as <-.
      rewrite Hp', Hq', !whole_int, Hrest.
      apply Z.leb_le in Hp0, Hq0. rewrite Hp0, Hq0. cbn [andb].
      f_equal. lia.
    + intros Hget [= <-].
      rewrite Hv'p, Hv'q, (IH t' Hget eq_refl), Hsigns.
      f_equal. lia.
Qed.

Lemma whole_total_set_absent (k : string) (v : Line) (c : Cart)
    (p' q' : Z) :
  forall t : Z,
    JsMap.get k c = None ->
    whole_total c = Some t ->
    line_price v = Num.int p' -> line_quantity v = Num.int q' ->
    0 <= p' -> 0 <= q' ->
    whole_total (JsMap.set k v c) = Some (t + p' * q').
Proof.
  intros t Hget Hwhole Hp' Hq' Hp0 Hq0. revert t Hget Hwhole.
  induction c as [| [k' v'] rest IH]; intros t;
    cbn [JsMap.get JsMap.set whole_total].
  - intros _ [= <-].
    rewrite Hp', Hq', !whole_int.
    apply Z.leb_le in Hp0, Hq0. rewrite Hp0, Hq0. cbn [andb].
    f_equal. lia.
  - destruct (Num.whole (line_price v')) as [p0 |] eqn:Hv'p;
      [ | discriminate ].
    destruct (Num.whole (line_quantity v')) as [q0 |] eqn:Hv'q;
      [ | discriminate ].
    destruct (whole_total rest) as [t' |] eqn:Hrest; [ | discriminate ].
    destruct ((0 <=? p0) && (0 <=? q0)) eqn:Hsigns; [ | discriminate ].
    destruct (String.eqb k k'); [ discriminate | ]. cbn [whole_total].
    intros Hget [= <-].
    rewrite Hv'p, Hv'q, (IH t' Hget eq_refl), Hsigns.
    f_equal. lia.
Qed.

Lemma whole_total_delete_present (k : string) (e : Line) (c : Cart)
    (p q : Z) :
  forall t : Z,
    JsMap.get k c = Some e ->
    whole_total c = Some t ->
    line_price e = Num.int p -> line_quantity e = Num.int q ->
    whole_total (JsMap.delete k c) = Some (t - p * q).
Proof.
  intros t Hget Hwhole Hp Hq. revert t Hget Hwhole.
  induction c as [| [k' v'] rest IH]; intros t;
    cbn [JsMap.get JsMap.delete whole_total].
  - discriminate.
  - destruct (Num.whole (line_price v')) as [p0 |] eqn:Hv'p;
      [ | discriminate ].
    destruct (Num.whole (line_quantity v')) as [q0 |] eqn:Hv'q;
      [ | discriminate ].
    destruct (whole_total rest) as [t' |] eqn:Hrest; [ | discriminate ].
    destruct ((0 <=? p0) && (0 <=? q0)) eqn:Hsigns; [ | discriminate ].
    destruct (String.eqb k k'); cbn [whole_total].
    + intros [= ->] [= <-].
      rewrite Hp, whole_int in Hv'p. rewrite Hq, whole_int in Hv'q.
      injection Hv'p as <-. injection Hv'q as <-.
      rewrite Hrest. f_equal. lia.
    + intros Hget [= <-].
      rewrite Hv'p, Hv'q, (IH t' Hget eq_refl), Hsigns.
      f_equal. lia.
Qed.

Lemma itemsTotal_whole (w : World) (t : Z) :
  whole_total (cart w) = Some t -> t <= 2 ^ 53 ->
  itemsTotal (evalState calculateTotals w) = Num.int t /\ 0 <= t.
Proof.
  intros Hwhole Hbound. rewrite itemsTotal_sum. unfold sum_of_lines.
  apply (sum_from_whole (cart w) 0 t Hwhole); lia.
Qed.

Lemma quantities_small_get (k : string) (e : Line) (c : Cart) :
  quantities_small c -> JsMap.get k c = Some e ->
  exists q : Z, line_quantity e = Num.int q /\ 1 <= q < 2 ^ 53.
Proof.
  intros Hall Hget. unfold quantities_small in Hall.
  rewrite Forall_forall in Hall.
  exact (Hall _ (get_Some_In _ _ _ Hget)).
Qed.

(** In a cart of whole prices that are not negative and quantities from 1
    to below 2^53, whose items total is [t], each [addToCart] raises the
    items total by one unit price [p], as long as [t + p] is at most 2^53:
    the price the cart holds for the id, or the price of the argument when
    the id is new. *)
Theorem addToCart_total (w : World) (item : Item) (t p : Z) :
  whole_total (cart w) = Some t ->
  quantities_small (cart w) ->
  match JsMap.get (item_id item) (cart w) with
  | Some existing => line_price existing
  | None => item_price item
  end = Num.int p ->
  0 <= p -> t + p <= 2 ^ 53 ->
  itemsTotal (evalState calculateTotals w) = Num.int t
  /\ itemsTotal (evalState calculateTotals (execState (addToCart item) w))
     = Num.int (t + p).
Proof.
  intros Hwhole Hsmall Hprice Hp Hbound.
  split; [ apply (itemsTotal_whole w t Hwhole); lia | ].
  apply itemsTotal_whole; [ | exact Hbound ].
  rewrite cart_exec_addToCart. unfold cart_after_add.
  destruct (JsMap.get (item_id item) (cart w)) as [existing |] eqn:Hget.
  - destruct (quantities_small_get _ _ _ Hsmall Hget) as (q & Hq & Hrange).
    rewrite Hq. change Num.one with (Num.int 1). rewrite add_int by lia.
    rewrite (whole_total_set_present (item_id item)
               (with_quantity existing (Num.int (q + 1))) existing (cart w)
               p q p (q + 1) t Hget Hwhole Hprice Hq Hprice eq_refl Hp
               ltac:(lia)).
    f_equal. lia.
  - rewrite (whole_total_set_absent (item_id item) (spread item Num.one)
               (cart w) p 1 t Hget Hwhole Hprice eq_refl Hp ltac:(lia)).
    f_equal. lia.
Qed.

(** In a cart of whole prices and quantities that are not negative, whose
    items total [t] is at most 2^53, [updateQuantity id delta] on an entry
    with price [p] and quantity [q] changes the items total by [delta] unit
    prices when the entry stays (and the new quantity and total are at most
    2^53), and takes the whole line off the total when the entry goes; so
    does [removeFromCart]. *)
Theorem removal_and_update_total (w : World) (id : string) (item : Line)
    (t p q : Z) :
  JsMap.get id (cart w) = Some item ->
  whole_total (cart w) = Some t -> t <= 2 ^ 53 ->
  line_price item = Num.int p -> line_quantity item = Num.int q ->
  itemsTotal (evalState calculateTotals w) = Num.int t
  /\ (forall delta : Z,
      0 < q + delta -> q + delta <= 2 ^ 53 -> t + delta * p <= 2 ^ 53 ->
      itemsTotal
        (evalState calculateTotals
           (execState (updateQuantity id (Num.int delta)) w))
      = Num.int (t + delta * p))
  /\ (forall delta : Z,
      q + delta <= 0 ->
      itemsTotal
        (evalState calculateTotals
           (execState (updateQuantity id (Num.int delta)) w))
      = Num.int (t - p * q))
  /\ itemsTotal
       (evalState calculateTotals (execState (removeFromCart id) w))
     = Num.int (t - p * q).
Proof.
  intros Hget Hwhole Hbound Hp Hq.
  destruct (whole_total_get _ _ _ _ _ t Hget Hwhole Hp Hq) as [Hp0 Hq0].
  assert (Hpq : 0 <= p * q) by nia.
  split; [ now apply itemsTotal_whole | split; [ | split ] ].
  - intros delta Hpos Hsmall Hnew.
    apply itemsTotal_whole; [ | exact Hnew ].
    rewrite cart_exec_updateQuantity. unfold cart_after_update.
    rewrite Hget, Hq, leb_add_int.
    apply Z.leb_gt in Hpos. rewrite Hpos. apply Z.leb_gt in Hpos.
    rewrite add_int by lia.
    rewrite (whole_total_set_present id
               (with_quantity item (Num.int (q + delta))) item (cart w)
               p q p (q + delta) t Hget Hwhole Hp Hq Hp eq_refl Hp0
               ltac:(lia)).
    f_equal. lia.
  - intros delta Hle.
    apply itemsTotal_whole; [ | lia ].
    rewrite cart_exec_updateQuantity. unfold cart_after_update.
    rewrite Hget, Hq, leb_add_int.
    apply Z.leb_le in Hle. rewrite Hle.
    now apply (whole_total_delete_present _ _ _ p q t Hget Hwhole).
  - apply itemsTotal_whole; [ | lia ].
    rewrite cart_exec_removeFromCart.
    now apply (whole_total_delete_present _ _ _ p q t Hget Hwhole).
Qed.

(* ===================================================================== *)
(** ** Renders, QR updates and alerts of the operations *)
(* ===================================================================== *)

Lemma trace_rendered (w : World) :
  trace (rendered w)
  = List.app (trace w)
      [QRUpdate (grandTotal (evalState calculateTotals (rendered w)))].
Proof. rewrite eval_calculateTotals. reflexivity. Qed.

Lemma alerts_rendered (w : World) :
  alerts (trace (rendered w)) = alerts (trace w).
Proof.
  cbn [trace rendered]. rewrite alerts_app. cbn [alerts].
  apply List.app_nil_r.
Qed.

(** [addToCart], [removeFromCart] and [clearCart] always render, and
    [updateQuantity] does when the cart holds the id: the trace grows by
    one entry of [updateQRCode], with the grand total of the new cart.
    [updateQuantity] on an id the cart does not hold leaves the trace as it
    is. *)
Theorem qr_update_follows_cart (w : World) :
  (forall item : Item,
      trace (execState (addToCart item) w)
      = List.app (trace w)
          [QRUpdate
             (grandTotal
                (evalState calculateTotals (execState (addToCart item) w)))])
  /\ (forall id : string,
      trace (execState (removeFromCart id) w)
      = List.app (trace w)
          [QRUpdate
             (grandTotal
                (evalState calculateTotals
                   (execState (removeFromCart id) w)))])
  /\ trace (execState clearCart w) = List.app (trace w) [QRUpdate Num.zero]
  /\ (forall (id : string) (delta : number),
      trace (execState (updateQuantity id delta) w)
      = match JsMap.get id (cart w) with
        | Some _ =>
            List.app (trace w)
              [QRUpdate
                 (grandTotal
                    (evalState calculateTotals
                       (execState (updateQuantity id delta) w)))]
        | None => trace w
        end).
Proof.
  split; [ | split; [ | split ] ].
  - intros item. rewrite (exec_run _ _ _ _ (run_addToCart item w)).
    rewrite trace_rendered. reflexivity.
  - intros id. rewrite (exec_run _ _ _ _ (run_removeFromCart id w)).
    rewrite trace_rendered. reflexivity.
  - rewrite (exec_run _ _ _ _ (run_clearCart w)). reflexivity.
  - intros id delta.
    rewrite (exec_run _ _ _ _ (run_updateQuantity id delta w)).
    destruct (JsMap.get id (cart w)); [ | reflexivity ].
    rewrite trace_rendered. reflexivity.
Qed.

(** No operation of the store and no click on the clear button makes an
    [alert]. *)
Theorem store_never_alerts (w : World) (c : Call) :
  c <> CallCheckoutClick ->
  alerts (trace (execState (call c) w)) = alerts (trace w).
Proof.
  intros Hc. destruct c as [item | id delta | id | | |]; cbn [call].
  - rewrite (exec_run _ _ _ _ (run_addToCart item w)).
    now rewrite alerts_rendered.
  - rewrite (exec_run _ _ _ _ (run_updateQuantity id delta w)).
    destruct (JsMap.get id (cart w)); [ | reflexivity ].
    now rewrite alerts_rendered.
  - rewrite (exec_run _ _ _ _ (run_removeFromCart id w)).
    now rewrite alerts_rendered.
  - rewrite (exec_run _ _ _ _ (run_clearCart w)). now rewrite alerts_rendered.
  - rewrite (exec_run _ _ _ _ (run_onClearCartClick w)).
    destruct (JsMap.size (cart w) =? 0); [ reflexivity | ].
    now rewrite alerts_rendered.
  - contradiction.
Qed.

Lemma size_zero_empty (c : Cart) :
  (JsMap.size c =? 0) = true <-> c = JsMap.empty.
Proof.
  unfold JsMap.size, JsMap.empty. destruct c as [| kl rest]; cbn.
  - tauto.
  - split; discriminate.
Qed.

(** The listener of the clear button does nothing on the empty cart: no
    render, no entry of [updateQRCode].  On a cart with entries it is
    [clearCart]. *)
Theorem clear_click_guard (w : World) :
  (cart w = JsMap.empty -> execState onClearCartClick w = w)
  /\ (cart w <> JsMap.empty ->
      execState onClearCartClick w = execState clearCart w
      /\ cart (execState onClearCartClick w) = JsMap.empty).
Proof.
  rewrite (exec_run _ _ _ _ (run_onClearCartClick w)),
    (exec_run _ _ _ _ (run_clearCart w)).
  split.
  - intros Hempty. apply size_zero_empty in Hempty. now rewrite Hempty.
  - intros Hne.
    destruct (JsMap.size (cart w) =? 0) eqn:Hsize.
    + apply size_zero_empty in Hsize. contradiction.
    + split; reflexivity.
Qed.

Lemma fold_left_lines (f : Line -> string) (c : Cart) :
  forall acc : list string,
    List.fold_left (fun lines kl => List.app lines [f (snd kl)]) c acc
    = List.app acc (List.map (fun kl => f (snd kl)) c).
Proof.
  induction c as [| [k item] rest IH]; intros acc;
    cbn [List.fold_left List.map snd].
  - now rewrite List.app_nil_r.
  - rewrite IH, <- List.app_assoc. reflexivity.
Qed.

Lemma run_onCheckoutClick (w : World) :
  runState onCheckoutClick w
  = (tt,
     if JsMap.size (cart w) =? 0 then w
     else rendered
            (set_cart JsMap.empty
               (add_event (Alert (checkout_message (cart w))) w))).
Proof.
  unfold onCheckoutClick. js_step.
  destruct (JsMap.size (cart w) =? 0); [ reflexivity | ].
  js_step. unfold cart_forEach.
  eapply run_bind.
  - eapply run_bind; [ apply run_gets | ].
    exact (run_forEach_pure
             (fun itemLines item => List.app itemLines [summary_line item])
             (cart w) [] w).
  - cbv beta.
    rewrite (fold_left_lines summary_line (cart w) []).
    cbn [List.app itemsTotal grandTotal].
    js_step. apply run_clearCart.
Qed.


(* ===================================================================== *)
(** ** The click listeners *)
(* ===================================================================== *)

Lemma falsy_Some (s : string) : falsy (Some s) = false <-> s <> "".
Proof. destruct s; cbn; split; congruence. Qed.

Lemma exec_then_ret {A : Type} (c : JS A) (w : World) :
  execState (c ;; ret tt) w = execState c w.
Proof. now rewrite exec_seq. Qed.

Lemma exec_ret_then {A : Type} (c : JS A) (w : World) :
  execState (ret tt ;; c) w = execState c w.
Proof. now rewrite exec_seq. Qed.

(** The listener of an [.add-to-cart] button changes nothing when there is
    no menu card, when the id or the name is missing or empty, or when the
    price is not a number: no entry, no render.  Otherwise it is
    [addToCart] with the three values. *)
Theorem add_click_guard (w : World) (card : option MenuCard) :
  (match card with
   | None => True
   | Some card =>
       falsy (card_id card) = true \/ falsy (card_name card) = true
       \/ Num.isNaN (card_price card) = true
   end ->
   execState (onAddToCartClick card) w = w)
  /\ (forall (id name : string) (price : number),
      card = Some (mkMenuCard (Some id) (Some name) price) ->
      id <> "" -> name <> "" -> Num.isNaN price = false ->
      execState (onAddToCartClick card) w
      = execState (addToCart (mkItem id name price)) w).
Proof.
  split.
  - destruct card as [[[id |] [name |] price] |]; try reflexivity.
    unfold onAddToCartClick. cbn [card_id card_name card_price].
    intros [Hid | [Hname | Hprice]].
    + now rewrite Hid.
    + rewrite Hname, orb_true_r. reflexivity.
    + rewrite Hprice, orb_true_r. reflexivity.
  - intros id name price -> Hid Hname Hprice. unfold onAddToCartClick.
    cbn [card_id card_name card_price].
    apply falsy_Some in Hid, Hname. now rewrite Hid, Hname, Hprice.
Qed.

(** The listener of [.cart-items] changes nothing when the click is outside
    a row, when the row has no id, or when the target is neither a remove
    button nor a quantity button with a known action.  A quantity button
    moves the quantity by one, a remove button is [removeFromCart]. *)
Theorem cart_click_guard (w : World) (target : Target) :
  (target_row target = None
   \/ (exists id, target_row target = Some id /\ falsy id = true) ->
   execState (onCartItemsClick target) w = w)
  /\ (forall id : string,
      target_row target = Some (Some id) -> id <> "" ->
      target_remove_btn target = false ->
      (target_qty_btn target = false ->
       execState (onCartItemsClick target) w = w)
      /\ (target_qty_btn target = true ->
          target_action target <> Some "increase" ->
          target_action target <> Some "decrease" ->
          execState (onCartItemsClick target) w = w)
      /\ (target_qty_btn target = true ->
          target_action target = Some "increase" ->
          execState (onCartItemsClick target) w
          = execState (updateQuantity id (Num.int 1)) w)
      /\ (target_qty_btn target = true ->
          target_action target = Some "decrease" ->
          execState (onCartItemsClick target) w
          = execState (updateQuantity id (Num.int (-1))) w))
  /\ (forall id : string,
      target_row target = Some (Some id) -> id <> "" ->
      target_qty_btn target = false ->
      target_remove_btn target = true ->
      execState (onCartItemsClick target) w
      = execState (removeFromCart id) w).
Proof.
  unfold onCartItemsClick. split; [ | split ].
  - intros [Hrow | (id & Hrow & Hid)]; rewrite Hrow; [ reflexivity | ].
    destruct id as [id |]; [ now rewrite Hid | reflexivity ].
  - intros id Hrow Hid Hremove. rewrite Hrow, Hremove.
    apply falsy_Some in Hid. rewrite Hid.
    split; [ | split; [ | split ] ].
    + intros ->. reflexivity.
    + intros -> Hinc Hdec. rewrite exec_then_ret.
      destruct (target_action target) as [action |]; cbn [is_string];
        [ | reflexivity ].
      destruct (String.eqb_spec action "increase"); [ congruence | ].
      destruct (String.eqb_spec action "decrease"); [ congruence | ].
      reflexivity.
    + intros -> ->. now rewrite exec_then_ret.
    + intros -> ->. now rewrite exec_then_ret.
  - intros id Hrow Hid Hqty Hremove. rewrite Hrow, Hqty, Hremove.
    apply falsy_Some in Hid. rewrite Hid. apply exec_ret_then.
Qed.

(* ===================================================================== *)
(** ** The page states of a visit *)
(* ===================================================================== *)

Lemma exec_onDOMContentLoaded (w : World) :
  exists d : Dom,
    execState onDOMContentLoaded w
    = execState (updateQRCode Num.zero) (rendered (set_dom d w)).
Proof.
  unfold execState at 1. unfold onDOMContentLoaded.
  destruct (run_setupMenuButtons w) as [d1 H1].
  erewrite run_bind; [ | exact H1 | reflexivity ].
  destruct (run_setupCartEvents (set_dom d1 w)) as [d2 H2].
  erewrite run_bind; [ | exact H2 | reflexivity ].
  destruct (run_setupNavbar (set_dom d2 (set_dom d1 w))) as [d3 H3].
  erewrite run_bind; [ | exact H3 | reflexivity ].
  destruct (run_setupYear (set_dom d3 (set_dom d2 (set_dom d1 w))))
    as [d4 H4].
  erewrite run_bind; [ | exact H4 | reflexivity ].
  erewrite run_bind; [ | apply run_renderCart | reflexivity ].
  exists d4. destruct w as [c d y t]. reflexivity.
Qed.

Lemma cart_onDOMContentLoaded (w : World) :
  cart (execState onDOMContentLoaded w) = cart w.
Proof.
  destruct (exec_onDOMContentLoaded w) as [d ->].
  rewrite (exec_run _ _ _ _ (run_updateQRCode _ _)). reflexivity.
Qed.

(** A click leaves the page state as it is or ends in a render. *)
Lemma click_cases (c : Click) (w : World) :
  execState (click c) w = w
  \/ exists w0 : World, execState (click c) w = rendered w0.
Proof.
  destruct c as [card | target | |]; cbn [click].
  - destruct card as [[[id |] [name |] price] |];
      try (left; reflexivity).
    unfold onAddToCartClick. cbn [card_id card_name card_price].
    destruct (falsy (Some id) || falsy (Some name) || Num.isNaN price);
      [ left; reflexivity | right ].
    rewrite (exec_run _ _ _ _ (run_addToCart _ w)). eauto.
  - unfold onCartItemsClick.
    destruct (target_row target) as [[id |] |]; try (left; reflexivity).
    destruct (falsy (Some id)); [ left; reflexivity | ].
    rewrite exec_seq.
    destruct (target_remove_btn target).
    { right. rewrite (exec_run _ _ _ _ (run_removeFromCart id _)). eauto. }
    change (execState (ret tt) ?x) with x.
    destruct (target_qty_btn target); [ | left; reflexivity ].
    destruct (is_string (target_action target) "increase").
    { rewrite (exec_run _ _ _ _ (run_updateQuantity id (Num.int 1) w)).
      destruct (JsMap.get id (cart w)); eauto. }
    destruct (is_string (target_action target) "decrease");
      [ | left; reflexivity ].
    rewrite (exec_run _ _ _ _ (run_updateQuantity id (Num.int (-1)) w)).
    destruct (JsMap.get id (cart w)); eauto.
  - rewrite (exec_run _ _ _ _ (run_onClearCartClick w)).
    destruct (JsMap.size (cart w) =? 0); eauto.
  - rewrite (exec_run _ _ _ _ (run_onCheckoutClick w)).
    destruct (JsMap.size (cart w) =? 0); eauto.
Qed.

Lemma shows_cart_loaded (w : World) :
  cart w = JsMap.empty -> shows_cart (execState onDOMContentLoaded w).
Proof.
  intros Hempty. destruct (exec_onDOMContentLoaded w) as [d ->].
  rewrite (exec_run _ _ _ _ (run_updateQRCode _ _)).
  unfold shows_cart. rewrite eval_calculateTotals.
  destruct w as [c d0 y t]. cbn [cart] in Hempty. subst c.
  unfold rendered, rendered_dom, list_dom, qr_dom, qr_src.
  cbn [cart dom set_dom add_event grandTotal].
  destruct d as [rows disp co cl it gt [src |] qa ab nt nl ye ls];
    (repeat (split; [ reflexivity | ]));
    first [ left; reflexivity | right; split; reflexivity ].
Qed.

(** In every page state of a visit the page shows the cart: the rows are
    the entries in order, the empty message and the disabled buttons go with
    the empty cart, and the totals and the QR amount are those of
    [calculateTotals]. *)
Theorem visited_shows_cart (w : World) : Visited w -> shows_cart w.
Proof.
  induction 1 as [w Hempty | w c Hvisited IH].
  - now apply shows_cart_loaded.
  - destruct (click_cases c w) as [-> | [w0 ->]];
      [ exact IH | apply shows_cart_rendered ].
Qed.

(** In every page state of a visit the last entry of [updateQRCode] was
    made with the grand total of the cart as it is now. *)
Theorem visited_qr_is_current (w : World) :
  Visited w ->
  exists t : list Event,
    trace w
    = List.app t [QRUpdate (grandTotal (evalState calculateTotals w))].
Proof.
  induction 1 as [w Hempty | w c Hvisited IH].
  - destruct (exec_onDOMContentLoaded w) as [d ->].
    rewrite (exec_run _ _ _ _ (run_updateQRCode _ _)).
    rewrite eval_calculateTotals.
    cbn [cart trace set_dom add_event rendered grandTotal].
    rewrite Hempty. eexists. reflexivity.
  - destruct (click_cases c w) as [-> | [w0 ->]]; [ exact IH | ].
    exists (trace w0). apply trace_rendered.
Qed.

Lemma Forall_set_key (P : string * Line -> Prop) (k : string) (v : Line)
    (c : Cart) :
  P (k, v) -> Forall P c -> Forall P (JsMap.set k v c).
Proof.
  intros Hv. induction c as [| [k' v'] rest IH]; cbn [JsMap.set];
    intros Hall.
  - auto.
  - inversion Hall; subst.
    destruct (String.eqb_spec k k') as [<- | Hne]; auto.
Qed.

Lemma entry_counted_get (k : string) (e : Line) (c : Cart) :
  Forall entry_counted c -> JsMap.get k c = Some e -> entry_counted (k, e).
Proof.
  intros Hall Hget. rewrite Forall_forall in Hall.
  apply Hall. now apply get_Some_In.
Qed.

Lemma entries_counted_add (item : Item) (c : Cart) :
  item_id item <> "" -> item_name item <> "" ->
  Forall entry_counted c -> Forall entry_counted (cart_after_add item c).
Proof.
  intros Hid Hname Hall. unfold cart_after_add.
  destruct (JsMap.get (item_id item) c) as [existing |] eqn:Hget.
  - apply Forall_set_key; [ | assumption ].
    destruct (entry_counted_get _ _ _ Hall Hget) as (H1 & H2 & H3 & H4).
    cbn [fst snd] in *. unfold entry_counted.
    cbn [fst snd with_quantity line_id line_name line_quantity].
    repeat split; auto. now apply is_count_add_one.
  - apply Forall_set_key; [ | assumption ].
    unfold entry_counted.
    cbn [fst snd spread line_id line_name line_quantity].
    repeat split; auto.
Qed.

Lemma entries_counted_update (id : string) (delta : number) (c : Cart) :
  Num.is_integer delta = true ->
  Forall entry_counted c ->
  Forall entry_counted (cart_after_update id delta c).
Proof.
  intros Hdelta Hall. unfold cart_after_update.
  destruct (JsMap.get id c) as [item |] eqn:Hget; [ | assumption ].
  destruct (Num.leb (Num.add (line_quantity item) delta) Num.zero) eqn:Hle.
  - now apply Forall_delete.
  - apply Forall_set_key; [ | assumption ].
    destruct (entry_counted_get _ _ _ Hall Hget) as (H1 & H2 & H3 & H4).
    cbn [fst snd] in *. unfold entry_counted.
    cbn [fst snd with_quantity line_id line_name line_quantity].
    repeat split; auto. now apply is_count_add_integer.
Qed.

Lemma wf_after_update (id : string) (delta : number) (c : Cart) :
  JsMap.wf_map c -> JsMap.wf_map (cart_after_update id delta c).
Proof.
  intros Hwf. unfold cart_after_update.
  destruct (JsMap.get id c) as [item |]; [ | assumption ].
  destruct (Num.leb (Num.add (line_quantity item) delta) Num.zero);
    [ now apply wf_delete | now apply wf_set ].
Qed.

Lemma visited_entries_counted (w : World) :
  Visited w -> JsMap.wf_map (cart w) /\ Forall entry_counted (cart w).
Proof.
  induction 1 as [w Hempty | w c Hvisited [IHwf IHok]].
  - rewrite cart_onDOMContentLoaded, Hempty. split; constructor.
  - destruct c as [card | target | |]; cbn [click].
    + destruct card as [[[id |] [name |] price] |];
        try (split; assumption).
      unfold onAddToCartClick. cbn [card_id card_name card_price].
      destruct (falsy (Some id)) eqn:Hid; [ split; assumption | ].
      destruct (falsy (Some name)) eqn:Hname; [ split; assumption | ].
      destruct (Num.isNaN price); [ split; assumption | ].
      cbn [orb]. rewrite cart_exec_addToCart.
      apply falsy_Some in Hid, Hname. split.
      * unfold cart_after_add. cbn [item_id].
        destruct (JsMap.get id (cart w)); now apply wf_set.
      * now apply entries_counted_add.
    + unfold onCartItemsClick.
      destruct (target_row target) as [[id |] |]; try (split; assumption).
      destruct (falsy (Some id)); [ split; assumption | ].
      rewrite exec_seq.
      assert (Hfirst :
                JsMap.wf_map
                  (cart
                     (execState
                        (if target_qty_btn target
                         then
                           if is_string (target_action target) "increase"
                           then updateQuantity id (Num.int 1)
                           else
                             if is_string (target_action target) "decrease"
                             then updateQuantity id (Num.int (-1))
                             else ret tt
                         else ret tt) w))
                /\ Forall entry_counted
                     (cart
                        (execState
                           (if target_qty_btn target
                            then
                              if is_string (target_action target) "increase"
                              then updateQuantity id (Num.int 1)
                              else
                                if is_string (target_action target) "decrease"
                                then updateQuantity id (Num.int (-1))
                                else ret tt
                            else ret tt) w))).
      { destruct (target_qty_btn target); [ | split; assumption ].
        destruct (is_string (target_action target) "increase").
        - rewrite cart_exec_updateQuantity.
          split; [ now apply wf_after_update | ].
          apply entries_counted_update; [ apply is_integer_int | assumption ].
        - destruct (is_string (target_action target) "decrease");
            [ | split; assumption ].
          rewrite cart_exec_updateQuantity.
          split; [ now apply wf_after_update | ].
          apply entries_counted_update; [ apply is_integer_int | assumption ]. }
      destruct Hfirst as [Hwf1 Hok1].
      destruct (target_remove_btn target); [ | split; assumption ].
      rewrite cart_exec_removeFromCart.
      split; [ now apply wf_delete | now apply Forall_delete ].
    + rewrite (exec_run _ _ _ _ (run_onClearCartClick w)).
      destruct (JsMap.size (cart w) =? 0);
        [ split; assumption | split; constructor ].
    + rewrite cart_onCheckoutClick. split; constructor.
Qed.

(** In every page state of a visit the keys of the cart are unique and
    every entry stands under its own id, with an id and a name that are not
    empty and a quantity of at least 1. *)
Theorem visited_entries_ok (w : World) :
  Visited w -> JsMap.wf_map (cart w) /\ Forall entry_ok (cart w).
Proof.
  intros Hvisited.
  destruct (visited_entries_counted w Hvisited) as [Hwf Hall].
  split; [ exact Hwf | ].
  apply (Forall_impl entry_ok (P := entry_counted)); [ | exact Hall ].
  intros kl (H1 & H2 & H3 & H4).
  repeat split; auto. now apply is_count_at_least_one.
Qed.

(** At start-up the call of [updateQRCode(0)] after the first [renderCart]
    leaves the page as the render made it. *)
Theorem startup_second_qr_update_redundant (w : World) :
  cart w = JsMap.empty ->
  dom (execState (updateQRCode Num.zero) (execState renderCart w))
  = dom (execState renderCart w).
Proof.
  intros Hempty.
  rewrite (exec_run _ _ _ _ (run_renderCart w)).
  rewrite (exec_run _ _ _ _ (run_updateQRCode _ _)).
  destruct w as [c d y t]. cbn [cart] in Hempty. subst c.
  unfold rendered, rendered_dom, list_dom, qr_dom.
  cbn [cart dom set_dom add_event].
  destruct d as [rows disp co cl it gt [src |] qa ab nt nl ye ls];
    reflexivity.
Qed.

(* ===================================================================== *)
(** ** Amounts as text *)
(* ===================================================================== *)

Lemma nearest_inject_Z (n : Z) : JsNumber.nearest (inject_Z n * 1) = n.
Proof.
  pose proof (nearest_rounds (inject_Z n * 1)) as [Hlo Hhi].
  remember (JsNumber.nearest (inject_Z n * 1)) as m eqn:Hm. clear Hm.
  assert (Hlo' : (inject_Z m - (1 # 2) <= inject_Z n)%Q) by lra.
  assert (Hhi' : (inject_Z n < inject_Z m + (1 # 2))%Q) by lra.
  unfold Qle, Qlt, Qminus, Qplus, Qopp, inject_Z in Hlo', Hhi'.
  cbn in Hlo', Hhi'. lia.
Qed.

Lemma to_Q_int (n : Z) : (Num.to_Q (n * Num.unit) == inject_Z n)%Q.
Proof. exact (real_int n). Qed.

(** A whole amount from 0 to below 10^21 is displayed as the currency symbol
    and its digits. *)
Theorem formatINR_whole (n : Z) :
  0 <= n < 10 ^ 21 ->
  formatINR (Num.int n) = currency_symbol ++ JsNumber.digits n.
Proof.
  intros [Hlo Hhi]. unfold formatINR, number_toFixed, Num.int.
  unfold toFixed, JsNumber.toFixed.
  pose proof (to_Q_int n) as Hx.
  set (x := Num.to_Q (n * Num.unit)) in *.
  assert (Hneg : JsNumber.is_negative x = false).
  { apply not_true_iff_false. rewrite is_negative_true, Hx.
    apply Qle_not_lt. change 0%Q with (inject_Z 0).
    rewrite <- Zle_Qle. exact Hlo. }
  rewrite Hneg.
  assert (Hfix : Qle_bool (inject_Z JsNumber.fixed_limit) x = false).
  { apply not_true_iff_false. rewrite Qle_bool_iff, Hx, <- Zle_Qle.
    unfold JsNumber.fixed_limit. lia. }
  rewrite Hfix. cbn [JsNumber.with_point Z.of_nat].
  change (inject_Z (10 ^ 0)) with 1%Q.
  assert (Hn : JsNumber.nearest (x * 1) = n).
  { transitivity (JsNumber.nearest (inject_Z n * 1));
      [ | apply nearest_inject_Z ].
    unfold JsNumber.nearest. apply Qfloor_comp. now rewrite Hx. }
  now rewrite Hn.
Qed.

Lemma length_zeros (k : nat) : String.length (JsNumber.zeros k) = k.
Proof. induction k; cbn; congruence. Qed.

Lemma length_app (a b : string) :
  String.length (a ++ b) = (String.length a + String.length b)%nat.
Proof. induction a; cbn; congruence. Qed.

Lemma substring_split (s : string) :
  forall n : nat,
    (n <= String.length s)%nat ->
    substring 0 n s ++ substring n (String.length s - n) s = s.
Proof.
  induction s as [| c s IH]; intros [| n] Hn; cbn in *.
  - reflexivity.
  - lia.
  - f_equal. rewrite <- (IH 0%nat) at 3 by lia.
    rewrite Nat.sub_0_r. destruct s; reflexivity.
  - f_equal. apply IH. lia.
Qed.

Lemma length_substring (s : string) :
  forall n m : nat,
    (n + m <= String.length s)%nat -> String.length (substring n m s) = m.
Proof.
  induction s as [| c s IH]; intros [| n] [| m] Hn; cbn in *;
    try reflexivity; try lia.
  - f_equal. apply (IH 0%nat). lia.
  - apply IH. lia.
  - apply IH. lia.
Qed.

Lemma digits_nonempty (n : Z) : (1 <= String.length (JsNumber.digits n))%nat.
Proof.
  unfold JsNumber.digits.
  destruct (N.to_uint (Z.to_N n)); cbn; lia.
Qed.

Lemma to_uint_not_Nil (n : N) : N.to_uint n <> Decimal.Nil.
Proof.
  destruct n as [| p]; [ discriminate | ].
  cbn. intros H.
  pose proof (DecimalPos.Unsigned.to_uint_nonnil p) as Hp. contradiction.
Qed.

Lemma read_digits_digits (n : Z) :
  0 <= n -> read_digits (JsNumber.digits n) = Some n.
Proof.
  intros Hn. unfold read_digits, JsNumber.digits.
  rewrite NilZero.usu by apply to_uint_not_Nil.
  cbn [option_map]. rewrite DecimalN.Unsigned.of_to. f_equal. lia.
Qed.

Lemma read_digits_zeros (k : nat) (s : string) :
  s <> "" -> read_digits (JsNumber.zeros k ++ s) = read_digits s.
Proof.
  intros Hs. induction k as [| k IH]; [ reflexivity | ].
  rewrite <- IH. unfold read_digits, NilZero.uint_of_string.
  cbn [JsNumber.zeros append].
  destruct (JsNumber.zeros k ++ s) eqn:E.
  - destruct k; cbn in E; [ contradiction | discriminate ].
  - cbn [NilEmpty.uint_of_string].
    destruct (uint_of_char a (NilEmpty.uint_of_string s0)) as [u |];
      reflexivity.
Qed.

(** The amount of the payment request: below 10^21 [toFixed(2)] writes a
    whole part of at least one digit, a point and exactly two digits, and
    the digits read as hundredths are the amount rounded to the nearest
    hundredth. *)
Theorem toFixed_two_decimals (amount : Q) :
  (0 <= amount)%Q -> (amount < inject_Z (10 ^ 21))%Q ->
  exists (whole frac : string) (n : Z),
    toFixed amount 2 = whole ++ "." ++ frac
    /\ (1 <= String.length whole)%nat
    /\ String.length frac = 2%nat
    /\ read_digits (whole ++ frac) = Some n
    /\ rounds_to (amount * 100) n.
Proof.
  intros Hlo Hhi. unfold toFixed, JsNumber.toFixed.
  assert (Hneg : JsNumber.is_negative amount = false).
  { apply not_true_iff_false. rewrite is_negative_true. lra. }
  rewrite Hneg.
  assert (Hfix : Qle_bool (inject_Z JsNumber.fixed_limit) amount = false).
  { apply not_true_iff_false. rewrite Qle_bool_iff.
    apply Qlt_not_le. exact Hhi. }
  rewrite Hfix. change (inject_Z (10 ^ Z.of_nat 2)) with 100%Q.
  set (n := JsNumber.nearest (amount * 100)).
  assert (Hn : 0 <= n).
  { apply nearest_nonneg. apply Qmult_le_0_compat; [ exact Hlo | discriminate ]. }
  unfold JsNumber.with_point.
  set (m := JsNumber.digits n).
  set (m' := if (String.length m <=? 2)%nat
             then JsNumber.zeros (2 + 1 - String.length m) ++ m else m).
  assert (Hlen : (3 <= String.length m')%nat).
  { unfold m'. pose proof (digits_nonempty n) as Hd. fold m in Hd.
    destruct (Nat.leb_spec (String.length m) 2).
    - rewrite length_app, length_zeros. lia.
    - lia. }
  assert (Hread : read_digits m' = Some n).
  { unfold m'. destruct (String.length m <=? 2)%nat.
    - rewrite read_digits_zeros; [ now apply read_digits_digits | ].
      pose proof (digits_nonempty n) as Hd. fold m in Hd.
      destruct m; [ cbn in Hd; lia | discriminate ].
    - now apply read_digits_digits. }
  exists (substring 0 (String.length m' - 2) m'),
    (substring (String.length m' - 2) 2 m'), n.
  split; [ reflexivity | ].
  split; [ rewrite length_substring; lia | ].
  split; [ apply length_substring; lia | ].
  split; [ | apply nearest_rounds ].
  pose proof (substring_split m' (String.length m' - 2)) as Hsplit.
  replace (String.length m' - (String.length m' - 2))%nat with 2%nat
    in Hsplit by lia.
  rewrite Hsplit by lia. exact Hread.
Qed.

Lemma encodeURIComponent_app (a b : string) :
  JsString.encodeURIComponent (a ++ b)
  = JsString.encodeURIComponent a ++ JsString.encodeURIComponent b.
Proof.
  induction a as [| c a IH]; cbn [append JsString.encodeURIComponent].
  - reflexivity.
  - destruct (JsString.unreserved c); cbn [append]; now rewrite IH.
Qed.

Lemma encodeURIComponent_unreserved (s : string) :
  all_unreserved s = true -> JsString.encodeURIComponent s = s.
Proof.
  induction s as [| c s IH];
    cbn [all_unreserved JsString.encodeURIComponent].
  - reflexivity.
  - intros H. apply andb_true_iff in H as [Hc Hs].
    rewrite Hc. now rewrite IH.
Qed.

Lemma all_unreserved_app (a b : string) :
  all_unreserved (a ++ b) = all_unreserved a && all_unreserved b.
Proof.
  induction a as [| c a IH]; cbn [append all_unreserved].
  - reflexivity.
  - now rewrite IH, andb_assoc.
Qed.

Lemma all_unreserved_substring (s : string) :
  all_unreserved s = true ->
  forall n m : nat, all_unreserved (substring n m s) = true.
Proof.
  induction s as [| c s IH]; intros Hs [| n] [| m];
    cbn [substring all_unreserved]; try reflexivity.
  - cbn [all_unreserved] in Hs. apply andb_true_iff in Hs as [Hc Hs].
    rewrite Hc. now apply IH.
  - cbn [all_unreserved] in Hs. apply andb_true_iff in Hs as [Hc Hs].
    now apply IH.
  - cbn [all_unreserved] in Hs. apply andb_true_iff in Hs as [Hc Hs].
    now apply IH.
Qed.

Lemma all_unreserved_zeros (k : nat) :
  all_unreserved (JsNumber.zeros k) = true.
Proof. induction k as [| k IH]; [ reflexivity | exact IH ]. Qed.

Lemma all_unreserved_uint (d : Decimal.uint) :
  all_unreserved (NilEmpty.string_of_uint d) = true.
Proof. induction d; [ reflexivity | exact IHd .. ]. Qed.

Lemma all_unreserved_digits (n : Z) :
  all_unreserved (JsNumber.digits n) = true.
Proof.
  unfold JsNumber.digits, NilZero.string_of_uint.
  destruct (N.to_uint (Z.to_N n)) eqn:E;
    first [ reflexivity | rewrite <- E; apply all_unreserved_uint | idtac ];
    apply (all_unreserved_uint (_ _)).
Qed.

Lemma all_unreserved_toFixed_2 (amount : Q) :
  (0 <= amount)%Q -> (amount < inject_Z (10 ^ 21))%Q ->
  all_unreserved (toFixed amount 2) = true.
Proof.
  intros Hlo Hhi. unfold toFixed, JsNumber.toFixed.
  assert (Hneg : JsNumber.is_negative amount = false).
  { apply not_true_iff_false. rewrite is_negative_true. lra. }
  rewrite Hneg.
  assert (Hfix : Qle_bool (inject_Z JsNumber.fixed_limit) amount = false).
  { apply not_true_iff_false. rewrite Qle_bool_iff.
    apply Qlt_not_le. exact Hhi. }
  rewrite Hfix. cbn [append]. unfold JsNumber.with_point.
  cbn [Z.of_nat].
  set (m := JsNumber.digits _).
  set (m' := if (String.length m <=? 2)%nat then _ else _).
  assert (Hm' : all_unreserved m' = true).
  { unfold m'. destruct (String.length m <=? 2)%nat.
    - rewrite all_unreserved_app, all_unreserved_zeros.
      apply all_unreserved_digits.
    - apply all_unreserved_digits. }
  rewrite !all_unreserved_app, !all_unreserved_substring by exact Hm'.
  reflexivity.
Qed.

(** [updateQRCode] does nothing to the page when the QR image is missing.
    When it is there and the amount is from 0 to below 10^21, the image gets
    the address of the QR service with the payment request in which the
    amount stands as [toFixed(2)] writes it, the rest being fixed text; the
    amount text is the formatted amount. *)
Theorem updateQRCode_page (w : World) (amount : number) :
  (qrCodeImage (dom w) = None ->
   dom (execState (updateQRCode amount) w) = dom w)
  /\ (forall n : Z,
      qrCodeImage (dom w) <> None ->
      amount = Num.Fin n ->
      (0 <= Num.to_Q n)%Q -> (Num.to_Q n < inject_Z (10 ^ 21))%Q ->
      qrCodeImage (dom (execState (updateQRCode amount) w))
      = Some
          ("https://api.qrserver.com/v1/create-qr-code/?size=200x200&data=upi%3A%2F%2Fpay%3Fpa%3Dharishkannan1813-1%40okicici%26pn%3DSouth%2520Spice%2520Restaurant%26am%3D"
           ++ toFixed (Num.to_Q n) 2
           ++ "%26cu%3DINR%26tn%3DRestaurant%2520Bill")
      /\ qrAmountText (dom (execState (updateQRCode amount) w))
         = "Total Amount: " ++ formatINR amount).
Proof.
  rewrite (exec_run _ _ _ _ (run_updateQRCode amount w)).
  cbn [dom set_dom add_event]. unfold qr_dom. split.
  - intros ->. reflexivity.
  - intros n Himg -> Hlo Hhi.
    destruct (qrCodeImage (dom w)) as [src |]; [ | congruence ].
    split; [ | reflexivity ].
    cbn [qrCodeImage set_qrAmountText set_qrCodeImage number_toFixed].
    rewrite !encodeURIComponent_app.
    rewrite (encodeURIComponent_unreserved (toFixed (Num.to_Q n) 2))
      by now apply all_unreserved_toFixed_2.
    f_equal.
Qed.

(* ===================================================================== *)
(** ** The navigation bar *)
(* ===================================================================== *)

Lemma in_classList_remove (token c : string) (classes : list string) :
  In c (classList_remove token classes) <-> In c classes /\ c <> token.
Proof.
  unfold classList_remove. rewrite List.filter_In, negb_true_iff.
  now rewrite String.eqb_neq.
Qed.

Lemma in_classList_toggle (token c : string) (classes : list string) :
  In c (classList_toggle token classes)
  <-> (c = token /\ ~ In token classes) \/ (c <> token /\ In c classes).
Proof.
  unfold classList_toggle.
  destruct (List.existsb (String.eqb token) classes) eqn:E.
  - apply List.existsb_exists in E as (x & Hin & Hx).
    apply String.eqb_eq in Hx. subst x.
    rewrite in_classList_remove. split.
    + intros [Hc Hne]. now right.
    + intros [[-> Hnot] | [Hne Hc]]; [ contradiction | now split ].
  - assert (Hnot : ~ In token classes).
    { intros Hin. apply not_true_iff_false in E. apply E.
      apply List.existsb_exists. exists token.
      split; [ exact Hin | apply String.eqb_refl ]. }
    rewrite List.in_app_iff. cbn [In]. split.
    + intros [Hc | [<- | []]].
      * right. split; [ intros ->; contradiction | exact Hc ].
      * now left.
    + intros [[-> _] | [_ Hc]]; [ right; now left | now left ].
Qed.

(** A click on the toggle shows the links when they were hidden and hides
    them when they were shown, and keeps every other class; a second click
    brings back the classes of before.  A click on a link hides the links; a
    click on anything else in [.nav-links] changes nothing. *)
Theorem navbar_clicks (classes : list string) :
  (In "show" (onNavToggleClick classes) <-> ~ In "show" classes)
  /\ (forall c : string,
      c <> "show" -> (In c (onNavToggleClick classes) <-> In c classes))
  /\ (forall c : string,
      In c (onNavToggleClick (onNavToggleClick classes)) <-> In c classes)
  /\ (forall tagName : string,
      tagName = "A" \/ tagName = "a" ->
      ~ In "show" (onNavLinksClick tagName classes)
      /\ (forall c : string,
          c <> "show" ->
          (In c (onNavLinksClick tagName classes) <-> In c classes)))
  /\ (forall tagName : string,
      toLowerCase tagName <> "a" ->
      onNavLinksClick tagName classes = classes).
Proof.
  unfold onNavToggleClick.
  split; [ | split; [ | split; [ | split ] ] ].
  - rewrite in_classList_toggle. tauto.
  - intros c Hc. rewrite in_classList_toggle. tauto.
  - intros c. rewrite !in_classList_toggle.
    destruct (String.eqb_spec c "show") as [-> | Hne];
      destruct (List.In_dec string_dec "show" classes); tauto.
  - intros tagName Htag. unfold onNavLinksClick.
    assert (Hlow : (toLowerCase tagName =? "a")%string = true)
      by (destruct Htag as [-> | ->]; reflexivity).
    rewrite Hlow. split.
    + rewrite in_classList_remove. tauto.
    + intros c Hc. rewrite in_classList_remove. tauto.
  - intros tagName Htag. unfold onNavLinksClick.
    apply String.eqb_neq in Htag. now rewrite Htag.
Qed.

(* ===================================================================== *)
(** ** What start-up registers *)
(* ===================================================================== *)

Lemma exec_setupMenuButtons (w : World) :
  execState setupMenuButtons w
  = set_dom
      (add_listeners
         (List.map AddToCartClick (List.seq 0 (addButtons (dom w)))) (dom w))
      w.
Proof. reflexivity. Qed.

Lemma exec_setupCartEvents (w : World) :
  execState setupCartEvents w
  = set_dom
      (add_listeners [CartItemsClick; ClearCartClick; CheckoutClick] (dom w))
      w.
Proof.
  destruct w as [c [rows disp co cl it gt src qa ab nt nl ye ls] y t].
  unfold execState, setupCartEvents.
  erewrite run_bind; [ | apply run_modify_dom | ].
  2: { eapply run_bind; [ apply run_modify_dom | apply run_modify_dom ]. }
  unfold set_dom, add_listeners.
  cbn [snd dom listeners cartItems cartEmptyDisplay checkoutDisabled
       clearCartDisabled itemsTotalText grandTotalText qrCodeImage
       qrAmountText addButtons navToggleBtn navLinks yearEl cart fullYear
       trace].
  rewrite <- !List.app_assoc. reflexivity.
Qed.

Lemma exec_setupNavbar (w : World) :
  execState setupNavbar w
  = set_dom
      (add_listeners
         (if navToggleBtn (dom w) && navLinks (dom w)
          then [NavToggleClick; NavLinksClick] else [])
         (dom w))
      w.
Proof.
  destruct w as [c [rows disp co cl it gt src qa ab nt nl ye ls] y t].
  unfold execState, setupNavbar.
  erewrite run_bind; [ | apply run_gets | reflexivity ].
  cbn [dom navToggleBtn navLinks].
  destruct (nt && nl).
  - erewrite run_bind; [ | apply run_modify_dom | apply run_modify_dom ].
    unfold set_dom, add_listeners.
    cbn [snd dom listeners cartItems cartEmptyDisplay checkoutDisabled
         clearCartDisabled itemsTotalText grandTotalText qrCodeImage
         qrAmountText addButtons navToggleBtn navLinks yearEl cart fullYear
         trace].
    rewrite <- !List.app_assoc. reflexivity.
  - unfold set_dom, add_listeners.
    cbn [runState ret Monad_state snd dom listeners cartItems
         cartEmptyDisplay checkoutDisabled clearCartDisabled itemsTotalText
         grandTotalText qrCodeImage qrAmountText addButtons navToggleBtn
         navLinks yearEl cart fullYear trace].
    rewrite List.app_nil_r. reflexivity.
Qed.

Lemma exec_setupYear (w : World) :
  execState setupYear w
  = set_dom
      (set_yearEl
         (match yearEl (dom w) with
          | Some _ => Some (toString_int (fullYear w))
          | None => None
          end)
         (dom w))
      w.
Proof.
  destruct w as [c [rows disp co cl it gt src qa ab nt nl [year |] ls] y t];
    reflexivity.
Qed.

Lemma static_rendered_dom (c : Cart) (d : Dom) :
  listeners (rendered_dom c d) = listeners d
  /\ yearEl (rendered_dom c d) = yearEl d.
Proof.
  unfold rendered_dom, list_dom, qr_dom.
  destruct d as [rows disp co cl it gt [src |] qa ab nt nl ye ls];
    destruct (JsMap.size c =? 0); split; reflexivity.
Qed.

Lemma static_qr_dom (amount : number) (d : Dom) :
  listeners (qr_dom amount d) = listeners d
  /\ yearEl (qr_dom amount d) = yearEl d.
Proof.
  unfold qr_dom.
  destruct d as [rows disp co cl it gt [src |] qa ab nt nl ye ls];
    split; reflexivity.
Qed.

(** Start-up registers one click listener for each [.add-to-cart] button,
    the three listeners of the cart, and the two of the navigation bar only
    when both of its elements exist; it writes the year only when the year
    element exists. *)
Theorem startup_registers (w : World) :
  listeners (dom (execState onDOMContentLoaded w))
  = List.app (listeners (dom w))
      (List.app
         (List.map AddToCartClick (List.seq 0 (addButtons (dom w))))
         (List.app [CartItemsClick; ClearCartClick; CheckoutClick]
            (if navToggleBtn (dom w) && navLinks (dom w)
             then [NavToggleClick; NavLinksClick] else [])))
  /\ yearEl (dom (execState onDOMContentLoaded w))
     = match yearEl (dom w) with
       | Some _ => Some (toString_int (fullYear w))
       | None => None
       end.
Proof.
  unfold onDOMContentLoaded.
  rewrite !exec_seq.
  rewrite (exec_run _ _ _ _ (run_updateQRCode _ _)).
  rewrite (exec_run _ _ _ _ (run_renderCart _)).
  cbn [dom set_dom add_event rendered].
  destruct (static_qr_dom Num.zero
              (rendered_dom
                 (cart
                    (execState setupYear
                       (execState setupNavbar
                          (execState setupCartEvents
                             (execState setupMenuButtons w)))))
                 (dom
                    (execState setupYear
                       (execState setupNavbar
                          (execState setupCartEvents
                             (execState setupMenuButtons w)))))))
    as [-> ->].
  destruct (static_rendered_dom
              (cart
                 (execState setupYear
                    (execState setupNavbar
                       (execState setupCartEvents
                          (execState setupMenuButtons w)))))
              (dom
                 (execState setupYear
                    (execState setupNavbar
                       (execState setupCartEvents
                          (execState setupMenuButtons w))))))
    as [-> ->].
  rewrite exec_setupYear, exec_setupNavbar, exec_setupCartEvents,
    exec_setupMenuButtons.
  destruct w as [c [rows disp co cl it gt src qa ab nt nl ye ls] y t].
  unfold set_dom, set_yearEl, add_listeners.
  cbn [dom listeners yearEl navToggleBtn navLinks addButtons fullYear].
  split; [ | reflexivity ].
  rewrite <- !List.app_assoc. reflexivity.
Qed.

(* ===================================================================== *)
(** ** More on the store *)
(* ===================================================================== *)

(** In every page state reached by the store operations the keys of the
    cart are unique and every entry stands under the key that is its own
    id. *)
Theorem reachable_entries_keyed (w : World) :
  Reachable w ->
  JsMap.wf_map (cart w)
  /\ (forall (k : string) (item : Line),
      In (k, item) (cart w) -> line_id item = k).
Proof.
  intros Hreach. split; [ now apply reachable_wf | ].
  assert (Hall : Forall (fun kl => line_id (snd kl) = fst kl) (cart w)).
  { induction Hreach as [w Hempty | w c Hreach IH Hdelta].
    - rewrite Hempty. constructor.
    - destruct c as [item | id delta | id | | |]; cbn [call].
      + rewrite cart_exec_addToCart. unfold cart_after_add.
        destruct (JsMap.get (item_id item) (cart w)) as [existing |] eqn:E.
        * apply Forall_set_key; [ | assumption ].
          rewrite Forall_forall in IH.
          apply (IH _ (get_Some_In _ _ _ E)).
        * apply Forall_set_key; [ reflexivity | assumption ].
      + rewrite cart_exec_updateQuantity. unfold cart_after_update.
        destruct (JsMap.get id (cart w)) as [item |] eqn:E;
          [ | assumption ].
        destruct (Num.leb (Num.add (line_quantity item) delta) Num.zero).
        * now apply Forall_delete.
        * apply Forall_set_key; [ | assumption ].
          rewrite Forall_forall in IH.
          apply (IH _ (get_Some_In _ _ _ E)).
      + rewrite cart_exec_removeFromCart. now apply Forall_delete.
      + rewrite cart_exec_clearCart. constructor.
      + erewrite exec_run by apply run_onClearCartClick.
        destruct (JsMap.size (cart w) =? 0); [ assumption | constructor ].
      + rewrite cart_onCheckoutClick. constructor. }
  intros k item Hin. rewrite Forall_forall in Hall.
  exact (Hall _ Hin).
Qed.

(** After [clearCart] the cart has no entry and [calculateTotals] returns
    0 and 0, whatever the cart held. *)
Theorem clearCart_totals_zero (w : World) :
  cart (execState clearCart w) = JsMap.empty
  /\ evalState (clearCart ;; calculateTotals) w
     = mkTotals Num.zero Num.zero.
Proof.
  split; [ apply cart_exec_clearCart | ].
  unfold evalState.
  erewrite run_bind;
    [ | apply run_clearCart | apply run_calculateTotals ].
  reflexivity.
Qed.

Lemma set_get_same (k : string) (e : Line) (c : Cart) :
  JsMap.get k c = Some e -> JsMap.set k e c = c.
Proof.
  induction c as [| [k' v'] rest IH]; cbn [JsMap.get JsMap.set].
  - discriminate.
  - destruct (String.eqb k k').
    + now intros [= ->].
    + intros Hget. now rewrite IH.
Qed.

Lemma set_set (k : string) (v v' : Line) (c : Cart) :
  JsMap.get k c <> None ->
  JsMap.set k v' (JsMap.set k v c) = JsMap.set k v' c.
Proof.
  induction c as [| [k0 v0] rest IH]; cbn [JsMap.get JsMap.set].
  - congruence.
  - destruct (String.eqb k k0) eqn:E; cbn [JsMap.set]; rewrite E.
    + reflexivity.
    + intros Hget. now rewrite IH.
Qed.

Lemma delete_set_absent (k : string) (v : Line) (c : Cart) :
  JsMap.get k c = None -> JsMap.delete k (JsMap.set k v c) = c.
Proof.
  induction c as [| [k0 v0] rest IH];
    cbn [JsMap.get JsMap.set JsMap.delete].
  - now rewrite String.eqb_refl.
  - destruct (String.eqb k k0) eqn:E; [ discriminate | ].
    cbn [JsMap.delete]. rewrite E. intros Hget. now rewrite IH.
Qed.

(** A decrease undoes an [addToCart]: in a cart whose quantities are whole
    numbers from 1 to below 2^53, [addToCart item] followed by
    [updateQuantity] of its id by -1 leaves the cart as it was, entries and
    order. *)
Theorem add_then_decrease_restores (w : World) (item : Item) :
  quantities_small (cart w) ->
  cart (execState
          (addToCart item ;; updateQuantity (item_id item) (Num.int (-1))) w)
  = cart w.
Proof.
  intros Hsmall.
  rewrite exec_seq, cart_exec_updateQuantity, cart_exec_addToCart.
  unfold cart_after_update, cart_after_add.
  destruct (JsMap.get (item_id item) (cart w)) as [existing |] eqn:Hget.
  - rewrite get_set_same.
    cbn [with_quantity line_quantity line_id line_name line_price].
    destruct (quantities_small_get _ _ _ Hsmall Hget) as (q & Hq & Hrange).
    rewrite Hq. change Num.one with (Num.int 1).
    rewrite (add_int q 1) by lia. rewrite leb_add_int.
    destruct (Z.leb_spec (q + 1 + -1) 0) as [Hle | _]; [ lia | ].
    rewrite add_int by lia.
    rewrite set_set by congruence.
    replace (q + 1 + -1) with q by lia. rewrite <- Hq.
    apply set_get_same. destruct existing. exact Hget.
  - rewrite get_set_same. cbn [spread line_quantity].
    change Num.one with (Num.int 1). rewrite leb_add_int.
    cbn [Z.add Z.leb Z.compare Pos.compare Z.pos_sub Z.opp].
    now apply delete_set_absent.
Qed.

End Script.

(* ===================================================================== *)
(** ** The properties on the sample page *)
(* ===================================================================== *)

Lemma wf_one_dosa : JsMap.wf_map (cart one_dosa).
Proof.
  unfold JsMap.wf_map. cbn [JsMap.keys List.map cart one_dosa fst].
  constructor; [ intros [] | constructor ].
Defined.

Lemma wf_dosas_and_idli : JsMap.wf_map (cart dosas_and_idli).
Proof.
  unfold JsMap.wf_map. cbn [JsMap.keys List.map cart dosas_and_idli fst].
  constructor; [ intros [H | []]; discriminate H | ].
  constructor; [ intros [] | constructor ].
Defined.

Lemma wf_dosas_and_vada : JsMap.wf_map (cart dosas_and_vada).
Proof.
  unfold JsMap.wf_map. cbn [JsMap.keys List.map cart dosas_and_vada fst].
  constructor; [ intros [H | []]; discriminate H | ].
  constructor; [ intros [] | constructor ].
Defined.

Lemma small_dosas_and_vada : quantities_small (cart dosas_and_vada).
Proof.
  unfold quantities_small.
  constructor; [ exists 2; split; [ reflexivity | split; vm_compute; congruence ] | ].
  constructor; [ exists 1; split; [ reflexivity | split; vm_compute; congruence ] | ].
  constructor.
Defined.

Lemma addToCart_spec_witness :
  JsMap.get "A" (cart (execState (addToCart host dosa_renamed) one_dosa))
  = Some (mkLine "A" "Dosa" (Num.int 80) (Num.add (Num.int 1) Num.one))
  /\ JsMap.get "A" (cart (execState (addToCart host dosa_renamed) one_dosa))
     = Some (mkLine "A" "Dosa" (Num.int 80) (Num.int (1 + 1)))
  /\ JsMap.get "A" (cart (execState (addToCart host dosa) start))
     = Some (mkLine "A" "Dosa" (Num.int 80) (Num.int 1))
  /\ JsMap.get "A"
       (cart (execState (addAll host [dosa; dosa_renamed; dosa_renamed]) start))
     = Some (mkLine "A" "Dosa" (Num.int 80)
               (Num.int (Z.of_nat (List.length [dosa; dosa_renamed; dosa_renamed])))).
Proof.
  split; [ | split; [ | split ] ].
  - apply (proj1 (addToCart_spec host one_dosa dosa_renamed)
             (mkLine "A" "Dosa" (Num.int 80) (Num.int 1))).
    reflexivity.
  - apply (proj1 (proj2 (addToCart_spec host one_dosa dosa_renamed))
             (mkLine "A" "Dosa" (Num.int 80) (Num.int 1)) 1).
    + reflexivity.
    + reflexivity.
    + split; vm_compute; congruence.
  - apply (proj1 (proj2 (proj2 (addToCart_spec host start dosa)))).
    reflexivity.
  - apply (proj2 (proj2 (proj2 (addToCart_spec host start dosa)))
             [dosa_renamed; dosa_renamed]).
    + reflexivity.
    + repeat constructor.
    + vm_compute. congruence.
Defined.

(** C1, as the specification has it, fails: at quantity 2^53 [addToCart]
    leaves the quantity as it is, since 2^53 + 1 is no double and the sum
    rounds back to 2^53. *)
Lemma addToCart_quantity_not_incremented :
  option_map line_quantity (JsMap.get "A" (cart dosas_at_2_53))
  = Some (Num.int (2 ^ 53))
  /\ option_map line_quantity
       (JsMap.get "A" (cart (execState (addToCart host dosa) dosas_at_2_53)))
     = Some (Num.int (2 ^ 53))
  /\ option_map line_quantity
       (JsMap.get "A" (cart (execState (addToCart host dosa) dosas_at_2_53)))
     <> Some (Num.int (2 ^ 53 + 1)).
Proof.
  split; [ reflexivity | split ].
  - vm_compute. reflexivity.
  - vm_compute. discriminate.
Qed.

Lemma calculateTotals_spec_witness :
  whole_total (cart dosas_and_vada) = Some 280
  /\ itemsTotal (evalState calculateTotals dosas_and_vada) = Num.int 280
  /\ (Num.real (itemsTotal (evalState calculateTotals dosas_and_vada))
      == exact_sum_of_lines (cart dosas_and_vada))%Q.
Proof.
  assert (Hwhole : whole_total (cart dosas_and_vada) = Some 280)
    by (vm_compute; reflexivity).
  split; [ exact Hwhole | ].
  apply (proj1 (proj2 (proj2 (calculateTotals_spec dosas_and_vada))) 280).
  - exact Hwhole.
  - vm_compute. congruence.
Defined.

(** C2, as the specification has it, fails: with prices 0.1 and 0.2 the
    items total is the double 0.30000000000000004, which is not the sum of
    the two products. *)
Lemma calculateTotals_not_exact_sum :
  ~ (Num.real (itemsTotal (evalState calculateTotals tenths))
     == exact_sum_of_lines (cart tenths))%Q.
Proof. apply Qeq_bool_neq. vm_compute. reflexivity. Qed.

Lemma updateQuantity_spec_witness :
  execState (updateQuantity host "Z" (Num.int 1)) dosas_and_idli
  = dosas_and_idli
  /\ JsMap.get "A"
       (cart (execState (updateQuantity host "A" (Num.int (-5)))
                dosas_and_idli))
     = None
  /\ JsMap.get "A"
       (cart (execState (updateQuantity host "A" (Num.int 3)) dosas_and_idli))
     = Some (mkLine "A" "Dosa" (Num.int 80)
               (Num.add (Num.int 2) (Num.int 3)))
  /\ JsMap.get "A"
       (cart (execState (updateQuantity host "A" (Num.int 3)) dosas_and_idli))
     = Some (mkLine "A" "Dosa" (Num.int 80) (Num.int (2 + 3)))
  /\ JsMap.get "B"
       (cart (execState (updateQuantity host "B" (Num.neg (Num.int 1)))
                dosas_and_idli))
     = None.
Proof.
  split; [ | split; [ | split; [ | split ] ] ].
  - apply (proj1 (updateQuantity_spec host dosas_and_idli "Z" (Num.int 1)
                    wf_dosas_and_idli)).
    reflexivity.
  - apply (proj1 (proj2 (updateQuantity_spec host dosas_and_idli "A"
                           (Num.int (-5)) wf_dosas_and_idli))
             (mkLine "A" "Dosa" (Num.int 80) (Num.int 2))).
    + reflexivity.
    + vm_compute. reflexivity.
  - apply (proj1 (proj2 (proj2 (updateQuantity_spec host dosas_and_idli "A"
                                  (Num.int 3) wf_dosas_and_idli)))
             (mkLine "A" "Dosa" (Num.int 80) (Num.int 2))).
    + reflexivity.
    + vm_compute. reflexivity.
  - apply (proj1 (proj2 (proj2 (proj2
             (updateQuantity_spec host dosas_and_idli "A" (Num.int 3)
                wf_dosas_and_idli))))
             (mkLine "A" "Dosa" (Num.int 80) (Num.int 2)) 2 3).
    + reflexivity.
    + reflexivity.
    + reflexivity.
    + split; vm_compute; congruence.
  - apply (proj2 (proj2 (proj2 (proj2
             (updateQuantity_spec host dosas_and_idli "B" (Num.int 1)
                wf_dosas_and_idli))))
             (mkLine "B" "Idli" (Num.of_Q (101 # 2)) (Num.int 1))
             (1 * Num.unit)).
    + reflexivity.
    + reflexivity.
Defined.

(** C3, as the specification has it, fails: on quantity 1 the delta 2^53
    stores 2^53, not 1 + 2^53, which is no double. *)
Lemma updateQuantity_sum_rounded :
  option_map line_quantity (JsMap.get "A" (cart one_dosa))
  = Some (Num.int 1)
  /\ option_map line_quantity
       (JsMap.get "A"
          (cart (execState (updateQuantity host "A" (Num.int (2 ^ 53)))
                   one_dosa)))
     = Some (Num.int (2 ^ 53))
  /\ option_map line_quantity
       (JsMap.get "A"
          (cart (execState (updateQuantity host "A" (Num.int (2 ^ 53)))
                   one_dosa)))
     <> Some (Num.int (1 + 2 ^ 53)).
Proof.
  split; [ reflexivity | split ].
  - vm_compute. reflexivity.
  - vm_compute. discriminate.
Qed.

Lemma quantity_at_least_one_witness :
  Reachable host (execState (call host (CallAdd dosa)) start)
  /\ In ("A", mkLine "A" "Dosa" (Num.int 80) (Num.int 1))
       (cart (execState (call host (CallAdd dosa)) start))
  /\ Num.leb Num.one
       (line_quantity (mkLine "A" "Dosa" (Num.int 80) (Num.int 1)))
     = true.
Proof.
  assert (Hreach : Reachable host (execState (call host (CallAdd dosa)) start)).
  { apply Reachable_call; [ apply Reachable_start; reflexivity | exact I ]. }
  assert (Hin : In ("A", mkLine "A" "Dosa" (Num.int 80) (Num.int 1))
                  (cart (execState (call host (CallAdd dosa)) start))).
  { left. vm_compute. reflexivity. }
  split; [ exact Hreach | split; [ exact Hin | ] ].
  exact (quantity_at_least_one host _ Hreach "A" _ Hin).
Defined.

Lemma checkout_empty_noop_witness :
  cart start = JsMap.empty
  /\ execState (onCheckoutClick host) start = start
  /\ alerts (trace (execState (onCheckoutClick host) start))
     = alerts (trace start).
Proof.
  split; [ reflexivity | ].
  apply (checkout_empty_noop host start). reflexivity.
Defined.

Lemma removeFromCart_idempotent_witness :
  cart (execState (removeFromCart host "A")
          (execState (removeFromCart host "A") dosas_and_idli))
  = cart (execState (removeFromCart host "A") dosas_and_idli)
  /\ dom (execState (removeFromCart host "A")
            (execState (removeFromCart host "A") dosas_and_idli))
     = dom (execState (removeFromCart host "A") dosas_and_idli).
Proof.
  exact (removeFromCart_idempotent host dosas_and_idli "A" wf_dosas_and_idli).
Defined.

Lemma add_after_removal_is_fresh_witness :
  JsMap.get "A"
    (cart (execState (removeFromCart host "A" ;; addToCart host dosa_renamed)
             dosas_and_idli))
  = Some (mkLine "A" "Masala Dosa" (Num.int 95) (Num.int 1))
  /\ JsMap.get "A"
       (cart (execState
                (updateQuantity host "A" (Num.int (-2)) ;;
                 addToCart host dosa_renamed)
                dosas_and_idli))
     = Some (mkLine "A" "Masala Dosa" (Num.int 95) (Num.int 1)).
Proof.
  split.
  - exact (proj1 (add_after_removal_is_fresh host dosas_and_idli dosa_renamed
                    wf_dosas_and_idli)).
  - apply (proj2 (proj2 (add_after_removal_is_fresh host dosas_and_idli
                           dosa_renamed wf_dosas_and_idli))
             (mkLine "A" "Dosa" (Num.int 80) (Num.int 2)) 2 (-2)).
    + reflexivity.
    + reflexivity.
    + vm_compute. congruence.
Defined.

Lemma formatINR_spec_witness :
  Num.of_Q (161 # 2) = Num.Fin (161 * 2 ^ 1073)
  /\ (Qabs (Num.to_Q (161 * 2 ^ 1073)) < inject_Z (10 ^ 21))%Q
  /\ (exists k : Z,
        0 <= k
        /\ rounds_to (Qabs (Num.to_Q (161 * 2 ^ 1073))) k
        /\ formatINR host (Num.of_Q (161 # 2))
           = currency_symbol
             ++ (if Qlt_le_dec (Num.to_Q (161 * 2 ^ 1073)) 0 then "-" else "")
             ++ JsNumber.digits k)
  /\ itemsTotal (evalState calculateTotals dosas_and_idli)
     = sum_of_lines (cart dosas_and_idli).
Proof.
  assert (Hfin : Num.of_Q (161 # 2) = Num.Fin (161 * 2 ^ 1073))
    by (vm_compute; reflexivity).
  assert (Hlim : (Qabs (Num.to_Q (161 * 2 ^ 1073)) < inject_Z (10 ^ 21))%Q)
    by (vm_compute; reflexivity).
  split; [ exact Hfin | split; [ exact Hlim | ] ].
  split.
  - exact (proj1 (formatINR_spec host (Num.of_Q (161 # 2)) dosas_and_idli)
             (161 * 2 ^ 1073) Hfin Hlim).
  - exact (proj2 (formatINR_spec host (Num.of_Q (161 # 2)) dosas_and_idli)).
Defined.

(** C8, as the specification has it, fails: the amount 10^21 is displayed
    in exponent notation, not as its digits, and an amount that is not a
    number as [NaN]. *)
Lemma formatINR_not_an_integer :
  formatINR host (Num.int (10 ^ 21)) = currency_symbol ++ "1e+21"
  /\ formatINR host (Num.int (10 ^ 21))
     <> currency_symbol ++ JsNumber.digits (10 ^ 21)
  /\ formatINR host Num.NaN = currency_symbol ++ "NaN".
Proof.
  split; [ | split ].
  - vm_compute. reflexivity.
  - vm_compute. discriminate.
  - vm_compute. reflexivity.
Qed.

(** C9, as the specification has it, fails: the trace of the start-up
    handler on the sample page holds two entries of [updateQRCode]. *)
Lemma startup_qr_update_not_once :
  qr_updates (trace (execState (onDOMContentLoaded host) start))
  <> [Num.zero].
Proof. vm_compute. discriminate. Qed.

Lemma startup_qr_updates_witness :
  cart start = JsMap.empty
  /\ trace (execState (onDOMContentLoaded host) start)
     = List.app (trace start) [QRUpdate Num.zero; QRUpdate Num.zero].
Proof.
  split; [ reflexivity | ].
  apply (startup_qr_updates host start). reflexivity.
Defined.

Lemma addToCart_order_witness :
  cart (execState (addToCart host vada) one_dosa)
  = List.app (cart one_dosa)
      [("B", mkLine "B" "Vada" (Num.int 120) (Num.int 1))]
  /\ JsMap.keys (cart (execState (addToCart host dosa_renamed) one_dosa))
     = JsMap.keys (cart one_dosa).
Proof.
  split.
  - apply (proj1 (addToCart_order host one_dosa vada)). reflexivity.
  - apply (proj2 (addToCart_order host one_dosa dosa_renamed)).
    intros H. discriminate H.
Defined.

Lemma removal_keeps_others_witness :
  cart (execState (removeFromCart host "A") dosas_and_idli)
  = List.filter (fun kl => negb (String.eqb (fst kl) "A"))
      (cart dosas_and_idli)
  /\ cart (execState (updateQuantity host "A" (Num.int (-2))) dosas_and_idli)
     = List.filter (fun kl => negb (String.eqb (fst kl) "A"))
         (cart dosas_and_idli).
Proof.
  split.
  - exact (proj1 (removal_keeps_others host dosas_and_idli "A"
                    wf_dosas_and_idli)).
  - apply (proj2 (proj2 (removal_keeps_others host dosas_and_idli "A"
                           wf_dosas_and_idli))
             (mkLine "A" "Dosa" (Num.int 80) (Num.int 2)) 2 (-2)).
    + reflexivity.
    + reflexivity.
    + vm_compute. congruence.
Defined.

Lemma addToCart_total_witness :
  itemsTotal (evalState calculateTotals dosas_and_vada) = Num.int 280
  /\ itemsTotal
       (evalState calculateTotals
          (execState (addToCart host dosa_renamed) dosas_and_vada))
     = Num.int (280 + 80).
Proof.
  apply (addToCart_total host dosas_and_vada dosa_renamed 280 80).
  - vm_compute. reflexivity.
  - exact small_dosas_and_vada.
  - reflexivity.
  - vm_compute. congruence.
  - vm_compute. congruence.
Defined.

Lemma removal_and_update_total_witness :
  itemsTotal (evalState calculateTotals dosas_and_vada) = Num.int 280
  /\ itemsTotal
       (evalState calculateTotals
          (execState (updateQuantity host "A" (Num.int 1)) dosas_and_vada))
     = Num.int (280 + 1 * 80)
  /\ itemsTotal
       (evalState calculateTotals
          (execState (updateQuantity host "A" (Num.int (-2))) dosas_and_vada))
     = Num.int (280 - 80 * 2)
  /\ itemsTotal
       (evalState calculateTotals
          (execState (removeFromCart host "A") dosas_and_vada))
     = Num.int (280 - 80 * 2).
Proof.
  assert (Hget : JsMap.get "A" (cart dosas_and_vada)
                 = Some (mkLine "A" "Dosa" (Num.int 80) (Num.int 2)))
    by reflexivity.
  assert (Hwhole : whole_total (cart dosas_and_vada) = Some 280)
    by (vm_compute; reflexivity).
  assert (Hbound : 280 <= 2 ^ 53) by (vm_compute; congruence).
  pose proof (removal_and_update_total host dosas_and_vada "A" _ 280 80 2
                Hget Hwhole Hbound eq_refl eq_refl)
    as (Htotal & Hstay & Hgo & Hremove).
  split; [ exact Htotal | split; [ | split ] ].
  - apply (Hstay 1).
    + reflexivity.
    + vm_compute. congruence.
    + vm_compute. congruence.
  - apply (Hgo (-2)). vm_compute. congruence.
  - exact Hremove.
Defined.

Lemma store_never_alerts_witness :
  alerts (trace (execState (call host (CallAdd dosa)) start))
  = alerts (trace start).
Proof.
  apply (store_never_alerts host start (CallAdd dosa)). discriminate.
Defined.

Lemma clear_click_guard_witness :
  execState (onClearCartClick host) start = start
  /\ execState (onClearCartClick host) one_dosa
     = execState (clearCart host) one_dosa
  /\ cart (execState (onClearCartClick host) one_dosa) = JsMap.empty.
Proof.
  split.
  - apply (proj1 (clear_click_guard host start)). reflexivity.
  - apply (proj2 (clear_click_guard host one_dosa)). discriminate.
Defined.


Lemma add_click_guard_witness :
  execState (onAddToCartClick host None) start = start
  /\ execState
       (onAddToCartClick host
          (Some (mkMenuCard (Some "") (Some "Dosa") (Num.int 80))))
       start
     = start
  /\ execState
       (onAddToCartClick host
          (Some (mkMenuCard (Some "A") (Some "Dosa") Num.NaN)))
       start
     = start
  /\ execState (onAddToCartClick host (Some dosa_card)) start
     = execState (addToCart host (mkItem "A" "Dosa" (Num.int 80))) start
  /\ execState
       (onAddToCartClick host
          (Some (mkMenuCard (Some "A") (Some "Dosa") (Num.Inf false))))
       start
     = execState (addToCart host (mkItem "A" "Dosa" (Num.Inf false))) start.
Proof.
  split; [ | split; [ | split; [ | split ] ] ].
  - apply (proj1 (add_click_guard host start None)). exact I.
  - apply (proj1 (add_click_guard host start
                    (Some (mkMenuCard (Some "") (Some "Dosa") (Num.int 80))))).
    left. reflexivity.
  - apply (proj1 (add_click_guard host start
                    (Some (mkMenuCard (Some "A") (Some "Dosa") Num.NaN)))).
    right. right. reflexivity.
  - apply (proj2 (add_click_guard host start (Some dosa_card))
             "A" "Dosa" (Num.int 80)).
    + reflexivity.
    + discriminate.
    + discriminate.
    + reflexivity.
  - apply (proj2 (add_click_guard host start
                    (Some (mkMenuCard (Some "A") (Some "Dosa")
                             (Num.Inf false))))
             "A" "Dosa" (Num.Inf false)).
    + reflexivity.
    + discriminate.
    + discriminate.
    + reflexivity.
Defined.

Lemma cart_click_guard_witness :
  execState (onCartItemsClick host (mkTarget None true (Some "increase") true))
    one_dosa
  = one_dosa
  /\ execState (onCartItemsClick host decrease_dosa) one_dosa
     = execState (updateQuantity host "A" (Num.int (-1))) one_dosa
  /\ execState
       (onCartItemsClick host (mkTarget (Some (Some "A")) false None true))
       one_dosa
     = execState (removeFromCart host "A") one_dosa.
Proof.
  split; [ | split ].
  - apply (proj1 (cart_click_guard host one_dosa
                    (mkTarget None true (Some "increase") true))).
    left. reflexivity.
  - apply (proj1 (proj2 (cart_click_guard host one_dosa decrease_dosa)) "A").
    + reflexivity.
    + discriminate.
    + reflexivity.
    + reflexivity.
    + reflexivity.
  - apply (proj2 (proj2 (cart_click_guard host one_dosa
                           (mkTarget (Some (Some "A")) false None true)))
             "A").
    + reflexivity.
    + discriminate.
    + reflexivity.
    + reflexivity.
Defined.

Lemma visited_after_one_click :
  Visited host
    (execState (click host (ClickAddToCart (Some dosa_card)))
       (execState (onDOMContentLoaded host) start)).
Proof. apply Visited_click, Visited_loaded. reflexivity. Defined.

Lemma visited_shows_cart_witness :
  shows_cart host
    (execState (click host (ClickAddToCart (Some dosa_card)))
       (execState (onDOMContentLoaded host) start)).
Proof. exact (visited_shows_cart host _ visited_after_one_click). Defined.

Lemma visited_qr_is_current_witness :
  exists t : list Event,
    trace
      (execState (click host (ClickAddToCart (Some dosa_card)))
         (execState (onDOMContentLoaded host) start))
    = List.app t
        [QRUpdate
           (grandTotal
              (evalState calculateTotals
                 (execState (click host (ClickAddToCart (Some dosa_card)))
                    (execState (onDOMContentLoaded host) start))))].
Proof. exact (visited_qr_is_current host _ visited_after_one_click). Defined.

Lemma visited_entries_ok_witness :
  JsMap.wf_map
    (cart
       (execState (click host (ClickAddToCart (Some dosa_card)))
          (execState (onDOMContentLoaded host) start)))
  /\ Forall entry_ok
       (cart
          (execState (click host (ClickAddToCart (Some dosa_card)))
             (execState (onDOMContentLoaded host) start))).
Proof. exact (visited_entries_ok host _ visited_after_one_click). Defined.

Lemma startup_second_qr_update_redundant_witness :
  dom (execState (updateQRCode host Num.zero)
         (execState (renderCart host) start))
  = dom (execState (renderCart host) start).
Proof.
  apply (startup_second_qr_update_redundant host start). reflexivity.
Defined.

Lemma formatINR_whole_witness :
  formatINR host (Num.int 160) = currency_symbol ++ JsNumber.digits 160.
Proof.
  apply (formatINR_whole host 160). split; vm_compute; congruence.
Defined.

Lemma toFixed_two_decimals_witness :
  exists (whole frac : string) (n : Z),
    toFixed host (421 # 2) 2 = whole ++ "." ++ frac
    /\ (1 <= String.length whole)%nat
    /\ String.length frac = 2%nat
    /\ read_digits (whole ++ frac) = Some n
    /\ rounds_to ((421 # 2) * 100) n.
Proof.
  apply (toFixed_two_decimals host (421 # 2)).
  - discriminate.
  - reflexivity.
Defined.

Lemma updateQRCode_page_witness :
  dom (execState (updateQRCode host (Num.of_Q (421 # 2))) start_without_qr)
  = dom start_without_qr
  /\ qrCodeImage
       (dom (execState (updateQRCode host (Num.of_Q (421 # 2))) start))
     = Some
         ("https://api.qrserver.com/v1/create-qr-code/?size=200x200&data=upi%3A%2F%2Fpay%3Fpa%3Dharishkannan1813-1%40okicici%26pn%3DSouth%2520Spice%2520Restaurant%26am%3D"
          ++ toFixed host (Num.to_Q (421 * 2 ^ 1073)) 2
          ++ "%26cu%3DINR%26tn%3DRestaurant%2520Bill")
  /\ qrAmountText
       (dom (execState (updateQRCode host (Num.of_Q (421 # 2))) start))
     = "Total Amount: " ++ formatINR host (Num.of_Q (421 # 2)).
Proof.
  split.
  - apply (proj1 (updateQRCode_page host start_without_qr
                    (Num.of_Q (421 # 2)))).
    reflexivity.
  - apply (proj2 (updateQRCode_page host start (Num.of_Q (421 # 2)))
             (421 * 2 ^ 1073)).
    + discriminate.
    + vm_compute. reflexivity.
    + vm_compute. discriminate.
    + vm_compute. reflexivity.
Defined.

Lemma navbar_clicks_witness :
  (In "show" (onNavToggleClick ["nav-links"]) <-> ~ In "show" ["nav-links"])
  /\ (In "nav-links" (onNavToggleClick ["nav-links"])
      <-> In "nav-links" ["nav-links"])
  /\ ~ In "show" (onNavLinksClick "A" ["nav-links"; "show"])
  /\ onNavLinksClick "DIV" ["nav-links"; "show"] = ["nav-links"; "show"].
Proof.
  pose proof (navbar_clicks ["nav-links"]) as (Hshow & Hother & _).
  pose proof (navbar_clicks ["nav-links"; "show"])
    as (_ & _ & _ & Hlink & Helse).
  split; [ exact Hshow | ].
  split; [ apply Hother; discriminate | ].
  split; [ apply (Hlink "A"); left; reflexivity | ].
  apply (Helse "DIV"). discriminate.
Defined.

Lemma reachable_entries_keyed_witness :
  JsMap.wf_map (cart (execState (call host (CallAdd dosa)) start))
  /\ (forall (k : string) (item : Line),
      In (k, item) (cart (execState (call host (CallAdd dosa)) start)) ->
      line_id item = k).
Proof.
  apply (reachable_entries_keyed host).
  apply Reachable_call; [ apply Reachable_start; reflexivity | exact I ].
Defined.

Lemma add_then_decrease_restores_witness :
  cart (execState
          (addToCart host vada ;; updateQuantity host "B" (Num.int (-1)))
          dosas_and_vada)
  = cart dosas_and_vada.
Proof.
  apply (add_then_decrease_restores host dosas_and_vada vada).
  exact small_dosas_and_vada.
Defined.

(* ===================================================================== *)
(** ** The scenarios of the specification *)
(* ===================================================================== *)

(** Dosa at 80 added twice: one entry, quantity 2, line total 160. *)
Example scenario_add_twice :
  cart (execState (addAll host [dosa; dosa]) start)
  = [("A", mkLine "A" "Dosa" (Num.int 80) (Num.int 2))]
  /\ List.map row_innerHTML
       (cartItems (dom (execState (addAll host [dosa; dosa]) start)))
     = [cart_row_html "Dosa" "2" (currency_symbol ++ "80")
          (currency_symbol ++ "160")].
Proof. split; vm_compute; reflexivity. Qed.

(** One item added and its quantity lowered by 1: the cart is empty and the
    totals are 0. *)
Example scenario_add_then_decrease :
  cart (execState
          (addToCart host vada ;; updateQuantity host "B" (Num.int (-1)))
          start)
  = JsMap.empty
  /\ evalState
       (addToCart host vada ;; updateQuantity host "B" (Num.int (-1)) ;;
        calculateTotals) start
     = mkTotals Num.zero Num.zero.
Proof. split; vm_compute; reflexivity. Qed.

(** Dosa at 80 and vada at 120: both totals are 200. *)
Example scenario_two_items :
  evalState (addToCart host dosa ;; addToCart host vada ;; calculateTotals)
    start
  = mkTotals (Num.int 200) (Num.int 200).
Proof. vm_compute. reflexivity. Qed.

(** [clearCart], then [calculateTotals]: no entry and totals 0. *)
Example scenario_clear :
  cart (execState (clearCart host) dosas_and_idli) = JsMap.empty
  /\ evalState (clearCart host ;; calculateTotals) dosas_and_idli
     = mkTotals Num.zero Num.zero.
Proof. split; vm_compute; reflexivity. Qed.

(** The display rounds to the nearest integer, a half upwards; it does not
    cut the decimals off. *)
Example formatINR_half :
  formatINR host (Num.of_Q (3 # 2)) = currency_symbol ++ "2"
  /\ formatINR host (Num.of_Q (7 # 5)) = currency_symbol ++ "1"
  /\ formatINR host (Num.of_Q (101 # 2)) = currency_symbol ++ "51".
Proof. repeat split; vm_compute; reflexivity. Qed.

(** The totals keep the halves the display rounds: two lines of 50.5 sum
    to 101, not to 102. *)
Example totals_not_rounded :
  itemsTotal
    (evalState
       (addToCart host idli ;;
        addToCart host (mkItem "C" "Pongal" (Num.of_Q (101 # 2))) ;;
        calculateTotals)
       start)
  = Num.int 101.
Proof. vm_compute. reflexivity. Qed.

(** Products and sums are rounded as the script rounds them: 0.1 + 0.2 is
    the double above 0.3; 0.3 x 5 is the double 1.5, displayed as 2; and
    10.075 x 5 is the double 50.375, which the payment request writes as
    50.38. *)
Example double_arithmetic :
  itemsTotal (evalState calculateTotals tenths)
  = Num.of_Q (30000000000000004 # 100000000000000000)
  /\ formatINR host (Num.mul (Num.of_Q (3 # 10)) (Num.int 5))
     = currency_symbol ++ "2"
  /\ number_toFixed host
       (Num.mul (Num.of_Q (10075 # 1000)) (Num.int 5)) 2
     = "50.38".
Proof. repeat split; vm_compute; reflexivity. Qed.
